(** * makeindex.py: title classification, period resolution, index merge

    A shallow embedding of [src/makeindex/makeindex.py] (the index generator
    of the "History of Byzantium" podcast site) and the properties of its
    classification and merge engine.

    Modelling conventions.
    - A Python [str] is a Rocq [string] holding the UTF-8 encoding of the
      text.  The three non-ASCII code points the script names are the en
      dash U+2013 (bytes 226 128 147), the no-break space U+00A0 (bytes
      194 160) and the object replacement character U+FFFC (bytes
      239 191 188).  All
      character classes used by the script are ASCII, and UTF-8 is
      self-synchronising, so searching and replacing in the encoded text
      finds exactly the occurrences the script finds.  The one slice of the
      script, [content[:10]], is taken on a date, which is ASCII.
    - [None] is [option]'s [None]; Python truthiness is written out
      ([truthy], [nonempty]).
    - A Python exception is a value [Raise e] of [result]; nothing catches
      exceptions in the script, so they propagate through [bind].
    - [re.search] is a small backtracking matcher over the fragment of the
      regular-expression syntax the script uses (literals, classes, greedy
      star, plus and option, groups, [^] and [$]), with Python's order of
      attempts: leftmost start, longest repetition first.  The patterns of
      the script are values of [regex].
    - [int(s)] reads an optional sign and decimal digits, single underscores
      between digits allowed, after stripping the white space of an ASCII
      text (the bytes 9 to 13 and 32); digits and spaces outside ASCII are
      left out.  The interpreter's limit on the number of digits
      ([sys.int_max_str_digits], 4300 unless it is set otherwise) is not part
      of [int] here; the properties that say that a merge runs to its end
      bound the texts that [int] reads by [max_str_digits].
    - The index document (a PyQuery tree in the script) is the record
      [IndexDoc]: the attributes of the [#state] marker, the skip markers,
      and the panels with the rows appended to their tables.  The elements
      the script addresses by a fixed selector ([#state], the table of
      [div.panel.all]) are taken to be there, and every century panel to
      carry its two attributes; whether [#makeindex-data] is there is the
      field [makeindex_data], since the script raises when it is not;
      attribute values are text, read as
      the script reads them.  A selector that matches several elements acts
      on all of them ([append], [remove]) and reads the first ([attr]), as
      PyQuery does.  Rows are the markup strings the script builds.
    - The wall clock is the parameter [today], the site is the parameter
      [web], and the loop of the script takes fuel. *)

From Stdlib Require Import String Ascii List ZArith Lia Bool Arith Permutation.
From Stdlib Require Import DecimalString DecimalZ.
Import ListNotations.

Local Open Scope list_scope.
Local Open Scope string_scope.

(* ================================================================= *)
(** ** Exceptions *)

Inductive exn : Type :=
| AttributeError   (* attribute access on None, e.g. [None.group(1)] *)
| ValueError       (* [int('')] *)
| TypeError        (* [None[:10]] *)
| FetchError.      (* the page could not be retrieved *)

Inductive result (A : Type) : Type :=
| Ok (a : A)
| Raise (e : exn).

Arguments Ok {A} a.
Arguments Raise {A} e.

Definition bind {A B : Type} (m : result A) (f : A -> result B) : result B :=
  match m with
  | Ok a => f a
  | Raise e => Raise e
  end.

Notation "x <- m ;; k" := (bind m (fun x => k))
  (at level 61, m at next level, right associativity).

(* ================================================================= *)
(** ** Strings *)

Module Str.

(** The non-ASCII text the script mentions, UTF-8 encoded. *)
Definition ndash : string := "–".
Definition nbsp : string := String (ascii_of_nat 194) (String (ascii_of_nat 160) "").
Definition obj : string :=
  String (ascii_of_nat 239) (String (ascii_of_nat 191) (String (ascii_of_nat 188) "")).
Definition LF : ascii := ascii_of_nat 10.

Definition in_range (lo hi : nat) (c : ascii) : bool :=
  (lo <=? nat_of_ascii c)%nat && (nat_of_ascii c <=? hi)%nat.

Definition is_digit : ascii -> bool := in_range 48 57.      (* [0-9] *)
Definition is_digit19 : ascii -> bool := in_range 49 57.    (* [1-9] *)
Definition is_lower : ascii -> bool := in_range 97 122.     (* [a-z] *)
Definition is_upper : ascii -> bool := in_range 65 90.      (* [A-Z] *)
Definition is_dash (c : ascii) : bool := Ascii.eqb c "-".
Definition is_space (c : ascii) : bool := Ascii.eqb c " ".
Definition not_LF (c : ascii) : bool := negb (Ascii.eqb c LF).   (* [.] *)

(** Python truthiness of a [str]. *)
Definition nonempty (s : string) : bool :=
  match s with
  | EmptyString => false
  | String _ _ => true
  end.

Fixpoint all (p : ascii -> bool) (s : string) : bool :=
  match s with
  | EmptyString => true
  | String c s' => p c && all p s'
  end.

(** [strip_prefix l s] is [Some t] when [s = l ++ t]. *)
Fixpoint strip_prefix (l s : string) : option string :=
  match l with
  | EmptyString => Some s
  | String a l' =>
      match s with
      | EmptyString => None
      | String b s' => if Ascii.eqb a b then strip_prefix l' s' else None
      end
  end.

(** [s.find(t) == 0] *)
Definition startswith (s t : string) : bool :=
  match strip_prefix t s with
  | Some _ => true
  | None => false
  end.

(** [s.replace(old, new)] for a non-empty [old]: the occurrences of [old]
    are replaced from left to right, without overlap.  [skip] counts the
    characters of an occurrence still to be dropped. *)
Fixpoint replace_aux (old new : string) (skip : nat) (s : string) : string :=
  match s with
  | EmptyString => EmptyString
  | String c s' =>
      match skip with
      | S k => replace_aux old new k s'
      | O =>
          if startswith s old
          then new ++ replace_aux old new (String.length old - 1) s'
          else String c (replace_aux old new 0 s')
      end
  end.

Definition replace (old new s : string) : string := replace_aux old new 0 s.

(** [s.split(sep)] for a one-character separator. *)
Fixpoint split (sep : ascii) (s : string) : list string :=
  match s with
  | EmptyString => [EmptyString]
  | String c s' =>
      if Ascii.eqb c sep then EmptyString :: split sep s'
      else match split sep s' with
           | x :: xs => String c x :: xs
           | [] => [String c EmptyString]
           end
  end.

(** [sep.join(xs)] *)
Fixpoint join (sep : string) (xs : list string) : string :=
  match xs with
  | [] => EmptyString
  | [x] => x
  | x :: xs' => x ++ sep ++ join sep xs'
  end.

(** [s[:n]] *)
Definition take (n : nat) (s : string) : string := substring 0 n s.

End Str.

(* ================================================================= *)
(** ** Integers: [int(s)] and ['%d' % n] *)

Module PyInt.

(** White space [int] strips from an ASCII text: tab, line feed, vertical
    tab, form feed, carriage return and space. *)
Definition is_ws (c : ascii) : bool :=
  Str.in_range 9 13 c || Ascii.eqb c " ".

Fixpoint lstrip (s : string) : string :=
  match s with
  | String c s' => if is_ws c then lstrip s' else s
  | EmptyString => EmptyString
  end.

Fixpoint rstrip (s : string) : string :=
  match s with
  | String c s' =>
      match rstrip s' with
      | EmptyString => if is_ws c then EmptyString else String c EmptyString
      | r => String c r
      end
  | EmptyString => EmptyString
  end.

Definition digit_value (c : ascii) : Z := Z.of_nat (nat_of_ascii c) - 48.

(** Decimal digits, single underscores allowed between digits.
    [prev] tells whether the previous character was a digit. *)
Fixpoint digits (acc : Z) (prev : bool) (s : string) : option Z :=
  match s with
  | EmptyString => if prev then Some acc else None
  | String c s' =>
      if Str.is_digit c then digits (10 * acc + digit_value c) true s'
      else if Ascii.eqb c "_" && prev then digits acc false s'
      else None
  end.

(** [int(s)]: [None] stands for ValueError. *)
Definition parse (s : string) : option Z :=
  match rstrip (lstrip s) with
  | EmptyString => None
  | String c t =>
      if Ascii.eqb c "-" then option_map Z.opp (digits 0 false t)
      else if Ascii.eqb c "+" then digits 0 false t
      else digits 0 false (String c t)
  end.

(** ['%d' % n] *)
Definition to_string (n : Z) : string := NilZero.string_of_int (Z.to_int n).

End PyInt.

Definition py_int (s : string) : result Z :=
  match PyInt.parse s with
  | Some n => Ok n
  | None => Raise ValueError
  end.

(* ================================================================= *)
(** ** Regular expressions: [re.search] *)

Module Re.

Inductive regex : Type :=
| Lit (s : string)              (* literal text *)
| Cls (p : ascii -> bool)       (* one character of a class *)
| Star (p : ascii -> bool)      (* greedy repetition of a class *)
| Opt (r : regex)               (* greedy option *)
| Seq (r1 r2 : regex)
| Group (n : nat) (r : regex)   (* capturing group number [n] *)
| Bol                           (* [^] *)
| Eol.                          (* [$] *)

Definition Plus (p : ascii -> bool) : regex := Seq (Cls p) (Star p).

(** Captured groups: number and captured text, most recent first. *)
Definition caps : Type := list (nat * string).

(** A match: where it starts and ends in the subject, and its groups. *)
Record Match : Type := { m_start : nat; m_end : nat; m_caps : caps }.

(** A continuation receives the position reached, the rest of the subject
    and the groups captured so far. *)
Definition cont : Type := nat -> string -> caps -> option Match.

(** Greedy star: take one more character if the class allows it, fall
    back to the continuation when the longer attempt fails. *)
Fixpoint star (p : ascii -> bool) (pos : nat) (s : string) (cs : caps)
    (k : cont) {struct s} : option Match :=
  match s with
  | String c s' =>
      if p c then
        match star p (S pos) s' cs k with
        | Some m => Some m
        | None => k pos s cs
        end
      else k pos s cs
  | EmptyString => k pos s cs
  end.

Fixpoint exec (r : regex) (pos : nat) (s : string) (cs : caps) (k : cont)
    {struct r} : option Match :=
  match r with
  | Lit l =>
      match Str.strip_prefix l s with
      | Some s' => k (pos + String.length l)%nat s' cs
      | None => None
      end
  | Cls p =>
      match s with
      | String c s' => if p c then k (S pos) s' cs else None
      | EmptyString => None
      end
  | Star p => star p pos s cs k
  | Opt r' =>
      match exec r' pos s cs k with
      | Some m => Some m
      | None => k pos s cs
      end
  | Seq r1 r2 => exec r1 pos s cs (fun pos' s' cs' => exec r2 pos' s' cs' k)
  | Group n r' =>
      exec r' pos s cs
        (fun pos' s' cs' => k pos' s' ((n, Str.take (pos' - pos) s) :: cs'))
  | Bol => if (pos =? 0)%nat then k pos s cs else None
  | Eol =>
      (* at the end, or just before a line feed that ends the subject *)
      match s with
      | EmptyString => k pos s cs
      | String c EmptyString => if Ascii.eqb c Str.LF then k pos s cs else None
      | _ => None
      end
  end.

(** The last continuation: the pattern has matched from [start] on. *)
Definition accept (start : nat) : cont :=
  fun e _ cs => Some {| m_start := start; m_end := e; m_caps := cs |}.

(** The leftmost start position at which the pattern matches. *)
Fixpoint search_from (r : regex) (pos : nat) (s : string) : option Match :=
  match exec r pos s [] (accept pos) with
  | Some m => Some m
  | None =>
      match s with
      | String _ s' => search_from r (S pos) s'
      | EmptyString => None
      end
  end.

(** [re.search(r, s)] *)
Definition search (r : regex) (s : string) : option Match := search_from r 0 s.

Fixpoint lookup (n : nat) (cs : caps) : option string :=
  match cs with
  | [] => None
  | (i, v) :: cs' => if (i =? n)%nat then Some v else lookup n cs'
  end.

(** [m.group(n)]; every group of the script's patterns takes part in every
    match, so the text is always there. *)
Definition group (n : nat) (m : Match) : string :=
  match lookup n (m_caps m) with
  | Some v => v
  | None => EmptyString
  end.

End Re.

(* ================================================================= *)
(** ** The web page of a publication *)

(** An element of the page tree, as [lxml] shows it: [text] is the text
    before the first child ([None] when there is none). *)
#[warnings="-register-all"]
Inductive elem : Type :=
| Elem (text : option string) (children : list elem).

Definition elem_text (e : elem) : option string :=
  match e with Elem t _ => t end.

(** What the script reads from a fetched page. *)
Record Page : Type := {
  nav_next : option string;        (* D('div.nav-next > a').attr('href') *)
  entry_title : string;            (* D('h1.entry-title').text() *)
  period_els : list elem;          (* D('#content p:contains("Period:")') *)
  published_time : option string   (* D('meta[property="article:published_time"]').attr('content') *)
}.

(** Python truthiness of a value that is [None] or a [str]. *)
Definition truthy (o : option string) : bool :=
  match o with
  | Some s => Str.nonempty s
  | None => false
  end.

(** ['%s' % v] for a value that is [None] or a [str]. *)
Definition str_of (o : option string) : string :=
  match o with
  | Some s => s
  | None => "None"
  end.

(* ================================================================= *)
(** ** class Publication *)

Inductive PubType : Type := news | podcast | special.

Definition PubType_eqb (a b : PubType) : bool :=
  match a, b with
  | news, news | podcast, podcast | special, special => true
  | _, _ => false
  end.

Module Pat.
Import Re Str.

Infix "+++" := Seq (at level 60, right associativity).

Definition letter_or_space (c : ascii) : bool :=
  is_upper c || is_lower c || is_space c.                    (* [A-Za-z ] *)
Definition digit_or_dash (c : ascii) : bool := is_digit c || is_dash c.   (* [0-9-] *)
Definition is_dot (c : ascii) : bool := Ascii.eqb c ".".

Definition sep : string := " " ++ ndash ++ " ".

(** [[0-9]+[a-z]?] *)
Definition code : regex := Plus is_digit +++ Opt (Cls is_lower).

(** [Episode [0-9]+[a-z]? – ] *)
Definition episode : regex := Lit "Episode " +++ code +++ Lit sep.

(** [^Episode ([0-9]+[a-z]?) – (R)$] where [R] is [.*] *)
Definition podcast : regex :=
  Bol +++ Lit "Episode " +++ Group 1 code +++ Lit sep +++ Group 2 (Star not_LF) +++ Eol.

(** [^([A-Za-z ]+)[.]? Episode ([0-9]+[a-z]?) – (R)$] where [R] is [.*] *)
Definition special : regex :=
  Bol +++ Group 1 (Plus letter_or_space) +++ Opt (Cls is_dot) +++ Lit " Episode "
      +++ Group 2 code +++ Lit sep +++ Group 3 (Star not_LF) +++ Eol.

(** [ Part ([0-9]+) – ], with the leading space *)
Definition part : regex := Lit " Part " +++ Group 1 (Plus is_digit) +++ Lit sep.

(** [^Period: (R)$] where [R] is [.*] *)
Definition period : regex := Bol +++ Lit "Period: " +++ Group 1 (Star not_LF) +++ Eol.

(** [^Period: ([1-9][0-9][0-9-]+)] *)
Definition years : regex :=
  Bol +++ Lit "Period: " +++ Group 1 (Cls is_digit19 +++ Cls is_digit +++ Plus digit_or_dash).

(** [^[0-9]+$] *)
Definition numeric : regex := Bol +++ Plus is_digit +++ Eol.

End Pat.

(** The state of a [Publication] object after [__init__]. *)
Record Publication : Type := {
  url : string;
  type : PubType;
  next : option string;     (* newer publication *)
  urltitle : string;        (* full page title *)
  title : string;           (* main heading, pared down if needed *)
  episode : string;         (* numeric code, for podcast or special episodes *)
  series : option string;   (* for special episodes *)
  period : string;          (* when specified *)
  D : Page
}.

(** The part of the object the title decides. *)
Record Fragment : Type := {
  f_type : PubType;
  f_episode : string;
  f_series : option string;
  f_title : string
}.

(** The replacements applied to the text of the heading. *)
Definition normalize (h1 : string) : string :=
  Str.replace Str.obj ""
    (Str.replace "&#8211;" Str.ndash
       (Str.replace Str.nbsp " "
          (Str.replace "&nbsp;" " " h1))).

(** The news headlines that are condensed. *)
Definition short_headlines : list string :=
  [ "Cage Match Podcast";
    "An interview with Robert Horvat";
    "An interview with Barry Strauss" ].

Fixpoint shorten (heads : list string) (urltitle : string) : string :=
  match heads with
  | [] => urltitle
  | shortit :: rest =>
      if Str.startswith urltitle shortit then shortit else shorten rest urltitle
  end.

(** Type, episode code, series and title from the page title
    ([__init__], from [title = urltitle] to [self.title = title]). *)
Definition classify (urltitle : string) : result Fragment :=
  match Re.search Pat.episode urltitle with
  | Some epmatch =>
      if (Re.m_start epmatch =? 0)%nat then
        (* regular podcast episode *)
        match Re.search Pat.podcast urltitle with
        | None => Raise AttributeError
        | Some podmatch =>
            Ok {| f_type := podcast;
                  f_episode := Re.group 1 podmatch;
                  f_series := None;
                  f_title := Re.group 2 podmatch |}
        end
      else
        (* special episode *)
        match Re.search Pat.special urltitle with
        | None => Raise AttributeError
        | Some epmatch =>
            let title := Re.group 3 epmatch in
            let sername := Re.group 1 epmatch in
            if String.eqb sername "Byzantine Stories" then
              let eppath := [Re.group 2 epmatch] in
              let eppath :=
                match Re.search Pat.part title with
                | Some ptmatch => (eppath ++ [Re.group 1 ptmatch])%list
                | None => eppath
                end in
              Ok {| f_type := special;
                    f_episode := Str.join "." eppath;
                    f_series := Some "stories";
                    f_title := title |}
            else if String.eqb sername "Backer Rewards" then
              Ok {| f_type := special;
                    f_episode := Re.group 2 epmatch;
                    f_series := Some "rewards";
                    f_title := title |}
            else
              (* unknown series: treated as an announcement *)
              Ok {| f_type := news;
                    f_episode := "";
                    f_series := None;
                    f_title := urltitle |}
        end
  | None =>
      Ok {| f_type := news;
            f_episode := "";
            f_series := None;
            f_title := shorten short_headlines urltitle |}
  end.

(** The innermost first child: [while currEl.getchildren(): currEl = currEl.getchildren()[0]]. *)
Fixpoint innermost (e : elem) : elem :=
  match e with
  | Elem _ (c :: _) => innermost c
  | Elem _ [] => e
  end.

(** The body of the loop of [getPeriod] for one element: the new value of
    [period]. *)
Definition period_of_elem (period : string) (el : elem) : result string :=
  match elem_text (innermost el) with
  | None => Raise AttributeError
  | Some text =>
      let pertext := Str.replace Str.nbsp " " text in
      match Re.search Pat.period pertext with
      | None => Ok period
      | Some permatch =>
          match Re.search Pat.years pertext with
          | Some yrsmatch =>
              let period := Re.group 1 yrsmatch in
              let fromto := Str.split "-" period in
              match fromto with
              | f0 :: f1 :: _ =>
                  fr <- py_int f0 ;;
                  to <- py_int f1 ;;
                  let to :=
                    if (to <? 10)%Z then (fr / 10 * 10 + to)%Z
                    else if (to <? 100)%Z then (fr / 100 * 100 + to)%Z
                    else to in
                  Ok (PyInt.to_string fr ++ "-" ++ PyInt.to_string to)
              | _ => Ok period
              end
          | None =>
              Ok (Str.replace "century" "c."
                    (Str.replace " " Str.nbsp (Re.group 1 permatch)))
          end
      end
  end.

Fixpoint period_loop (period : string) (els : list elem) : result string :=
  match els with
  | [] => Ok period
  | el :: rest => p <- period_of_elem period el ;; period_loop p rest
  end.

Definition cyprus_title : string := "Cyprus: 565 " ++ Str.ndash ++ " 965 AD".

(** [getPeriod], from the title and the page of the object. *)
Definition getPeriod (title : string) (D : Page) : result string :=
  if String.eqb title cyprus_title then Ok "565-965"
  else period_loop "" (period_els D).

(** [Publication.__init__] once the page has been read. *)
Definition init_from_page (url : string) (D : Page) : result Publication :=
  let urltitle := normalize (entry_title D) in
  f <- classify urltitle ;;
  p <- getPeriod (f_title f) D ;;
  Ok {| url := url;
        type := f_type f;
        next := nav_next D;
        urltitle := urltitle;
        title := f_title f;
        episode := f_episode f;
        series := f_series f;
        period := p;
        D := D |}.

(** The site: what [pq(url=...)] answers, [None] when the page cannot be
    read. *)
Definition Web : Type := string -> option Page.

(** [Publication(url)] *)
Definition Publication_init (web : Web) (url : string) : result Publication :=
  match web url with
  | None => Raise FetchError
  | Some D => init_from_page url D
  end.

(* ================================================================= *)
(** ** The index document *)

(** A [div.panel.century]: its attributes and the rows of its table. *)
Record CenturyPanel : Type := {
  data_century : string;
  data_first_ep : string;
  century_rows : list string
}.

(** A [div.panel.special]. *)
Record SeriesPanel : Type := {
  data_series : string;
  series_rows : list string
}.

(** The index: the attributes of [#state] ([None] when the attribute is
    not there), the [data-url] of the [span.skip] markers in document
    order, the century panels in sibling order, the series panels, the
    rows of the table of [div.panel.all], and whether the element
    [#makeindex-data] is there. *)
Record IndexDoc : Type := {
  data_curr_pub : option string;
  data_first_pub : option string;
  data_curr_century : option string;
  data_curr_index_date : option string;
  skip : list string;
  century_panels : list CenturyPanel;
  special_panels : list SeriesPanel;
  all_rows : list string;
  makeindex_data : bool
}.

Definition set_skip (d : IndexDoc) (v : list string) : IndexDoc :=
  {| data_curr_pub := data_curr_pub d; data_first_pub := data_first_pub d;
     data_curr_century := data_curr_century d;
     data_curr_index_date := data_curr_index_date d;
     skip := v; century_panels := century_panels d;
     special_panels := special_panels d; all_rows := all_rows d;
     makeindex_data := makeindex_data d |}.

Definition set_curr_century (d : IndexDoc) (v : option string) : IndexDoc :=
  {| data_curr_pub := data_curr_pub d; data_first_pub := data_first_pub d;
     data_curr_century := v;
     data_curr_index_date := data_curr_index_date d;
     skip := skip d; century_panels := century_panels d;
     special_panels := special_panels d; all_rows := all_rows d;
     makeindex_data := makeindex_data d |}.

Definition set_curr_index_date (d : IndexDoc) (v : option string) : IndexDoc :=
  {| data_curr_pub := data_curr_pub d; data_first_pub := data_first_pub d;
     data_curr_century := data_curr_century d;
     data_curr_index_date := v;
     skip := skip d; century_panels := century_panels d;
     special_panels := special_panels d; all_rows := all_rows d;
     makeindex_data := makeindex_data d |}.

Definition set_curr_pub (d : IndexDoc) (v : option string) : IndexDoc :=
  {| data_curr_pub := v; data_first_pub := data_first_pub d;
     data_curr_century := data_curr_century d;
     data_curr_index_date := data_curr_index_date d;
     skip := skip d; century_panels := century_panels d;
     special_panels := special_panels d; all_rows := all_rows d;
     makeindex_data := makeindex_data d |}.

(** [iDom('div.panel.century[data-century="c"] table').append(tr)] *)
Definition append_century (c tr : string) (d : IndexDoc) : IndexDoc :=
  {| data_curr_pub := data_curr_pub d; data_first_pub := data_first_pub d;
     data_curr_century := data_curr_century d;
     data_curr_index_date := data_curr_index_date d;
     skip := skip d;
     century_panels :=
       map (fun p =>
              if String.eqb (data_century p) c
              then {| data_century := data_century p;
                      data_first_ep := data_first_ep p;
                      century_rows := (century_rows p ++ [tr])%list |}
              else p) (century_panels d);
     special_panels := special_panels d; all_rows := all_rows d;
     makeindex_data := makeindex_data d |}.

(** [iDom('div.panel.special[data-series="ser"] table').append(tr)] *)
Definition append_special (ser tr : string) (d : IndexDoc) : IndexDoc :=
  {| data_curr_pub := data_curr_pub d; data_first_pub := data_first_pub d;
     data_curr_century := data_curr_century d;
     data_curr_index_date := data_curr_index_date d;
     skip := skip d; century_panels := century_panels d;
     special_panels :=
       map (fun p =>
              if String.eqb (data_series p) ser
              then {| data_series := data_series p;
                      series_rows := (series_rows p ++ [tr])%list |}
              else p) (special_panels d);
     all_rows := all_rows d;
     makeindex_data := makeindex_data d |}.

(** [iDom('div.panel.all table').append(tr)] *)
Definition append_all (tr : string) (d : IndexDoc) : IndexDoc :=
  {| data_curr_pub := data_curr_pub d; data_first_pub := data_first_pub d;
     data_curr_century := data_curr_century d;
     data_curr_index_date := data_curr_index_date d;
     skip := skip d; century_panels := century_panels d;
     special_panels := special_panels d;
     all_rows := (all_rows d ++ [tr])%list;
     makeindex_data := makeindex_data d |}.

(** [iDom('div.panel.century[data-century="c"] + div.panel.century')]:
    the century panels that directly follow a panel named [c]. *)
Fixpoint next_siblings (c : string) (ps : list CenturyPanel) : list CenturyPanel :=
  match ps with
  | [] => []
  | p :: tl =>
      match tl with
      | q :: _ =>
          if String.eqb (data_century p) c
          then q :: next_siblings c tl
          else next_siblings c tl
      | [] => []
      end
  end.

(* ================================================================= *)
(** ** Rows *)

Definition dq : string := String (ascii_of_nat 34) "".
Definition nl : string := String Str.LF "".

(** [aFormat % (href, tip, label)] *)
Definition aFormat (href tip label : string) : string :=
  "<a target=" ++ dq ++ "_blank" ++ dq ++ " href=" ++ dq ++ href ++ dq
    ++ " title=" ++ dq ++ tip ++ dq ++ ">" ++ label ++ "</a>".

(** [trFormat.format(episode=..., title=..., period=...)] *)
Definition trFormat (ep ti pe : string) : string :=
  "<tr><td>" ++ ep ++ "</td><td>" ++ ti ++ "</td><td>" ++ pe ++ "</td></tr>" ++ nl.

Definition chrysostom_title : string := "John Chrysostom. Parts 2, 3 and 4.".

(** The three hard-coded rows: code, title, period. *)
Definition chrysostom_parts : list (string * string * string) :=
  [ ("1.2", "John Chrysostom. Part 2 " ++ Str.ndash ++ " Building Orthodoxy", "349-397");
    ("1.3", "John Chrysostom. Part 3 " ++ Str.ndash ++ " The Snake Pit", "397-400");
    ("1.4", "John Chrysostom. Part 4 " ++ Str.ndash ++ " A Byzantine Story", "400-407") ].

(* ================================================================= *)
(** ** Publication.addToIndex *)

(** The rows go to the panels: the [else] branch of the skip test. *)
Definition add_rows (self : Publication) (iDom : IndexDoc) : result IndexDoc :=
  let cell_episode :=
    if Str.nonempty (episode self)
    then aFormat (url self) (urltitle self) (episode self) else "" in
  let cell_title :=
    if Str.nonempty (episode self)
    then title self else aFormat (url self) (urltitle self) (title self) in
  let tr := trFormat cell_episode cell_title (period self) in
  if PubType_eqb (type self) special then
    (* [self.series.title()] is evaluated for the log line *)
    match series self with
    | None => Raise AttributeError
    | Some ser =>
        if String.eqb (title self) chrysostom_title then
          Ok (fold_left
                (fun d cells =>
                   let '(epcode, ti, pe) := cells in
                   append_special ser
                     (trFormat (aFormat (url self) (urltitle self) epcode) ti pe) d)
                chrysostom_parts iDom)
        else Ok (append_special ser tr iDom)
    end
  else
    let century := data_curr_century iDom in
    r <- (if PubType_eqb (type self) podcast then
            match Re.search Pat.numeric (episode self) with
            | Some _ =>
                epnum <- py_int (episode self) ;;
                match next_siblings (str_of century) (century_panels iDom) with
                | nextcpanel :: _ =>
                    nextcepnum <- py_int (data_first_ep nextcpanel) ;;
                    if (epnum >=? nextcepnum)%Z
                    then Ok (Some (data_century nextcpanel),
                             set_curr_century iDom (Some (data_century nextcpanel)))
                    else Ok (century, iDom)
                | [] => Ok (century, iDom)
                end
            | None => Ok (century, iDom)
            end
          else Ok (century, iDom)) ;;
    Ok (append_all tr (append_century (str_of (fst r)) tr (snd r))).

(** [addToIndex(self, iDom)]; [today] is [datetime.today()] formatted as
    a date.  After the markers are removed, [re.sub] is applied to
    [iDom('#makeindex-data').html()], which is [None] when the element is
    not there: [re.sub] then raises TypeError.  The blank lines it cleans
    are markup only and have no counterpart here. *)
Definition addToIndex (today : string) (self : Publication) (iDom : IndexDoc)
  : result IndexDoc :=
  let skipme := filter (String.eqb (url self)) (skip iDom) in
  iDom <- (match skipme with
           | _ :: _ =>
               let iDom :=
                 set_skip iDom
                   (filter (fun u => negb (String.eqb (url self) u)) (skip iDom)) in
               if makeindex_data iDom then Ok iDom else Raise TypeError
           | [] => add_rows self iDom
           end) ;;
  curdate <- (if truthy (next self) then
                match published_time (D self) with
                | Some content => Ok (Str.take 10 content)
                | None => Raise TypeError
                end
              else Ok today) ;;
  Ok (set_curr_pub (set_curr_index_date iDom (Some curdate)) (Some (url self))).

(* ================================================================= *)
(** ** The main loop *)

Section Main.

Variable web : Web.
Variable today : string.
Variable maxPubs : option Z.     (* [None] when no count is given *)

(** [npubs <= maxPubs], or no bound *)
Definition within (npubs : Z) : bool :=
  match maxPubs with
  | None => true
  | Some m => (npubs <=? m)%Z
  end.

(** The [while newUrl:] loop; it ends with the index and [npubs].  [fuel]
    bounds the number of iterations, [None] says it was not enough. *)
Fixpoint main_loop (fuel : nat) (newUrl : option string) (npubs : Z)
    (iDom : IndexDoc) : option (result (IndexDoc * Z)) :=
  if truthy newUrl then
    match fuel with
    | O => None
    | S fuel' =>
        match Publication_init web (str_of newUrl) with
        | Raise e => Some (Raise e)
        | Ok newPub =>
            match addToIndex today newPub iDom with
            | Raise e => Some (Raise e)
            | Ok iDom' =>
                let npubs := (npubs + 1)%Z in
                let newUrl := if within npubs then next newPub else None in
                main_loop fuel' newUrl npubs iDom'
            end
        end
    end
  else Some (Ok (iDom, npubs)).

(** The script from the reading of the index on. *)
Definition main (fuel : nat) (iDom : IndexDoc) : option (result (IndexDoc * Z)) :=
  let currUrl := data_curr_pub iDom in
  let start :=
    if truthy currUrl then
      currPub <- Publication_init web (str_of currUrl) ;; Ok (next currPub)
    else Ok (data_first_pub iDom) in
  match start with
  | Raise e => Some (Raise e)
  | Ok newUrl => main_loop fuel newUrl 0 iDom
  end.

End Main.

(* ================================================================= *)
(** ** Vocabulary of the statements *)

(** After a first digit: more digits, then at most one lower-case letter. *)
Fixpoint code_tail (s : string) : bool :=
  match s with
  | EmptyString => true
  | String c s' =>
      if Str.is_digit c then code_tail s'
      else Str.is_lower c && negb (Str.nonempty s')
  end.

(** An episode token: digits and an optional letter, as in 12 or 12a. *)
Definition is_code (s : string) : bool :=
  match s with
  | EmptyString => false
  | String c s' => Str.is_digit c && code_tail s'
  end.

(** A part number: one digit or more. *)
Definition is_number (s : string) : bool := Str.nonempty s && Str.all Str.is_digit s.

(** No line feed in the text. *)
Definition one_line (s : string) : bool := Str.all Str.not_LF s.

(** [rest] holds the words [" Part P – "] right after [pre]. *)
Definition part_at (rest pre P : string) : Prop :=
  is_number P = true /\
  exists post, rest = pre ++ " Part " ++ P ++ Pat.sep ++ post.

(** ... and nowhere before. *)
Definition first_part_at (rest pre P : string) : Prop :=
  part_at rest pre P /\
  forall pre' P', part_at rest pre' P' -> (String.length pre <= String.length pre')%nat.

Definition stories_title (N rest : string) : string :=
  "Byzantine Stories. Episode " ++ N ++ Pat.sep ++ rest.

(** The page has one paragraph with the label, and [text] is the text of
    its innermost first child. *)
Definition period_label (D : Page) (text : string) : Prop :=
  exists el, period_els D = [el] /\ elem_text (innermost el) = Some text.

(** A page with the label as the direct text of the paragraph. *)
Definition page_with_period (text : string) : Page :=
  {| nav_next := None; entry_title := ""; period_els := [Elem (Some text) []];
     published_time := None |}.

(** The names and the thresholds of the century panels, in order. *)
Definition century_names (d : IndexDoc) : list string :=
  map data_century (century_panels d).

Definition century_thresholds (d : IndexDoc) : list string :=
  map data_first_ep (century_panels d).

(** The name the selectors look for: the current century as text. *)
Definition current_name (d : IndexDoc) : string := str_of (data_curr_century d).

(** The place of a name among the panels: the first panel of that name. *)
Fixpoint position (c : string) (names : list string) : option nat :=
  match names with
  | [] => None
  | n :: rest =>
      if String.eqb n c then Some 0%nat
      else option_map S (position c rest)
  end.

(** The record has a next pointer: the link to a newer publication is
    there and its address is not empty. *)
Definition has_next (self : Publication) : Prop :=
  exists u, next self = Some u /\ u <> "".

(** [date] is [content] truncated to a calendar date: its first ten
    characters, or all of it when it has fewer. *)
Definition first_ten (content date : string) : Prop :=
  exists rest, content = date ++ rest /\
    (String.length date = 10%nat \/
     (rest = "" /\ (String.length date < 10)%nat)).

(** The date the index is current as of after the record is merged: the
    published date when the record has a next pointer, today's date when it
    has none. *)
Definition index_date (today : string) (self : Publication) (date : string) : Prop :=
  (has_next self ->
   exists content, published_time (D self) = Some content /\
                   first_ten content date) /\
  (~ has_next self -> date = today).

(** The page tells when it was published, if a newer publication follows. *)
Definition dated (self : Publication) : Prop :=
  has_next self -> published_time (D self) <> None.

(** The default of the interpreter's limit on the digits of a number that
    is read from a text, [sys.int_max_str_digits]. *)
Definition max_str_digits : nat := 4300.

(** [int] reads the text, whatever the limit is set to: the text is a
    number for [int], and it is short enough for the default limit. *)
Definition reads_number (s : string) : Prop :=
  PyInt.parse s <> None /\ (String.length s <= max_str_digits)%nat.

(** The record is an episode whose code is a number at or past the
    threshold of the panel that follows the current one; [c'] is the name
    of that panel. *)
Definition advances (self : Publication) (d : IndexDoc) (c' : string) : Prop :=
  type self = podcast /\
  Re.search Pat.numeric (episode self) <> None /\
  exists i q epnum first,
    position (current_name d) (century_names d) = Some i /\
    nth_error (century_panels d) (S i) = Some q /\
    c' = data_century q /\
    py_int (episode self) = Ok epnum /\
    py_int (data_first_ep q) = Ok first /\
    (first <= epnum)%Z.

(** Several merges in a row. *)
Fixpoint merge_all (today : string) (pubs : list Publication) (d : IndexDoc)
  : result IndexDoc :=
  match pubs with
  | [] => Ok d
  | self :: rest => d' <- addToIndex today self d ;; merge_all today rest d'
  end.

(** The thresholds are numbers that [int] reads. *)
Definition numeric_thresholds (d : IndexDoc) : Prop :=
  forall p, In p (century_panels d) -> reads_number (data_first_ep p).

(** No two equal names. *)
Fixpoint distinct (names : list string) : bool :=
  match names with
  | [] => true
  | n :: rest => negb (existsb (String.eqb n) rest) && distinct rest
  end.

(** What [addToIndex] needs to run to its end: a published time to read
    when a newer publication follows, a series for a special episode, a
    code and thresholds that [int] reads, and the element
    [#makeindex-data] in the index. *)
Definition mergeable (self : Publication) (d : IndexDoc) : Prop :=
  dated self /\
  (type self = special -> series self <> None) /\
  (String.length (episode self) <= max_str_digits)%nat /\
  numeric_thresholds d /\
  makeindex_data d = true.

(** The state the merge leaves in [#state]. *)
Definition state_updated (today : string) (self : Publication) (d' : IndexDoc) : Prop :=
  data_curr_pub d' = Some (url self) /\
  exists date, data_curr_index_date d' = Some date /\ index_date today self date.

(** The distinct addresses that are still to be skipped. *)
Definition pendingSkip (d : IndexDoc) : list string := nodup string_dec (skip d).

(** An index and a record for the examples: two century panels, one skip
    marker, and the episode of number 30 with a newer publication. *)
Definition sample_index : IndexDoc :=
  {| data_curr_pub := None;
     data_first_pub := Some "https://example.org/1";
     data_curr_century := Some "4";
     data_curr_index_date := None;
     skip := ["https://example.org/30"];
     century_panels :=
       [ {| data_century := "4"; data_first_ep := "1"; century_rows := [] |};
         {| data_century := "5"; data_first_ep := "28"; century_rows := [] |} ];
     special_panels :=
       [ {| data_series := "stories"; series_rows := [] |};
         {| data_series := "rewards"; series_rows := [] |} ];
     all_rows := [];
     makeindex_data := true |}.

Definition sample_page : Page :=
  {| nav_next := Some "https://example.org/31";
     entry_title := "Episode 30 " ++ Str.ndash ++ " Theodosius";
     period_els := [Elem None [Elem (Some "Period: 379-95") []]];
     published_time := Some "2013-05-01T10:00:00+00:00" |}.

Definition sample_record : Publication :=
  {| url := "https://example.org/30"; type := podcast;
     next := Some "https://example.org/31";
     urltitle := "Episode 30 " ++ Str.ndash ++ " Theodosius";
     title := "Theodosius"; episode := "30"; series := None;
     period := "379-395"; D := sample_page |}.

(** The newer publication: episode 31, the last of the chain. *)
Definition sample_page_31 : Page :=
  {| nav_next := None;
     entry_title := "Episode 31 " ++ Str.ndash ++ " Arcadius";
     period_els := [];
     published_time := Some "2013-05-08T10:00:00+00:00" |}.

Definition sample_record_31 : Publication :=
  {| url := "https://example.org/31"; type := podcast; next := None;
     urltitle := "Episode 31 " ++ Str.ndash ++ " Arcadius";
     title := "Arcadius"; episode := "31"; series := None;
     period := ""; D := sample_page_31 |}.

(** The page of an episode that links to a newer publication and does not
    say when it was published. *)
Definition undated_episode_page : Page :=
  {| nav_next := Some "https://example.org/31";
     entry_title := "Episode 30 " ++ Str.ndash ++ " Theodosius";
     period_els := [];
     published_time := None |}.

(** The index of the examples without its element [#makeindex-data]. *)
Definition bare_index : IndexDoc :=
  {| data_curr_pub := None;
     data_first_pub := Some "https://example.org/1";
     data_curr_century := Some "4";
     data_curr_index_date := None;
     skip := ["https://example.org/30"];
     century_panels :=
       [ {| data_century := "4"; data_first_ep := "1"; century_rows := [] |};
         {| data_century := "5"; data_first_ep := "28"; century_rows := [] |} ];
     special_panels := [];
     all_rows := [];
     makeindex_data := false |}.

(** A page that links to a newer publication and does not say when it was
    published. *)
Definition undated_page : Page :=
  {| nav_next := Some "https://example.org/2";
     entry_title := "Welcome";
     period_els := [];
     published_time := None |}.

(** An index whose second century panel has a threshold that is not a
    number. *)
Definition odd_index : IndexDoc :=
  {| data_curr_pub := None;
     data_first_pub := Some "https://example.org/1";
     data_curr_century := Some "4";
     data_curr_index_date := None;
     skip := [];
     century_panels :=
       [ {| data_century := "4"; data_first_ep := "1"; century_rows := [] |};
         {| data_century := "5"; data_first_ep := "twenty-eight"; century_rows := [] |} ];
     special_panels := [];
     all_rows := [];
     makeindex_data := true |}.

(** The threshold of the panel at a place, as a number. *)
Definition threshold_at (d : IndexDoc) (i : nat) : option Z :=
  match nth_error (century_thresholds d) i with
  | Some t => PyInt.parse t
  | None => None
  end.

(** The panels are in the order of their thresholds. *)
Definition sorted_thresholds (d : IndexDoc) : Prop :=
  forall i j ti tj, (i <= j)%nat ->
    threshold_at d i = Some ti -> threshold_at d j = Some tj -> (ti <= tj)%Z.

(** [walk web today n u d] follows the chain for [n] publications from the
    address [u], merging each into the index, with no bound on the count: it
    is [Some (u', d')] when the chain has that many publications and every
    one is read and merged without an exception; [u'] is the next pointer of
    the last one. *)
Fixpoint walk (web : Web) (today : string) (n : nat) (u : option string)
    (d : IndexDoc) : option (option string * IndexDoc) :=
  match n with
  | O => Some (u, d)
  | S n' =>
      if truthy u then
        match Publication_init web (str_of u) with
        | Ok pub =>
            match addToIndex today pub d with
            | Ok d1 => walk web today n' (next pub) d1
            | Raise _ => None
            end
        | Raise _ => None
        end
      else None
  end.

(** Why the loop stops after [n] publications: a bound that is not negative
    is passed by one, or, without a bound, the last record has no next
    pointer. *)
Definition stops_after (maxPubs : option Z) (n : nat) (u' : option string) : Prop :=
  match maxPubs with
  | Some m => (0 <= m)%Z /\ Z.of_nat n = (m + 1)%Z
  | None => truthy u' = false
  end.

(** A site of two pages. *)
Definition sample_web : Web :=
  fun u =>
    if String.eqb u "https://example.org/30" then Some sample_page
    else if String.eqb u "https://example.org/31" then Some sample_page_31
    else None.

(** The line feed that [$] lets pass at the end of the subject. *)
Definition final_LF (r : string) : Prop := r = "" \/ r = String Str.LF "".

(** The code of a special episode of the stories: a token, or a token, a
    dot and a part number. *)
Definition is_story_code (s : string) : Prop :=
  exists N, is_code N = true /\
            (s = N \/ exists P, is_number P = true /\ s = N ++ "." ++ P).

(** No digit in the text. *)
Definition no_digit (s : string) : bool := Str.all (fun c => negb (Str.is_digit c)) s.

(** A series name as the pattern for special episodes reads it: letters
    and spaces, at least one. *)
Definition is_series_name (s : string) : bool :=
  Str.nonempty s && Str.all Pat.letter_or_space s.

(** The title of a special episode: the name of the series, a period or
    none, the episode token and the rest. *)
Definition special_title (name dot N rest : string) : string :=
  name ++ dot ++ " Episode " ++ N ++ Pat.sep ++ rest.

(** The pattern for special episodes after the series name: a period or
    none, the word, the token, the separator and the rest. *)
Definition after_name : Re.regex :=
  Re.Seq (Re.Opt (Re.Cls Pat.is_dot))
    (Re.Seq (Re.Lit " Episode ")
       (Re.Seq (Re.Group 2 Pat.code)
          (Re.Seq (Re.Lit Pat.sep) (Re.Seq (Re.Group 3 (Re.Star Str.not_LF)) Re.Eol)))).


(** The text of the innermost first child of the paragraph, after the
    no-break spaces are replaced, starts with the label. *)
Definition labelled (el : elem) : Prop :=
  exists text, elem_text (innermost el) = Some text /\
    Str.startswith (Str.replace Str.nbsp " " text) "Period: " = true /\
    one_line (Str.replace Str.nbsp " " text) = true.

(** The paragraph has a text, and it does not start with the label. *)
Definition unlabelled (el : elem) : Prop :=
  exists text, elem_text (innermost el) = Some text /\
    Str.startswith (Str.replace Str.nbsp " " text) "Period: " = false.


(** The row of a record, as [addToIndex] builds it: the link is on the code
    when there is one, on the title otherwise. *)
Definition row_of (self : Publication) : string :=
  if Str.nonempty (episode self)
  then trFormat (aFormat (url self) (urltitle self) (episode self))
         (title self) (period self)
  else trFormat "" (aFormat (url self) (urltitle self) (title self)) (period self).

(** The rows a special episode adds to the panel of its series: its row,
    or the three fixed rows of the one page that holds three parts. *)
Definition special_rows (self : Publication) : list string :=
  if String.eqb (title self) chrysostom_title
  then map (fun cells : string * string * string =>
              let '(epcode, ti, pe) := cells in
              trFormat (aFormat (url self) (urltitle self) epcode) ti pe)
         chrysostom_parts
  else [row_of self].

(** The rows [new] are added at the end of the table of every panel the
    test picks. *)
Definition add_century_rows (pick : CenturyPanel -> bool) (new : list string)
    (p : CenturyPanel) : CenturyPanel :=
  if pick p
  then {| data_century := data_century p; data_first_ep := data_first_ep p;
          century_rows := (century_rows p ++ new)%list |}
  else p.

Definition add_series_rows (pick : SeriesPanel -> bool) (new : list string)
    (p : SeriesPanel) : SeriesPanel :=
  if pick p
  then {| data_series := data_series p;
          series_rows := (series_rows p ++ new)%list |}
  else p.

(** [l] is the start of [l']. *)
Definition starts (l l' : list string) : Prop := exists tl, l' = (l ++ tl)%list.

(** The index [d'] is the index [d] with rows added: the same panels in the
    same order with the same attributes, every table starting with the rows
    it had; the same first publication; no skip marker that was not there. *)
Definition grows (d d' : IndexDoc) : Prop :=
  data_first_pub d' = data_first_pub d /\
  Forall2 (fun p p' => data_century p' = data_century p /\
                       data_first_ep p' = data_first_ep p /\
                       starts (century_rows p) (century_rows p'))
    (century_panels d) (century_panels d') /\
  Forall2 (fun p p' => data_series p' = data_series p /\
                       starts (series_rows p) (series_rows p'))
    (special_panels d) (special_panels d') /\
  starts (all_rows d) (all_rows d') /\
  incl (skip d') (skip d).

(** The page that holds three parts of a story. *)
Definition sample_story_page : Page :=
  {| nav_next := Some "https://example.org/s2";
     entry_title := "Byzantine Stories. Episode 1 " ++ Str.ndash
                    ++ " John Chrysostom. Parts 2, 3 and 4.";
     period_els := [];
     published_time := Some "2013-06-01T10:00:00+00:00" |}.

Definition sample_story : Publication :=
  {| url := "https://example.org/s1"; type := special;
     next := Some "https://example.org/s2";
     urltitle := "Byzantine Stories. Episode 1 " ++ Str.ndash
                 ++ " John Chrysostom. Parts 2, 3 and 4.";
     title := "John Chrysostom. Parts 2, 3 and 4."; episode := "1";
     series := Some "stories"; period := ""; D := sample_story_page |}.

(** Episode 30a: past the threshold of the next panel by its number, with a
    letter after it. *)
Definition sample_record_30a : Publication :=
  {| url := "https://example.org/30a"; type := podcast;
     next := Some "https://example.org/31";
     urltitle := "Episode 30a " ++ Str.ndash ++ " Theodosius";
     title := "Theodosius"; episode := "30a"; series := None;
     period := ""; D := sample_page |}.

(** Episode 100 on an index of three century panels whose current century
    is the first. *)
Definition sample_record_100 : Publication :=
  {| url := "https://example.org/100"; type := podcast; next := None;
     urltitle := "Episode 100 " ++ Str.ndash ++ " Heraclius";
     title := "Heraclius"; episode := "100"; series := None;
     period := ""; D := sample_page_31 |}.

Definition three_centuries : IndexDoc :=
  {| data_curr_pub := None;
     data_first_pub := Some "https://example.org/1";
     data_curr_century := Some "4";
     data_curr_index_date := None;
     skip := [];
     century_panels :=
       [ {| data_century := "4"; data_first_ep := "1"; century_rows := [] |};
         {| data_century := "5"; data_first_ep := "28"; century_rows := [] |};
         {| data_century := "6"; data_first_ep := "60"; century_rows := [] |} ];
     special_panels := [];
     all_rows := [];
     makeindex_data := true |}.

(** The number a text of digits denotes, read from the left as [int]
    reads it. *)
Fixpoint value_acc (acc : Z) (s : string) : Z :=
  match s with
  | EmptyString => acc
  | String c s' => value_acc (10 * acc + PyInt.digit_value c) s'
  end.

Definition value (s : string) : Z := value_acc 0 s.

(** A start year as the pattern for years wants it: a digit from 1 to 9,
    then digits, at least one. *)
Definition is_start_year (F : string) : bool :=
  match F with
  | String c (String d r) => Str.is_digit19 c && Str.is_digit d && Str.all Str.is_digit r
  | _ => false
  end.


(** What follows the years in the label: nothing, or a text that starts
    with neither a digit nor a hyphen. *)
Definition ends_years (tail : string) : bool :=
  match tail with
  | EmptyString => true
  | String c _ => negb (Pat.digit_or_dash c)
  end.


(* ================================================================= *)
(** * Properties *)

#[local] Arguments Str.take : simpl never.
#[local] Arguments Nat.sub : simpl never.

(** ** The model on small inputs *)

Example ndash_bytes :
  Str.ndash
  = String (ascii_of_nat 226) (String (ascii_of_nat 128) (String (ascii_of_nat 147) "")).
Proof. reflexivity. Qed.

Example replace_leftmost : Str.replace "aa" "b" "aaa" = "ba".
Proof. reflexivity. Qed.

Example normalize_entities :
  normalize ("Episode 1 &#8211; a&nbsp;b" ++ Str.nbsp ++ "c")
  = "Episode 1 " ++ Str.ndash ++ " a b c".
Proof. reflexivity. Qed.

Example split_keeps_empty : Str.split "-" "10--5" = ["10"; ""; "5"].
Proof. reflexivity. Qed.

Example int_examples :
  PyInt.parse " -1_0 " = Some (-10)%Z /\ PyInt.parse "08" = Some 8%Z /\
  PyInt.parse "" = None /\ PyInt.parse "1__0" = None /\ PyInt.parse "12a" = None.
Proof. repeat split; reflexivity. Qed.

Example to_string_example : PyInt.to_string 1078 = "1078".
Proof. reflexivity. Qed.

(** The heading loses the object replacement character and nothing else
    of its kind: a byte order mark stays. *)
Example normalize_object :
  normalize ("Episode 5 " ++ Str.ndash ++ " Foo" ++ Str.obj)
  = "Episode 5 " ++ Str.ndash ++ " Foo" /\
  normalize (String (ascii_of_nat 239) (String (ascii_of_nat 187)
               (String (ascii_of_nat 191) "News")))
  = String (ascii_of_nat 239) (String (ascii_of_nat 187)
      (String (ascii_of_nat 191) "News")).
Proof. split; reflexivity. Qed.

(** [int] strips a space and a line feed, and no unit separator. *)
Example int_white_space :
  py_int (" 28" ++ String Str.LF "") = Ok 28%Z /\
  py_int ("28" ++ String (ascii_of_nat 31) "") = Raise ValueError /\
  py_int (String (ascii_of_nat 28) "0") = Raise ValueError.
Proof. repeat split; reflexivity. Qed.

Example slice_examples :
  Str.take 10 "2013-05-01T10:00:00+00:00" = "2013-05-01" /\
  Str.take 10 "2013" = "2013".
Proof. split; reflexivity. Qed.

Example search_is_leftmost_and_greedy :
  option_map (fun m => (Re.m_start m, Re.m_end m, Re.group 1 m))
    (Re.search Pat.part ("x Part 12 " ++ Str.ndash ++ " y Part 3 " ++ Str.ndash ++ " z"))
  = Some (1%nat, 14%nat, "12").
Proof. reflexivity. Qed.

Example classify_rewards :
  classify ("Backer Rewards Episode 7 " ++ Str.ndash ++ " Foo")
  = Ok {| f_type := special; f_episode := "7"; f_series := Some "rewards";
          f_title := "Foo" |}.
Proof. reflexivity. Qed.

Example classify_unknown_series :
  classify ("Other Series. Episode 7 " ++ Str.ndash ++ " Foo")
  = Ok {| f_type := news; f_episode := ""; f_series := None;
          f_title := "Other Series. Episode 7 " ++ Str.ndash ++ " Foo" |}.
Proof. reflexivity. Qed.

Example classify_headline :
  classify "Cage Match Podcast is here"
  = Ok {| f_type := news; f_episode := ""; f_series := None;
          f_title := "Cage Match Podcast" |}.
Proof. reflexivity. Qed.

Example sample_record_of_page :
  init_from_page "https://example.org/30" sample_page = Ok sample_record.
Proof. reflexivity. Qed.

(** ** The exception monad *)

Lemma bind_ret {A : Type} (m : result A) : bind m (fun a => Ok a) = m.
Proof. now destruct m. Qed.

Lemma bind_Ok {A B : Type} (m : result A) (f : A -> result B) (b : B) :
  bind m f = Ok b -> exists a, m = Ok a /\ f a = Ok b.
Proof. destruct m as [a|e]; simpl; [eauto | discriminate]. Qed.

(** ** Strings *)

Section StringFacts.
Import Str.

Lemma append_nil_r (s : string) : s ++ "" = s.
Proof. induction s as [|c s IH]; simpl; [reflexivity | now rewrite IH]. Qed.

Lemma append_assoc (a b c : string) : (a ++ b) ++ c = a ++ (b ++ c).
Proof. induction a as [|x a IH]; simpl; [reflexivity | now rewrite IH]. Qed.

Lemma length_append (a b : string) :
  String.length (a ++ b) = (String.length a + String.length b)%nat.
Proof. induction a as [|x a IH]; simpl; [reflexivity | now rewrite IH]. Qed.

Lemma take_append (a b : string) : take (String.length a) (a ++ b) = a.
Proof.
  unfold take. induction a as [|x a IH]; simpl.
  - destruct b; reflexivity.
  - now rewrite IH.
Qed.

Lemma take_prefix (n : nat) (a b : string) :
  n = String.length a -> take n (a ++ b) = a.
Proof. intros ->. apply take_append. Qed.

Lemma take_all (a : string) : take (String.length a) a = a.
Proof. rewrite <- (append_nil_r a) at 2. apply take_append. Qed.

Lemma strip_prefix_append (l s : string) : strip_prefix l (l ++ s) = Some s.
Proof.
  induction l as [|a l IH]; simpl; [reflexivity|].
  now rewrite Ascii.eqb_refl.
Qed.

Lemma strip_prefix_inv (l s t : string) :
  strip_prefix l s = Some t -> s = l ++ t.
Proof.
  revert s; induction l as [|a l IH]; simpl; intros s H.
  - now inversion H.
  - destruct s as [|b s]; [discriminate|].
    destruct (Ascii.eqb_spec a b) as [->|]; [|discriminate].
    now rewrite (IH _ H).
Qed.

Lemma all_append (p : ascii -> bool) (a b : string) :
  all p (a ++ b) = all p a && all p b.
Proof.
  induction a as [|x a IH]; simpl; [reflexivity|].
  now rewrite IH, andb_assoc.
Qed.

Lemma lower_not_digit (c : ascii) : is_lower c = true -> is_digit c = false.
Proof.
  unfold is_lower, is_digit, in_range. intros H.
  apply andb_true_iff in H. destruct H as [H _].
  apply Nat.leb_le in H. apply andb_false_iff. right.
  apply Nat.leb_gt. lia.
Qed.

End StringFacts.

(** ** The matcher *)

Section MatcherFacts.
Import Str Re.

(** The greedy star runs through a prefix that is in the class. *)
Lemma star_append p ds rest pos cs k m :
  all p ds = true ->
  star p (pos + String.length ds) rest cs k = Some m ->
  star p pos (ds ++ rest) cs k = Some m.
Proof.
  revert pos; induction ds as [|d ds IH]; simpl; intros pos Hall H.
  - now rewrite Nat.add_0_r in H.
  - apply andb_true_iff in Hall. destruct Hall as [Hd Hds].
    rewrite Hd. rewrite (IH (S pos) Hds); [reflexivity|].
    now rewrite <- Nat.add_succ_comm in H.
Qed.

Lemma star_all p s pos cs k m :
  all p s = true ->
  k (pos + String.length s)%nat "" cs = Some m ->
  star p pos s cs k = Some m.
Proof.
  intros Hall H. rewrite <- (append_nil_r s).
  apply star_append; [exact Hall | exact H].
Qed.

(** Whatever the star returns was returned by the continuation after a
    prefix in the class. *)
Lemma star_inv p s pos cs k m :
  star p pos s cs k = Some m ->
  exists ds rest, s = ds ++ rest /\ all p ds = true /\
                  k (pos + String.length ds)%nat rest cs = Some m.
Proof.
  revert pos; induction s as [|c s IH]; simpl; intros pos H.
  - exists "", "". simpl. now rewrite Nat.add_0_r.
  - destruct (p c) eqn:Hc.
    + destruct (star p (S pos) s cs k) eqn:Hs.
      * inversion H; subst. destruct (IH _ Hs) as (ds & rest & -> & Hall & Hk).
        exists (String c ds), rest. simpl. rewrite Hc, Hall.
        now rewrite <- Nat.add_succ_comm.
      * exists "", (String c s). simpl. now rewrite Nat.add_0_r.
    + exists "", (String c s). simpl. now rewrite Nat.add_0_r.
Qed.

(** A match is always handed over by the continuation. *)
Lemma exec_from_cont r : forall pos s cs k m,
  exec r pos s cs k = Some m -> exists pos' s' cs', k pos' s' cs' = Some m.
Proof.
  induction r as [l | p | p | r IH | r1 IH1 r2 IH2 | n r IH | | ];
    intros pos s cs k m H; cbn [exec] in H.
  - destruct (strip_prefix l s); [eauto | discriminate].
  - destruct s as [|c s]; [discriminate|]. destruct (p c); [eauto | discriminate].
  - apply star_inv in H. destruct H as (ds & rest & _ & _ & H). eauto.
  - destruct (exec r pos s cs k) eqn:E; [|eauto].
    injection H as ->. eapply IH, E.
  - apply IH1 in H. destruct H as (pos1 & s1 & cs1 & H). eapply IH2, H.
  - apply IH in H. destruct H as (pos1 & s1 & cs1 & H). eauto.
  - destruct (pos =? 0)%nat; [eauto | discriminate].
  - destruct s as [|c [|c' s]]; [eauto | | discriminate].
    destruct (Ascii.eqb c LF); [eauto | discriminate].
Qed.

Lemma exec_accept_start r pos s cs start m :
  exec r pos s cs (accept start) = Some m -> m_start m = start.
Proof.
  intros H. apply exec_from_cont in H. destruct H as (pos' & s' & cs' & H).
  unfold accept in H. now injection H as <-.
Qed.

(** A search that reports the position it started from matched there. *)
Lemma search_from_here r s pos m :
  search_from r pos s = Some m -> m_start m = pos ->
  exec r pos s [] (accept pos) = Some m.
Proof.
  intros H Hstart.
  assert (Hge : forall s' pos' m', search_from r pos' s' = Some m' ->
                                   (pos' <= m_start m')%nat).
  { induction s' as [|c s' IH]; intros pos' m' H'; cbn [search_from] in H'.
    - destruct (exec r pos' "" [] (accept pos')) eqn:E; [|discriminate].
      injection H' as <-. apply exec_accept_start in E. lia.
    - destruct (exec r pos' (String c s') [] (accept pos')) eqn:E.
      + injection H' as <-. apply exec_accept_start in E. lia.
      + apply IH in H'. lia. }
  destruct s as [|c s]; cbn [search_from] in H.
  - destruct (exec r pos "" [] (accept pos)); [exact H | discriminate].
  - destruct (exec r pos (String c s) [] (accept pos)); [exact H|].
    apply Hge in H. lia.
Qed.

End MatcherFacts.

(** ** Episode tokens *)

Section CodeFacts.
Import Str Re.

Lemma code_tail_split s :
  code_tail s = true ->
  exists ds l, s = ds ++ l /\ all is_digit ds = true /\
               (l = "" \/ exists c, l = String c "" /\ is_lower c = true).
Proof.
  induction s as [|c s IH]; simpl; intros H.
  - exists "", "". simpl. auto.
  - destruct (is_digit c) eqn:Hc.
    + destruct (IH H) as (ds & l & -> & Hall & Hl).
      exists (String c ds), l. simpl. rewrite Hc, Hall. auto.
    + apply andb_true_iff in H. destruct H as [Hl He].
      destruct s; [|discriminate].
      exists "", (String c ""). simpl. repeat split; eauto.
Qed.

(** The token pattern takes the whole token when a space follows it. *)
Lemma exec_code N tail pos cs k m :
  is_code N = true ->
  k (pos + String.length N)%nat (String " " tail) cs = Some m ->
  exec Pat.code pos (N ++ String " " tail) cs k = Some m.
Proof.
  intros HN Hk. destruct N as [|d N]; [discriminate|].
  simpl in HN. apply andb_true_iff in HN. destruct HN as [Hd HN].
  destruct (code_tail_split _ HN) as (ds & l & -> & Hall & Hl).
  unfold Pat.code, Plus. simpl exec. rewrite Hd.
  rewrite append_assoc. apply star_append; [exact Hall|].
  simpl String.length in Hk. rewrite length_append in Hk.
  destruct Hl as [-> | (c & -> & Hc)]; simpl.
  - simpl in Hk. rewrite Nat.add_0_r in Hk.
    now rewrite <- Nat.add_succ_comm in Hk.
  - rewrite (lower_not_digit _ Hc), Hc.
    simpl String.length in Hk.
    replace (S (S (pos + String.length ds)))
      with (pos + S (String.length ds + 1))%nat by lia.
    now rewrite Hk.
Qed.

End CodeFacts.

(** ** Regular episodes *)

Section EpisodeFacts.
Import Str Re.

Lemma sep_cons : Pat.sep = String " " (ndash ++ " ").
Proof. reflexivity. Qed.

Lemma search_from_episode N rest pos :
  is_code N = true ->
  exists m, search_from Pat.episode pos ("Episode " ++ N ++ Pat.sep ++ rest) = Some m /\
            m_start m = pos.
Proof.
  intros HN. unfold Pat.episode.
  cbn [search_from exec append strip_prefix Ascii.eqb Bool.eqb String.length].
  rewrite sep_cons. cbn [append].
  erewrite exec_code; [ | exact HN | simpl; reflexivity ].
  eexists; split; reflexivity.
Qed.

Lemma search_episode_start N rest :
  is_code N = true ->
  exists m, search Pat.episode ("Episode " ++ N ++ Pat.sep ++ rest) = Some m /\
            m_start m = 0%nat.
Proof. intros HN. apply search_from_episode, HN. Qed.

Lemma search_podcast N rest :
  is_code N = true -> one_line rest = true ->
  exists m, search Pat.podcast ("Episode " ++ N ++ Pat.sep ++ rest) = Some m /\
            group 1 m = N /\ group 2 m = rest.
Proof.
  intros HN Hrest. unfold search, Pat.podcast.
  cbn [search_from exec append strip_prefix Ascii.eqb Bool.eqb String.length Nat.eqb].
  rewrite sep_cons. cbn [append].
  erewrite exec_code; [ | exact HN | ].
  2:{ unfold ndash. cbn [strip_prefix append Ascii.eqb Bool.eqb].
      apply star_all; [exact Hrest | cbn; reflexivity]. }
  eexists; split; [reflexivity|].
  unfold group; cbn [lookup m_caps Nat.eqb]. split.
  - match goal with |- take ?n _ = _ =>
      replace n with (String.length N) by lia end.
    apply take_append.
  - match goal with |- take ?n _ = _ =>
      replace n with (String.length rest) by (simpl; lia) end.
    apply take_all.
Qed.

(** C1 fails as it is stated: a line feed in the rest of the title makes the
    anchored pattern fail, and [None.group(1)] raises AttributeError. *)
Lemma classify_episode_line_feed :
  let t := "Episode 1" ++ Pat.sep ++ "a" ++ nl ++ "b" in
  (exists m, search Pat.episode t = Some m /\ m_start m = 0%nat) /\
  search Pat.podcast t = None /\
  classify t = Raise AttributeError /\
  ~ (forall t m, search Pat.episode t = Some m -> m_start m = 0%nat ->
       exists f, classify t = Ok f /\ f_type f = podcast).
Proof.
  split; [|split; [|split]].
  - eexists; split; vm_compute; reflexivity.
  - vm_compute; reflexivity.
  - vm_compute; reflexivity.
  - intros H.
    destruct (search Pat.episode ("Episode 1" ++ Pat.sep ++ "a" ++ nl ++ "b"))
      as [m|] eqn:E; [|discriminate E].
    destruct (H _ m E) as (f & Hf & _).
    + injection E as <-. reflexivity.
    + vm_compute in Hf. discriminate Hf.
Qed.

Lemma code_tail_append ds l :
  all is_digit ds = true ->
  (l = "" \/ exists c, l = String c "" /\ is_lower c = true) ->
  code_tail (ds ++ l) = true.
Proof.
  intros Hall Hl. induction ds as [|d ds IH]; cbn [append].
  - destruct Hl as [-> | (c & -> & Hc)]; [reflexivity|].
    cbn [code_tail]. now rewrite (lower_not_digit c Hc), Hc.
  - cbn [all] in Hall. apply andb_true_iff in Hall. destruct Hall as [Hd Hds].
    cbn [code_tail]. rewrite Hd. now apply IH.
Qed.

(** Where the episode pattern matches, the text starts with the word, a
    token and the separator. *)
Lemma exec_episode_inv t pos start m :
  exec Pat.episode pos t [] (accept start) = Some m ->
  exists N rest, t = "Episode " ++ N ++ Pat.sep ++ rest /\ is_code N = true.
Proof.
  unfold Pat.episode, Pat.code, Plus. cbn [exec].
  destruct (strip_prefix "Episode " t) as [s1|] eqn:H1; [|discriminate].
  apply strip_prefix_inv in H1. subst t.
  destruct s1 as [|d s2]; [discriminate|].
  destruct (is_digit d) eqn:Hd; [|discriminate].
  intros H. apply star_inv in H. destruct H as (ds & r & -> & Hall & H).
  assert (Hr : exists l rest, r = l ++ Pat.sep ++ rest /\
                 (l = "" \/ exists c, l = String c "" /\ is_lower c = true)).
  { destruct r as [|c r'].
    - cbn [strip_prefix] in H. discriminate H.
    - destruct (is_lower c) eqn:Hc.
      + destruct (strip_prefix Pat.sep r') as [rest|] eqn:E.
        * apply strip_prefix_inv in E. subst r'.
          exists (String c ""), rest. split; [reflexivity | right; eauto].
        * destruct (strip_prefix Pat.sep (String c r')) as [rest|] eqn:E';
            [|discriminate].
          apply strip_prefix_inv in E'. exists "", rest. split; [exact E' | now left].
      + destruct (strip_prefix Pat.sep (String c r')) as [rest|] eqn:E';
          [|discriminate].
        apply strip_prefix_inv in E'. exists "", rest. split; [exact E' | now left]. }
  destruct Hr as (l & rest & -> & Hl).
  exists (String d (ds ++ l)), rest. split.
  - cbn [append]. now rewrite append_assoc.
  - cbn [is_code]. rewrite Hd. now apply code_tail_append.
Qed.

(** The form of a title that starts with the episode pattern. *)
Lemma classify_episode_form N rest :
  is_code N = true -> one_line rest = true ->
  classify ("Episode " ++ N ++ Pat.sep ++ rest)
  = Ok {| f_type := podcast; f_episode := N; f_series := None; f_title := rest |}.
Proof.
  intros HN Hrest. unfold classify.
  destruct (search_episode_start N rest HN) as (m & -> & ->).
  destruct (search_podcast N rest HN Hrest) as (m' & -> & -> & ->).
  reflexivity.
Qed.

(** C1, amended: when the search for the episode pattern matches at
    position 0 of a title that holds no line feed, the title is
    ["Episode N – rest"] for a token [N] (digits and an optional letter), and
    it is classified as a regular episode with code [N] and title [rest]. *)
Theorem classify_episode t m :
  search Pat.episode t = Some m -> m_start m = 0%nat ->
  one_line t = true ->
  exists N rest,
    t = "Episode " ++ N ++ Pat.sep ++ rest /\ is_code N = true /\
    classify t
    = Ok {| f_type := podcast; f_episode := N; f_series := None; f_title := rest |}.
Proof.
  intros Hm Hstart Hline.
  apply search_from_here in Hm; [|exact Hstart].
  destruct (exec_episode_inv t 0 0 m Hm) as (N & rest & -> & HN).
  exists N, rest. split; [reflexivity|]. split; [exact HN|].
  apply classify_episode_form; [exact HN|].
  unfold one_line in *. rewrite !all_append in Hline.
  apply andb_true_iff in Hline. destruct Hline as [_ Hline].
  apply andb_true_iff in Hline. destruct Hline as [_ Hline].
  apply andb_true_iff in Hline. destruct Hline as [_ Hline].
  exact Hline.
Qed.

Lemma classify_episode_witness :
  exists N rest,
    "Episode 12a " ++ ndash ++ " The Fall" = "Episode " ++ N ++ Pat.sep ++ rest /\
    is_code N = true /\
    classify ("Episode 12a " ++ ndash ++ " The Fall")
    = Ok {| f_type := podcast; f_episode := N; f_series := None; f_title := rest |}.
Proof.
  destruct (search Pat.episode ("Episode 12a " ++ ndash ++ " The Fall"))
    as [m|] eqn:E; [|discriminate E].
  apply (classify_episode ("Episode 12a " ++ ndash ++ " The Fall") m E).
  - injection E as <-. reflexivity.
  - reflexivity.
Defined.

End EpisodeFacts.

(** ** Where a search matches *)

Section SearchFacts.
Import Str Re.

(** The search stops at the first position where the pattern matches. *)
Lemma search_from_found r pre suf pos m :
  (forall a b, pre = a ++ b -> b <> "" ->
     exec r (pos + String.length a) (b ++ suf) [] (accept (pos + String.length a)) = None) ->
  exec r (pos + String.length pre) suf [] (accept (pos + String.length pre)) = Some m ->
  search_from r pos (pre ++ suf) = Some m.
Proof.
  revert pos; induction pre as [|c pre IH]; intros pos Hbefore Hhere.
  - simpl in *. rewrite Nat.add_0_r in Hhere.
    destruct suf; simpl; now rewrite Hhere.
  - simpl append. simpl search_from.
    pose proof (Hbefore "" (String c pre) eq_refl) as H0.
    simpl in H0. rewrite Nat.add_0_r in H0. rewrite H0 by discriminate.
    apply IH.
    + intros a b -> Hb.
      specialize (Hbefore (String c a) b eq_refl Hb). simpl in Hbefore.
      now rewrite <- Nat.add_succ_comm in Hbefore.
    + simpl in Hhere. now rewrite <- Nat.add_succ_comm in Hhere.
Qed.

(** The search fails when the pattern matches nowhere. *)
Lemma search_from_none r s pos :
  (forall a b, s = a ++ b ->
     exec r (pos + String.length a) b [] (accept (pos + String.length a)) = None) ->
  search_from r pos s = None.
Proof.
  revert pos; induction s as [|c s IH]; intros pos H.
  - simpl. pose proof (H "" "" eq_refl) as H0. simpl in H0.
    rewrite Nat.add_0_r in H0. now rewrite H0.
  - simpl. pose proof (H "" (String c s) eq_refl) as H0. simpl in H0.
    rewrite Nat.add_0_r in H0. rewrite H0.
    apply IH. intros a b ->.
    specialize (H (String c a) b eq_refl). simpl in H.
    now rewrite <- Nat.add_succ_comm in H.
Qed.

(** A pattern that starts with a literal cannot match where the subject
    starts with another character. *)
Lemma search_from_skip a l r pre s pos :
  all (fun c => negb (Ascii.eqb a c)) pre = true ->
  search_from (Seq (Lit (String a l)) r) pos (pre ++ s)
  = search_from (Seq (Lit (String a l)) r) (pos + String.length pre) s.
Proof.
  revert pos; induction pre as [|c pre IH]; intros pos H.
  - simpl. now rewrite Nat.add_0_r.
  - simpl in H. apply andb_true_iff in H. destruct H as [Hc Hpre].
    apply negb_true_iff in Hc.
    simpl append. cbn [search_from exec strip_prefix]. rewrite Hc.
    rewrite (IH (S pos) Hpre). simpl. now rewrite <- Nat.add_succ_comm.
Qed.

(** What a successful search says: the pattern matches after some prefix
    and at no earlier place. *)
Lemma search_from_inv r s pos m :
  search_from r pos s = Some m ->
  exists pre suf, s = pre ++ suf /\
    exec r (pos + String.length pre) suf [] (accept (pos + String.length pre)) = Some m /\
    forall a b, pre = a ++ b -> b <> "" ->
      exec r (pos + String.length a) (b ++ suf) [] (accept (pos + String.length a)) = None.
Proof.
  revert pos; induction s as [|c s IH]; intros pos H; cbn [search_from] in H.
  - destruct (exec r pos "" [] (accept pos)) eqn:E; [|discriminate].
    injection H as ->. exists "", "". cbn [String.length append].
    rewrite Nat.add_0_r. split; [reflexivity|]. split; [exact E|].
    intros a b Hab Hb. destruct a; destruct b; try discriminate. congruence.
  - destruct (exec r pos (String c s) [] (accept pos)) eqn:E.
    + injection H as ->. exists "", (String c s). cbn [String.length append].
      rewrite Nat.add_0_r. split; [reflexivity|]. split; [exact E|].
      intros a b Hab Hb. destruct a; destruct b; try discriminate. congruence.
    + destruct (IH _ H) as (pre & suf & -> & Hm & Hbefore).
      exists (String c pre), suf. cbn [String.length append].
      rewrite <- Nat.add_succ_comm. split; [reflexivity|]. split; [exact Hm|].
      intros a b Hab Hb. destruct a as [|c' a].
      * cbn [append] in Hab. subst b. cbn [String.length append].
        now rewrite Nat.add_0_r.
      * cbn [append] in Hab. injection Hab as <- ->.
        cbn [String.length]. rewrite <- Nat.add_succ_comm.
        now apply Hbefore.
Qed.

(** Two prefixes of one text: the shorter is a prefix of the longer. *)
Lemma prefix_split (a b a' b' : string) :
  a ++ b = a' ++ b' -> (String.length a' <= String.length a)%nat ->
  exists c, a = a' ++ c.
Proof.
  revert a; induction a' as [|x a' IH]; intros a H Hlen.
  - now exists a.
  - destruct a as [|y a]; [cbn [String.length] in Hlen; lia|].
    cbn [append] in H. injection H as -> H.
    cbn [String.length] in Hlen.
    destruct (IH a H ltac:(lia)) as [c ->]. now exists c.
Qed.

End SearchFacts.

(** ** Parts of a story *)

Section PartFacts.
Import Str Re.

Lemma is_number_cons P :
  is_number P = true ->
  exists d ds, P = String d ds /\ is_digit d = true /\ all is_digit ds = true.
Proof.
  unfold is_number. destruct P as [|d ds]; simpl; [discriminate|].
  intros H. apply andb_true_iff in H. exists d, ds. tauto.
Qed.

(** Where the part pattern matches, the text starts with the words. *)
Lemma exec_part_sound s pos start m :
  exec Pat.part pos s [] (accept start) = Some m ->
  exists P post, s = " Part " ++ P ++ Pat.sep ++ post /\
                 is_number P = true /\ group 1 m = P.
Proof.
  unfold Pat.part, Plus. cbn [exec].
  destruct (strip_prefix " Part " s) as [s1|] eqn:H1; [|discriminate].
  apply strip_prefix_inv in H1. subst s.
  destruct s1 as [|d s2]; [discriminate|].
  destruct (is_digit d) eqn:Hd; [|discriminate].
  intros H. apply star_inv in H. destruct H as (ds & rest & -> & Hall & H).
  destruct (strip_prefix Pat.sep rest) as [post|] eqn:H2; [|discriminate].
  apply strip_prefix_inv in H2. subst rest.
  exists (String d ds), post. split; [|split].
  - reflexivity.
  - unfold is_number. simpl. now rewrite Hd, Hall.
  - unfold accept in H.
    match type of H with Some ?x = Some _ => assert (Hm : m = x) by congruence end.
    rewrite Hm. lazy [group lookup m_caps Nat.eqb].
    change (String d (ds ++ Pat.sep ++ post)) with (String d ds ++ Pat.sep ++ post).
    apply take_prefix.
    change (String.length (String d ds)) with (S (String.length ds)). lia.
Qed.

(** Where the text starts with the words, the part pattern matches and
    captures the number. *)
Lemma exec_part_complete P post pos start :
  is_number P = true ->
  exists m, exec Pat.part pos (" Part " ++ P ++ Pat.sep ++ post) [] (accept start) = Some m /\
            group 1 m = P.
Proof.
  intros HP. destruct (is_number_cons P HP) as (d & ds & -> & Hd & Hall).
  unfold Pat.part, Plus.
  cbn [exec append strip_prefix Ascii.eqb Bool.eqb]. rewrite Hd.
  eexists. split.
  - apply star_append; [exact Hall|].
    rewrite sep_cons. unfold ndash. cbn. reflexivity.
  - lazy [group lookup m_caps Nat.eqb].
    match goal with |- take ?n (String d (ds ++ ?x)) = _ =>
      change (take n (String d ds ++ x) = String d ds) end.
    apply take_prefix.
    change (String.length (String d ds)) with (S (String.length ds)). lia.
Qed.

Lemma search_part_first rest pre P :
  first_part_at rest pre P ->
  exists m, search Pat.part rest = Some m /\ group 1 m = P.
Proof.
  intros [[HP [post ->]] Hfirst].
  destruct (exec_part_complete P post (0 + String.length pre) (0 + String.length pre) HP)
    as (m & Hm & Hg).
  exists m. split; [|exact Hg].
  unfold search. apply search_from_found; [|exact Hm].
  intros a b -> Hb.
  match goal with |- ?e = None => destruct e as [m'|] eqn:He; [|reflexivity] end.
  exfalso. apply exec_part_sound in He. destruct He as (P' & post' & Heq & HP' & _).
  assert (Hat : part_at ((a ++ b) ++ " Part " ++ P ++ Pat.sep ++ post) a P').
  { split; [exact HP'|]. exists post'. now rewrite append_assoc, Heq. }
  apply Hfirst in Hat. rewrite length_append in Hat.
  destruct b; [congruence | simpl in Hat; lia].
Qed.

(** Where the words occur at all, the search finds their first
    occurrence. *)
Lemma search_part_some rest pre P :
  part_at rest pre P ->
  exists pre0 P0 m, first_part_at rest pre0 P0 /\
                    search Pat.part rest = Some m /\ group 1 m = P0.
Proof.
  intros [HP [post Hrest]].
  destruct (search Pat.part rest) as [m|] eqn:Hs.
  - unfold search in Hs. apply search_from_inv in Hs.
    destruct Hs as (pre0 & suf & Hsplit & Hm & Hbefore).
    destruct (exec_part_sound _ _ _ _ Hm) as (P0 & post0 & -> & HP0 & Hg).
    exists pre0, P0, m. split; [|split; [reflexivity | exact Hg]].
    split; [split; [exact HP0 | now exists post0]|].
    intros pre' P' [HP' [post' Hrest']].
    destruct (Nat.le_gt_cases (String.length pre0) (String.length pre')) as [|Hlt];
      [assumption | exfalso].
    assert (Heq : pre0 ++ " Part " ++ P0 ++ Pat.sep ++ post0
                  = pre' ++ " Part " ++ P' ++ Pat.sep ++ post') by congruence.
    destruct (prefix_split _ _ _ _ Heq ltac:(lia)) as [b Hb].
    assert (Hne : b <> "").
    { intros ->. rewrite append_nil_r in Hb. subst pre0. lia. }
    specialize (Hbefore pre' b Hb Hne).
    assert (Hsuf : b ++ " Part " ++ P0 ++ Pat.sep ++ post0
                   = " Part " ++ P' ++ Pat.sep ++ post').
    { rewrite Hb, append_assoc in Heq. clear - Heq.
      induction pre' as [|c pre' IH]; [exact Heq|].
      cbn [append] in Heq. injection Heq as Heq. now apply IH. }
    rewrite Hsuf in Hbefore.
    destruct (exec_part_complete P' post' (0 + String.length pre')
                (0 + String.length pre') HP') as (m' & Hm' & _).
    congruence.
  - exfalso. unfold search in Hs.
    assert (Hnone : forall a b, rest = a ++ b ->
              exec Pat.part (0 + String.length a) b [] (accept (0 + String.length a))
              = None).
    { clear - Hs. revert Hs. generalize 0%nat as pos.
      induction rest as [|c rest IH]; intros pos Hs a b Hab; cbn [search_from] in Hs.
      - destruct a; destruct b; try discriminate. cbn [String.length].
        rewrite Nat.add_0_r. now destruct (exec Pat.part pos "" [] (accept pos)).
      - destruct (exec Pat.part pos (String c rest) [] (accept pos)) eqn:E;
          [discriminate|].
        destruct a as [|c' a].
        + cbn [append] in Hab. subst b. cbn [String.length].
          now rewrite Nat.add_0_r.
        + cbn [append] in Hab. injection Hab as <- ->.
          cbn [String.length]. rewrite <- Nat.add_succ_comm.
          now apply IH. }
    specialize (Hnone pre _ Hrest).
    destruct (exec_part_complete P post (0 + String.length pre)
                (0 + String.length pre) HP) as (m' & Hm' & _).
    congruence.
Qed.

Lemma search_part_none rest :
  (forall pre P, ~ part_at rest pre P) ->
  search Pat.part rest = None.
Proof.
  intros Hno. unfold search. apply search_from_none. intros a b ->.
  match goal with |- ?e = None => destruct e as [m'|] eqn:He; [|reflexivity] end.
  exfalso. apply exec_part_sound in He. destruct He as (P' & post' & -> & HP' & _).
  apply (Hno a P'). split; [exact HP'|]. now exists post'.
Qed.

End PartFacts.

(** ** Byzantine Stories *)

Section StoriesFacts.
Import Str Re.

Lemma search_episode_stories N rest :
  is_code N = true ->
  exists m, search Pat.episode (stories_title N rest) = Some m /\ m_start m = 19%nat.
Proof.
  intros HN. unfold search, stories_title.
  change ("Byzantine Stories. Episode " ++ N ++ Pat.sep ++ rest)
    with ("Byzantine Stories. " ++ "Episode " ++ N ++ Pat.sep ++ rest).
  unfold Pat.episode at 1.
  change (Lit "Episode ") with (Lit (String "E" "pisode ")).
  rewrite search_from_skip by reflexivity.
  apply (search_from_episode N rest _ HN).
Qed.

Lemma exec_special_stories N rest :
  is_code N = true -> one_line rest = true ->
  exists m, exec Pat.special 0 (stories_title N rest) [] (accept 0) = Some m /\
            group 1 m = "Byzantine Stories" /\ group 2 m = N /\ group 3 m = rest.
Proof.
  intros HN Hrest. unfold stories_title, Pat.special, Plus.
  cbn [exec append Nat.eqb].
  change (Pat.letter_or_space "B") with true. cbv iota.
  eexists. split.
  - apply (star_append Pat.letter_or_space "yzantine Stories"
             (". Episode " ++ N ++ Pat.sep ++ rest)); [reflexivity|].
    rewrite sep_cons. cbn [star append String.length Nat.add].
    change (Pat.letter_or_space ".") with false. cbv iota.
    change (Pat.is_dot ".") with true. cbv iota.
    cbn [strip_prefix Ascii.eqb Bool.eqb].
    erewrite exec_code; [reflexivity | exact HN | ].
    unfold ndash. cbn [strip_prefix append Ascii.eqb Bool.eqb].
    apply star_all; [exact Hrest | cbn [accept]; reflexivity].
  - lazy [group lookup m_caps Nat.eqb]. split; [reflexivity | split].
    + apply take_prefix. lia.
    + match goal with |- take ?n _ = _ =>
        replace n with (String.length rest) by (cbn [String.length append]; lia) end.
      apply take_all.
Qed.

Lemma search_special_stories N rest :
  is_code N = true -> one_line rest = true ->
  exists m, search Pat.special (stories_title N rest) = Some m /\
            group 1 m = "Byzantine Stories" /\ group 2 m = N /\ group 3 m = rest.
Proof.
  intros HN Hrest.
  destruct (exec_special_stories N rest HN Hrest) as (m & Hm & Hg).
  exists m. split; [|exact Hg].
  unfold search. unfold stories_title in *. cbn [append search_from] in *.
  now rewrite Hm.
Qed.

(** C8 fails as it is stated: the part pattern of the script starts with a
    space, so a part number at the very start of the rest of the title is
    not seen; and a line feed in the rest makes the anchored pattern fail. *)
Lemma classify_stories_part_at_start :
  (let rest := "Part 2" ++ Pat.sep ++ "Foo" in
   (exists post, rest = "Part " ++ "2" ++ Pat.sep ++ post) /\
   exists f, classify (stories_title "1" rest) = Ok f /\
             f_episode f = "1" /\ f_episode f <> "1" ++ "." ++ "2") /\
  classify (stories_title "1" ("a" ++ nl ++ "b")) = Raise AttributeError.
Proof.
  split; [split|].
  - now exists "Foo".
  - eexists. split; [vm_compute; reflexivity|]. split; [reflexivity | discriminate].
  - vm_compute; reflexivity.
Qed.

(** C8, amended: a title ["Byzantine Stories. Episode N – rest"], where [rest]
    holds no line feed, is a special episode of the series stories with title
    [rest]; when [" Part P – "], with the space before it, occurs in [rest],
    the code is [N.P] for the number [P] of its first occurrence, and when it
    does not occur the code is [N]. *)
Theorem classify_stories N rest :
  is_code N = true -> one_line rest = true ->
  exists code,
    classify (stories_title N rest)
    = Ok {| f_type := special; f_episode := code; f_series := Some "stories";
            f_title := rest |} /\
    (forall pre P, first_part_at rest pre P -> code = N ++ "." ++ P) /\
    (forall pre P, part_at rest pre P ->
       exists pre0 P0, first_part_at rest pre0 P0 /\ code = N ++ "." ++ P0) /\
    ((forall pre P, ~ part_at rest pre P) -> code = N).
Proof.
  intros HN Hrest. unfold classify.
  destruct (search_episode_stories N rest HN) as (m0 & -> & ->).
  destruct (search_special_stories N rest HN Hrest) as (m & -> & -> & -> & ->).
  cbn [Nat.eqb String.eqb Ascii.eqb Bool.eqb].
  eexists. split; [reflexivity|]. split; [|split].
  - intros pre P Hfirst.
    destruct (search_part_first rest pre P Hfirst) as (pm & -> & ->).
    reflexivity.
  - intros pre P Hat.
    destruct (search_part_some rest pre P Hat) as (pre0 & P0 & pm & Hfirst & -> & ->).
    exists pre0, P0. split; [exact Hfirst | reflexivity].
  - intros Hno. now rewrite (search_part_none rest Hno).
Qed.

Lemma classify_stories_witness :
  classify (stories_title "3" ("John. Part 2" ++ Pat.sep ++ "Foo"))
  = Ok {| f_type := special; f_episode := "3.2"; f_series := Some "stories";
          f_title := "John. Part 2" ++ Pat.sep ++ "Foo" |}.
Proof.
  destruct (classify_stories "3" ("John. Part 2" ++ Pat.sep ++ "Foo") eq_refl eq_refl)
    as (code & Hc & _ & Hsome & _).
  destruct (Hsome "John." "2") as (pre0 & P0 & _ & Hcode).
  - split; [reflexivity | now exists "Foo"].
  - rewrite Hc. vm_compute in Hc. injection Hc as <-. reflexivity.
Defined.

(** C9: where the words before ["Episode N – "] are not a series name, the
    anchored pattern for special episodes does not match and the
    classification raises AttributeError; a digit or a comma before the
    pattern is enough. *)
Theorem classify_raises_on_odd_prefix :
  let digit_title := "Top 10. Episode 7" ++ Pat.sep ++ "Foo" in
  let comma_title := "Bonus, Episode 7" ++ Pat.sep ++ "Foo" in
  ((exists m, search Pat.episode digit_title = Some m /\ m_start m = 8%nat) /\
   search Pat.special digit_title = None /\
   classify digit_title = Raise AttributeError) /\
  ((exists m, search Pat.episode comma_title = Some m /\ m_start m = 7%nat) /\
   search Pat.special comma_title = None /\
   classify comma_title = Raise AttributeError).
Proof.
  split; (split; [eexists; split; vm_compute; reflexivity
                 | split; vm_compute; reflexivity]).
Qed.

End StoriesFacts.

(** ** Periods *)

Section PeriodFacts.
Import Str Re.

Lemma getPeriod_label title D text :
  title <> cyprus_title -> period_label D text ->
  getPeriod title D = period_of_elem "" (Elem (Some text) []).
Proof.
  intros Ht (el & Hels & Htext). unfold getPeriod.
  destruct (String.eqb_spec title cyprus_title) as [E|_]; [contradiction|].
  rewrite Hels. cbn [period_loop]. unfold period_of_elem.
  rewrite Htext. cbn [innermost elem_text].
  apply bind_ret.
Qed.

(** C2 fails as it is stated: the free text keeps its order, its spaces
    become no-break spaces and the word century becomes [c.]. *)
Lemma getPeriod_century_text :
  getPeriod "" (page_with_period "Period: 12th century") = Ok ("12th" ++ nbsp ++ "c.") /\
  getPeriod "" (page_with_period "Period: 12th century") <> Ok "c. 12".
Proof. split; [vm_compute; reflexivity | vm_compute; discriminate]. Qed.

(** C2, amended: for a title other than the hard-coded one, the label
    ["Period: 1071-8"] gives ["1071-1078"], ["Period: 976-981"] gives
    ["976-981"], and ["Period: 12th century"] gives ["12th c."], with a
    no-break space before [c.]. *)
Theorem getPeriod_examples title D :
  title <> cyprus_title ->
  (period_label D "Period: 1071-8" -> getPeriod title D = Ok "1071-1078") /\
  (period_label D "Period: 976-981" -> getPeriod title D = Ok "976-981") /\
  (period_label D "Period: 12th century" ->
   getPeriod title D = Ok ("12th" ++ nbsp ++ "c.")).
Proof.
  intros Ht. repeat split; intros HD;
    rewrite (getPeriod_label title D _ Ht HD); vm_compute; reflexivity.
Qed.

Lemma getPeriod_examples_witness :
  "Episode" <> cyprus_title /\
  period_label (page_with_period "Period: 1071-8") "Period: 1071-8" /\
  getPeriod "Episode" (page_with_period "Period: 1071-8") = Ok "1071-1078".
Proof.
  split; [discriminate|]. 
  assert (H : period_label (page_with_period "Period: 1071-8") "Period: 1071-8")
    by (eexists; split; reflexivity).
  split; [exact H|].
  apply (getPeriod_examples "Episode" (page_with_period "Period: 1071-8")).
  - discriminate.
  - exact H.
Defined.

(** C10: a label that ends in a bare hyphen matches the year pattern, the
    split leaves an empty end year, and [int('')] raises ValueError. *)
Theorem getPeriod_raises_on_open_range title D :
  title <> cyprus_title ->
  period_label D "Period: 1071-" ->
  (exists m, search Pat.years "Period: 1071-" = Some m /\
             split "-" (group 1 m) = ["1071"; ""]) /\
  py_int "" = Raise ValueError /\
  getPeriod title D = Raise ValueError.
Proof.
  intros Ht HD. split; [|split].
  - eexists; split; vm_compute; reflexivity.
  - reflexivity.
  - rewrite (getPeriod_label title D _ Ht HD). vm_compute; reflexivity.
Qed.

Lemma getPeriod_raises_on_open_range_witness :
  getPeriod "Episode" (page_with_period "Period: 1071-") = Raise ValueError.
Proof.
  apply (getPeriod_raises_on_open_range "Episode" (page_with_period "Period: 1071-")).
  - discriminate.
  - eexists; split; reflexivity.
Defined.

End PeriodFacts.

(** ** [int] on episode numbers *)

Section IntFacts.
Import Str Re.

Lemma digit_not_ws c : is_digit c = true -> PyInt.is_ws c = false.
Proof.
  intros Hd. pose proof Hd as H. unfold is_digit, in_range in H.
  apply andb_true_iff in H. destruct H as [H1 H2].
  apply Nat.leb_le in H1. apply Nat.leb_le in H2.
  unfold PyInt.is_ws, in_range. apply orb_false_iff. split.
  - apply andb_false_iff; right; apply Nat.leb_gt; lia.
  - destruct (Ascii.eqb_spec c " ") as [->|]; [discriminate Hd | reflexivity].
Qed.

Lemma digit_not_sign c :
  is_digit c = true -> Ascii.eqb c "-" = false /\ Ascii.eqb c "+" = false.
Proof.
  intros H. split.
  - destruct (Ascii.eqb_spec c "-") as [->|]; [discriminate H | reflexivity].
  - destruct (Ascii.eqb_spec c "+") as [->|]; [discriminate H | reflexivity].
Qed.

Lemma digits_all s acc prev :
  all is_digit s = true -> prev = true \/ s <> "" ->
  exists n, PyInt.digits acc prev s = Some n.
Proof.
  revert acc prev; induction s as [|c s IH]; intros acc prev Hall Hne; simpl.
  - destruct Hne as [-> | Hne]; [eauto | contradiction].
  - simpl in Hall. apply andb_true_iff in Hall. destruct Hall as [Hc Hs].
    rewrite Hc. apply IH; auto.
Qed.

Lemma rstrip_digits s r :
  all is_digit s = true -> r = "" \/ r = String LF "" ->
  PyInt.rstrip (s ++ r) = s.
Proof.
  intros Hall Hr. induction s as [|c s IH].
  - destruct Hr as [-> | ->]; reflexivity.
  - simpl in Hall. apply andb_true_iff in Hall. destruct Hall as [Hc Hs].
    cbn [append PyInt.rstrip]. rewrite (IH Hs).
    destruct s; [now rewrite (digit_not_ws c Hc) | reflexivity].
Qed.

(** An anchored pattern matches at the start of the subject or nowhere. *)
Lemma search_from_anchored r pos s :
  search_from (Seq Bol r) (S pos) s = None.
Proof.
  revert pos; induction s as [|c s IH]; intros pos; [reflexivity|].
  cbn [search_from exec Nat.eqb]. apply IH.
Qed.

Lemma search_anchored r s m :
  search (Seq Bol r) s = Some m -> exec r 0 s [] (accept 0) = Some m.
Proof.
  unfold search. destruct s as [|c s]; cbn [search_from exec Nat.eqb].
  - destruct (exec r 0 "" [] (accept 0)); [auto | discriminate].
  - destruct (exec r 0 (String c s) [] (accept 0)); [auto|].
    now rewrite search_from_anchored.
Qed.

(** The text the numeric pattern accepts: digits, and perhaps a line feed
    at the very end. *)
Lemma search_numeric_inv s m :
  search Pat.numeric s = Some m ->
  exists d ds r, s = String d (ds ++ r) /\ is_digit d = true /\
                 all is_digit ds = true /\ (r = "" \/ r = String LF "").
Proof.
  unfold Pat.numeric, Plus. intros H. apply search_anchored in H.
  cbn [exec] in H. destruct s as [|d s]; [discriminate|].
  destruct (is_digit d) eqn:Hd; [|discriminate].
  apply star_inv in H. destruct H as (ds & r & -> & Hall & H).
  exists d, ds, r. repeat split; auto.
  destruct r as [|c [|c' r]]; [now left | | discriminate].
  destruct (Ascii.eqb_spec c LF) as [->|]; [now right | discriminate].
Qed.

(** [int] accepts whatever the numeric pattern accepts. *)
Lemma numeric_parses s m :
  search Pat.numeric s = Some m -> exists n, py_int s = Ok n.
Proof.
  intros H. destruct (search_numeric_inv s m H) as (d & ds & r & -> & Hd & Hall & Hr).
  unfold py_int, PyInt.parse. cbn [PyInt.lstrip]. rewrite (digit_not_ws d Hd).
  change (String d (ds ++ r)) with (String d ds ++ r).
  rewrite rstrip_digits; [|simpl; now rewrite Hd, Hall | exact Hr].
  destruct (digit_not_sign d Hd) as [-> ->].
  destruct (digits_all (String d ds) 0 false) as [n ->]; [ | | eauto].
  - simpl. now rewrite Hd, Hall.
  - right; discriminate.
Qed.

End IntFacts.

(** ** Merging a record *)

Section MergeFacts.
Import Str Re.

Lemma truthy_has_next self : truthy (next self) = true <-> has_next self.
Proof.
  unfold truthy, has_next. destruct (next self) as [[|c u]|]; cbn [nonempty]; split.
  - discriminate.
  - intros (u & E & Hne). injection E as <-. contradiction.
  - intros _. eexists; split; [reflexivity | discriminate].
  - reflexivity.
  - discriminate.
  - intros (u & E & _). discriminate E.
Qed.

(** A slice [s[:n]] is the start of the text: [n] characters, or all of
    the text when it has fewer. *)
Lemma take_split n : forall s,
  exists rest, s = take n s ++ rest /\
    (String.length (take n s) = n \/
     (rest = "" /\ (String.length (take n s) < n)%nat)).
Proof.
  induction n as [|n IH]; intros s.
  - exists s. destruct s; split; try reflexivity; now left.
  - destruct s as [|c s].
    + exists "". split; [reflexivity|]. right. split; [reflexivity|].
      unfold take. cbn [substring String.length]. lia.
    + destruct (IH s) as (rest & E & Hlen). exists rest.
      unfold take in *. cbn [substring append String.length]. split.
      * now rewrite <- E.
      * destruct Hlen as [Hlen | [-> Hlen]]; [left | right; split; [reflexivity|]]; lia.
Qed.

Lemma take_first_ten content : first_ten content (take 10 content).
Proof. exact (take_split 10 content). Qed.

Lemma take_short n : forall s, (String.length s <= n)%nat -> take n s = s.
Proof.
  induction n as [|n IH]; intros s Hlen.
  - destruct s; [reflexivity | cbn [String.length] in Hlen; lia].
  - destruct s as [|c s]; [reflexivity|]. unfold take in *. cbn [substring].
    rewrite IH; [reflexivity | cbn [String.length] in Hlen; lia].
Qed.

(** The calendar date of a time stamp is the slice the script takes. *)
Lemma first_ten_take content date :
  first_ten content date -> date = take 10 content.
Proof.
  intros (rest & -> & [Hlen | [-> Hlen]]).
  - symmetry. apply take_prefix. now rewrite Hlen.
  - rewrite append_nil_r. symmetry. apply take_short. lia.
Qed.

(** What a merge that completes is made of. *)
Lemma addToIndex_inv today self d d' :
  addToIndex today self d = Ok d' ->
  exists d1 date,
    ((In (url self) (skip d) /\
      d1 = set_skip d (filter (fun u => negb (String.eqb (url self) u)) (skip d)))
     \/ (~ In (url self) (skip d) /\ add_rows self d = Ok d1)) /\
    index_date today self date /\
    d' = set_curr_pub (set_curr_index_date d1 (Some date)) (Some (url self)).
Proof.
  unfold addToIndex. intros H.
  apply bind_Ok in H. destruct H as (d1 & H1 & H).
  apply bind_Ok in H. destruct H as (date & H2 & H).
  injection H as <-. exists d1, date. split; [|split; [|reflexivity]].
  - destruct (filter (String.eqb (url self)) (skip d)) as [|u us] eqn:Hf.
    + right. split; [|exact H1]. intros Hin.
      assert (Hu : In (url self) (filter (String.eqb (url self)) (skip d))).
      { apply filter_In. split; [exact Hin | apply String.eqb_refl]. }
      rewrite Hf in Hu. exact Hu.
    + left. split.
      * assert (Hu : In u (filter (String.eqb (url self)) (skip d)))
          by (rewrite Hf; now left).
        apply filter_In in Hu. destruct Hu as [Hu E].
        apply String.eqb_eq in E. now subst u.
      * cbv zeta in H1. cbn [makeindex_data set_skip] in H1.
        destruct (makeindex_data d); [now injection H1 as <- | discriminate H1].
  - split.
    + intros Hn. apply truthy_has_next in Hn. rewrite Hn in H2.
      destruct (published_time (D self)) as [content|]; [|discriminate].
      injection H2 as <-. exists content. split; [reflexivity | apply take_first_ten].
    + intros Hn. destruct (truthy (next self)) eqn:E.
      * apply truthy_has_next in E. contradiction.
      * now injection H2.
Qed.

Lemma PubType_eqb_eq a b : PubType_eqb a b = true <-> a = b.
Proof. destruct a, b; simpl; split; intros H; try reflexivity; discriminate. Qed.

Lemma append_century_names c tr d :
  century_names (append_century c tr d) = century_names d /\
  century_thresholds (append_century c tr d) = century_thresholds d.
Proof.
  unfold century_names, century_thresholds, append_century. cbn [century_panels].
  rewrite !map_map. split; apply map_ext; intros p;
    destruct (String.eqb (data_century p) c); reflexivity.
Qed.

(** The first panel in the selection is the one after the first panel of
    the name. *)
Lemma next_siblings_position c ps q tl :
  next_siblings c ps = q :: tl ->
  exists i, position c (map data_century ps) = Some i /\
            nth_error ps (S i) = Some q.
Proof.
  revert q tl; induction ps as [|p ps IH]; intros q tl H; [discriminate|].
  cbn [next_siblings] in H. destruct ps as [|q' ps']; [discriminate|].
  cbn [map position]. destruct (String.eqb (data_century p) c).
  - injection H as <- _. exists 0%nat. split; reflexivity.
  - destruct (IH _ _ H) as (i & Hi & Hq). exists (S i). split.
    + cbn [map position] in Hi. now rewrite Hi.
    + exact Hq.
Qed.

(** The choice of the century panel for a news item or an episode. *)
Lemma add_rows_inv self d d1 :
  add_rows self d = Ok d1 ->
  skip d1 = skip d /\
  century_names d1 = century_names d /\
  century_thresholds d1 = century_thresholds d /\
  (data_curr_century d1 = data_curr_century d \/
   exists c', data_curr_century d1 = Some c' /\ advances self d c').
Proof.
  unfold add_rows. destruct (PubType_eqb (type self) special).
  - destruct (series self) as [ser|]; [|discriminate].
    destruct (String.eqb (title self) chrysostom_title);
      intros H; injection H as <-; repeat split; auto.
  - intros H. apply bind_Ok in H. destruct H as ([c dc] & Hr & H).
    injection H as <-. cbn [fst snd].
    assert (Hdc : skip dc = skip d /\ century_names dc = century_names d /\
                  century_thresholds dc = century_thresholds d /\
                  (data_curr_century dc = data_curr_century d \/
                   exists c', data_curr_century dc = Some c' /\ advances self d c')).
    { destruct (PubType_eqb (type self) podcast) eqn:Hty;
        [|injection Hr as <- <-; repeat split; auto].
      apply PubType_eqb_eq in Hty.
      destruct (search Pat.numeric (episode self)) as [nm|] eqn:Hnum;
        [|injection Hr as <- <-; repeat split; auto].
      apply bind_Ok in Hr. destruct Hr as (epnum & Hep & Hr).
      destruct (next_siblings (str_of (data_curr_century d)) (century_panels d))
        as [|q tl] eqn:Hnext; [injection Hr as <- <-; repeat split; auto|].
      apply bind_Ok in Hr. destruct Hr as (first & Hfirst & Hr).
      destruct (epnum >=? first)%Z eqn:Hge;
        [|injection Hr as <- <-; repeat split; auto].
      injection Hr as <- <-. repeat split; auto.
      right. exists (data_century q). split; [reflexivity|].
      destruct (next_siblings_position _ _ _ _ Hnext) as (i & Hi & Hq).
      split; [exact Hty|]. split; [now rewrite Hnum|].
      exists i, q, epnum, first. repeat split; auto.
      apply Z.geb_le in Hge. exact Hge. }
    destruct Hdc as (Hs & Hn & Ht & Hc).
    destruct (append_century_names (str_of c) (trFormat
       (if nonempty (episode self)
        then aFormat (url self) (urltitle self) (episode self) else "")
       (if nonempty (episode self)
        then title self else aFormat (url self) (urltitle self) (title self))
       (period self)) dc) as [Hn' Ht'].
    repeat split.
    + exact Hs.
    + unfold century_names in *. cbn [append_all century_panels] in *. congruence.
    + unfold century_thresholds in *. cbn [append_all century_panels] in *. congruence.
    + exact Hc.
Qed.

Lemma next_siblings_In c ps q : In q (next_siblings c ps) -> In q ps.
Proof.
  induction ps as [|p ps IH]; [contradiction|].
  cbn [next_siblings]. destruct ps as [|q' ps']; [contradiction|].
  destruct (String.eqb (data_century p) c).
  - intros [<- | H]; [right; now left | right; now apply IH].
  - intros H. right. now apply IH.
Qed.

Lemma add_rows_total self d :
  (type self = special -> series self <> None) ->
  numeric_thresholds d ->
  exists d1, add_rows self d = Ok d1.
Proof.
  intros Hser Hnum. unfold add_rows.
  destruct (PubType_eqb (type self) special) eqn:Hsp.
  - apply PubType_eqb_eq in Hsp. specialize (Hser Hsp).
    destruct (series self) as [ser|]; [|contradiction].
    destruct (String.eqb (title self) chrysostom_title); eauto.
  - destruct (PubType_eqb (type self) podcast); [|cbn [bind]; eauto].
    destruct (search Pat.numeric (episode self)) as [nm|] eqn:Hm; [|cbn [bind]; eauto].
    destruct (numeric_parses _ _ Hm) as [epnum ->]. cbn [bind].
    destruct (next_siblings (str_of (data_curr_century d)) (century_panels d))
      as [|q tl] eqn:Hnext; [cbn [bind]; eauto|].
    assert (Hq : In q (century_panels d)).
    { apply (next_siblings_In (str_of (data_curr_century d))). rewrite Hnext. now left. }
    destruct (Hnum q Hq) as [Hparse _]. unfold py_int at 1.
    destruct (PyInt.parse (data_first_ep q)) as [first|]; [|contradiction].
    cbn [bind]. destruct (epnum >=? first)%Z; cbn [bind]; eauto.
Qed.

Lemma addToIndex_total today self d :
  mergeable self d -> exists d', addToIndex today self d = Ok d'.
Proof.
  intros (Hdate & Hser & _ & Hnum & Hdata). unfold addToIndex.
  assert (H2 : exists date,
             (if truthy (next self)
              then match published_time (D self) with
                   | Some content => Ok (take 10 content)
                   | None => Raise TypeError
                   end
              else Ok today) = Ok date).
  { unfold dated in Hdate. destruct (truthy (next self)) eqn:E; [|eauto].
    apply truthy_has_next in E. specialize (Hdate E).
    destruct (published_time (D self)); [eauto | contradiction]. }
  destruct H2 as [date H2].
  destruct (filter (String.eqb (url self)) (skip d)) as [|u us].
  - destruct (add_rows_total self d Hser Hnum) as [d1 ->].
    cbn [bind]. rewrite H2. cbn [bind]. eauto.
  - cbv zeta. cbn [makeindex_data set_skip]. rewrite Hdata.
    cbn [bind]. rewrite H2. cbn [bind]. eauto.
Qed.

Lemma addToIndex_state_updated today self d d' :
  addToIndex today self d = Ok d' -> state_updated today self d'.
Proof.
  intros H. destruct (addToIndex_inv today self d d' H) as (d1 & date & _ & Hdate & ->).
  split; [reflexivity|]. exists date. split; [reflexivity | exact Hdate].
Qed.

(** C7 fails as it is stated: a merge call can raise before the state is
    updated.  For the page of an episode that links to a newer publication
    and carries no published time, the row is built and the merge raises
    TypeError at the slice of the missing time; no such call leaves
    [data-curr-pub] at the address of the record. *)
Lemma addToIndex_state_not_reached :
  (exists self,
     init_from_page "https://example.org/30" undated_episode_page = Ok self /\
     has_next self /\
     addToIndex "2026-11-04" self (set_skip sample_index []) = Raise TypeError) /\
  ~ (forall today self d,
       exists d', addToIndex today self d = Ok d' /\
                  data_curr_pub d' = Some (url self)).
Proof.
  split.
  - eexists. split; [vm_compute; reflexivity|]. split.
    + eexists. split; [reflexivity | discriminate].
    + vm_compute. reflexivity.
  - intros H.
    destruct (init_from_page "https://example.org/30" undated_episode_page)
      as [self|] eqn:E; [|discriminate E].
    destruct (H "2026-11-04" self (set_skip sample_index [])) as (d' & Hd' & _).
    vm_compute in E. injection E as <-. vm_compute in Hd'. discriminate Hd'.
Qed.

(** C7, amended: after every merge that runs to its end, skipped or not,
    [data-curr-pub] is the address of the record and [data-curr-index-date]
    is the published time cut to its first ten characters when the record
    has a next pointer, today's date when it has none; and a merge of a
    mergeable record runs to its end. *)
Theorem addToIndex_state today self d :
  (forall d', addToIndex today self d = Ok d' ->
     data_curr_pub d' = Some (url self) /\
     exists date, data_curr_index_date d' = Some date /\
       (has_next self ->
        exists content, published_time (D self) = Some content /\
                        first_ten content date) /\
       (~ has_next self -> date = today)) /\
  (mergeable self d -> exists d', addToIndex today self d = Ok d').
Proof.
  split; [|apply addToIndex_total].
  intros d' H. exact (addToIndex_state_updated today self d d' H).
Qed.

Lemma addToIndex_state_witness :
  (exists d',
     addToIndex "2026-11-04" sample_record (set_skip sample_index []) = Ok d' /\
     data_curr_pub d' = Some "https://example.org/30" /\
     data_curr_index_date d' = Some "2013-05-01") /\
  (exists d',
     addToIndex "2026-11-04" sample_record_31 sample_index = Ok d' /\
     data_curr_pub d' = Some "https://example.org/31" /\
     data_curr_index_date d' = Some "2026-11-04").
Proof.
  split.
  - destruct (addToIndex_state "2026-11-04" sample_record (set_skip sample_index []))
      as [Hpost Hrun].
    destruct Hrun as [d' E].
    { split; [intros _; discriminate|]. split; [discriminate|].
      split; [apply Nat.leb_le; reflexivity|]. split; [|reflexivity].
      intros p [<- | [<- | []]]; (split; [discriminate | apply Nat.leb_le; reflexivity]). }
    destruct (Hpost d' E) as (Hpub & date & Hdate & Hnext & _).
    destruct Hnext as (content & Hcontent & Hten).
    { eexists. split; [reflexivity | discriminate]. }
    injection Hcontent as <-. apply first_ten_take in Hten.
    exists d'. split; [exact E|]. split; [exact Hpub|].
    rewrite Hdate, Hten. reflexivity.
  - destruct (addToIndex_state "2026-11-04" sample_record_31 sample_index)
      as [Hpost Hrun].
    destruct Hrun as [d' E].
    { split; [intros (u & Hu & _); discriminate Hu|]. split; [discriminate|].
      split; [apply Nat.leb_le; reflexivity|]. split; [|reflexivity].
      intros p [<- | [<- | []]]; (split; [discriminate | apply Nat.leb_le; reflexivity]). }
    destruct (Hpost d' E) as (Hpub & date & Hdate & _ & Htoday).
    exists d'. split; [exact E|]. split; [exact Hpub|].
    rewrite Hdate, Htoday; [reflexivity|].
    intros (u & Hu & _). discriminate Hu.
Defined.

(** ** Skip markers *)

(** Removing the markers of one address takes one address out of the
    pending ones. *)
Lemma pending_without u l :
  In u l ->
  length (nodup string_dec l)
  = S (length (nodup string_dec (filter (fun v => negb (String.eqb u v)) l))).
Proof.
  intros Hu.
  set (l' := filter (fun v => negb (String.eqb u v)) l).
  change (S (length (nodup string_dec l'))) with (length (u :: nodup string_dec l')).
  apply Permutation_length, NoDup_Permutation.
  - apply NoDup_nodup.
  - constructor; [|apply NoDup_nodup].
    rewrite nodup_In. unfold l'. rewrite filter_In.
    intros [_ H]. now rewrite String.eqb_refl in H.
  - intros x. rewrite nodup_In. cbn [In]. rewrite nodup_In. unfold l'.
    rewrite filter_In. split.
    + intros Hx. destruct (String.eqb_spec u x) as [E|E]; [now left | right; auto].
    + intros [<- | [Hx _]]; assumption.
Qed.

(** C3 fails as it is stated: the state update does not always happen.
    For a page on the skip list that links to a newer publication and
    carries no published time, the marker is removed and the merge raises
    TypeError before the update; and without the element [#makeindex-data]
    it raises before that. *)
Lemma addToIndex_skipped_raises :
  (exists self,
     init_from_page "https://example.org/30" undated_episode_page = Ok self /\
     In (url self) (skip sample_index) /\
     addToIndex "2026-11-04" self sample_index = Raise TypeError) /\
  (In (url sample_record) (skip bare_index) /\
   addToIndex "2026-11-04" sample_record bare_index = Raise TypeError) /\
  ~ (forall today self d, In (url self) (skip d) ->
       exists d', addToIndex today self d = Ok d' /\
                  data_curr_pub d' = Some (url self)).
Proof.
  split; [|split].
  - eexists. split; [vm_compute; reflexivity|]. split.
    + cbn. now left.
    + vm_compute. reflexivity.
  - split; [cbn; now left | vm_compute; reflexivity].
  - intros H.
    destruct (H "2026-11-04" sample_record bare_index) as (d' & Hd' & _).
    + cbn. now left.
    + vm_compute in Hd'. discriminate Hd'.
Qed.

(** C3, amended: when the address of the record is on a skip marker, the
    page is dated and the index holds the element [#makeindex-data], the
    merge runs to its end, leaves every table as it was, takes that address
    and no other out of the pending ones, and updates [data-curr-pub] and
    [data-curr-index-date]. *)
Theorem addToIndex_skipped today self d :
  In (url self) (skip d) ->
  dated self ->
  makeindex_data d = true ->
  exists d',
    addToIndex today self d = Ok d' /\
    century_panels d' = century_panels d /\
    special_panels d' = special_panels d /\
    all_rows d' = all_rows d /\
    (forall u, In u (skip d') <-> In u (skip d) /\ u <> url self) /\
    length (pendingSkip d) = S (length (pendingSkip d')) /\
    state_updated today self d'.
Proof.
  intros Hin Hdate Hdata.
  assert (Hrun : exists d', addToIndex today self d = Ok d').
  { unfold addToIndex.
    destruct (filter (String.eqb (url self)) (skip d)) as [|u us] eqn:Hf.
    - exfalso.
      assert (Hu : In (url self) (filter (String.eqb (url self)) (skip d))).
      { apply filter_In. split; [exact Hin | apply String.eqb_refl]. }
      rewrite Hf in Hu. exact Hu.
    - cbv zeta. cbn [makeindex_data set_skip]. rewrite Hdata. cbn [bind].
      unfold dated in Hdate.
      destruct (truthy (next self)) eqn:E; [|cbn [bind]; eauto].
      apply truthy_has_next in E. specialize (Hdate E).
      destruct (published_time (D self)); [cbn [bind]; eauto | contradiction]. }
  destruct Hrun as [d' H]. exists d'. split; [exact H|].
  pose proof (addToIndex_state_updated today self d d' H) as Hst.
  destruct (addToIndex_inv today self d d' H)
    as (d1 & date & [[_ ->] | [Hnot _]] & _ & ->); [|contradiction].
  cbn [set_curr_pub set_curr_index_date set_skip century_panels special_panels
       all_rows skip] in *.
  split; [reflexivity|]. split; [reflexivity|]. split; [reflexivity|].
  split; [|split; [|exact Hst]].
  - intros u. rewrite filter_In, negb_true_iff, String.eqb_neq.
    split; intros [Hu Hne]; split; auto.
  - unfold pendingSkip. cbn [skip]. now apply pending_without.
Qed.

Lemma addToIndex_skipped_witness :
  exists d', addToIndex "2026-11-04" sample_record sample_index = Ok d' /\
             all_rows d' = [] /\ skip d' = [] /\
             length (pendingSkip sample_index) = S (length (pendingSkip d')) /\
             data_curr_pub d' = Some "https://example.org/30" /\
             data_curr_index_date d' = Some "2013-05-01".
Proof.
  destruct (addToIndex_skipped "2026-11-04" sample_record sample_index)
    as (d' & E & _ & _ & Hall & Hskip & Hlen & Hpub & date & Hdate & Hnext & _).
  - cbn. now left.
  - intros _. discriminate.
  - reflexivity.
  - destruct Hnext as (content & Hcontent & Hten).
    { eexists. split; [reflexivity | discriminate]. }
    injection Hcontent as <-. apply first_ten_take in Hten.
    exists d'. split; [exact E|]. split; [exact Hall|]. split.
    + destruct (skip d') as [|u us]; [reflexivity|].
      destruct (proj1 (Hskip u) (or_introl eq_refl)) as [[Hu | []] Hne].
      now elim Hne.
    + split; [exact Hlen|]. split; [exact Hpub|].
      rewrite Hdate, Hten. reflexivity.
Defined.

(** ** Completion *)

Lemma classify_series t f :
  classify t = Ok f -> f_type f = special -> f_series f <> None.
Proof.
  unfold classify. intros H Hty.
  destruct (search Pat.episode t) as [em|].
  - destruct (m_start em =? 0)%nat.
    + destruct (search Pat.podcast t); [|discriminate].
      injection H as <-. discriminate Hty.
    + destruct (search Pat.special t) as [sm|]; [|discriminate].
      destruct (String.eqb (group 1 sm) "Byzantine Stories");
        [injection H as <-; discriminate|].
      destruct (String.eqb (group 1 sm) "Backer Rewards");
        injection H as <-; [discriminate | discriminate Hty].
  - injection H as <-. discriminate Hty.
Qed.

Lemma Publication_init_series web u self :
  Publication_init web u = Ok self -> type self = special -> series self <> None.
Proof.
  unfold Publication_init, init_from_page. destruct (web u) as [page|]; [|discriminate].
  intros H. apply bind_Ok in H. destruct H as (f & Hf & H).
  apply bind_Ok in H. destruct H as (p & _ & H). injection H as <-.
  cbn [type series]. now apply classify_series with (t := normalize (entry_title page)).
Qed.

(** C5 fails as it is stated: the merge raises TypeError for a page that
    links to a newer publication and carries no published time, ValueError
    when the threshold it has to compare with is not a number, and
    TypeError when a marker is removed from an index that has no element
    [#makeindex-data]. *)
Lemma addToIndex_raises :
  (exists self, init_from_page "https://example.org/1" undated_page = Ok self /\
                addToIndex "2026-11-04" self sample_index = Raise TypeError) /\
  addToIndex "2026-11-04" sample_record odd_index = Raise ValueError /\
  addToIndex "2026-11-04" sample_record bare_index = Raise TypeError.
Proof.
  split; [eexists; split | split]; vm_compute; reflexivity.
Qed.

(** C5, amended: the merge of a record built from a page runs to its end
    and updates the state whenever the page carries a published time if it
    links to a newer publication, the code of the episode and the thresholds
    of the century panels are within the default limit of [int] on digits,
    the thresholds are numbers, and the index holds the element
    [#makeindex-data]. *)
Theorem addToIndex_completes web u today self d :
  Publication_init web u = Ok self ->
  dated self ->
  (String.length (episode self) <= max_str_digits)%nat ->
  numeric_thresholds d ->
  makeindex_data d = true ->
  exists d', addToIndex today self d = Ok d' /\ state_updated today self d'.
Proof.
  intros Hinit Hdate Hlen Hnum Hdata.
  destruct (addToIndex_total today self d) as [d' H].
  - split; [exact Hdate|]. split.
    + now apply Publication_init_series with (web := web) (u := u).
    + split; [exact Hlen|]. split; [exact Hnum | exact Hdata].
  - exists d'. split; [exact H|]. now apply addToIndex_state_updated with (d := d).
Qed.

Lemma addToIndex_completes_witness :
  exists d', addToIndex "2026-11-04" sample_record (set_skip sample_index []) = Ok d' /\
             state_updated "2026-11-04" sample_record d'.
Proof.
  apply (addToIndex_completes (fun _ => Some sample_page) "https://example.org/30").
  - reflexivity.
  - intros _. discriminate.
  - apply Nat.leb_le. reflexivity.
  - intros p [<- | [<- | []]]; (split; [discriminate | apply Nat.leb_le; reflexivity]).
  - reflexivity.
Defined.

(** ** The current century *)

Lemma distinct_head n rest x :
  distinct (n :: rest) = true -> In x rest -> String.eqb n x = false.
Proof.
  cbn [distinct]. intros H Hx. apply andb_true_iff in H. destruct H as [H _].
  apply negb_true_iff in H. destruct (String.eqb n x) eqn:E; [|reflexivity].
  rewrite <- H. symmetry. apply existsb_exists. now exists x.
Qed.

(** With distinct names, a name sits at the place of its panel. *)
Lemma position_nth names j n :
  distinct names = true -> nth_error names j = Some n ->
  position n names = Some j.
Proof.
  revert j; induction names as [|a rest IH]; intros j Hd Hn.
  - destruct j; discriminate.
  - destruct j as [|j]; cbn [nth_error] in Hn; cbn [position].
    + injection Hn as ->. now rewrite String.eqb_refl.
    + rewrite (distinct_head a rest n Hd) by (eapply nth_error_In; eauto).
      cbn [distinct] in Hd. apply andb_true_iff in Hd. destruct Hd as [_ Hd].
      now rewrite (IH j Hd Hn).
Qed.

(** One merge: the panels keep their names and thresholds, and the current
    century stays or advances. *)
Lemma addToIndex_century today self d d' :
  addToIndex today self d = Ok d' ->
  century_names d' = century_names d /\
  century_thresholds d' = century_thresholds d /\
  (data_curr_century d' = data_curr_century d \/
   exists c', data_curr_century d' = Some c' /\ advances self d c').
Proof.
  intros H.
  destruct (addToIndex_inv today self d d' H)
    as (d1 & date & [[_ ->] | [_ Hrows]] & _ & ->).
  - repeat split; auto.
  - destruct (add_rows_inv self d d1 Hrows) as (_ & Hn & Ht & Hc).
    repeat split; assumption.
Qed.

(** One merge does not move the current century back. *)
Lemma addToIndex_forward today self d d' :
  distinct (century_names d) = true ->
  addToIndex today self d = Ok d' ->
  match position (current_name d) (century_names d) with
  | Some i => exists j, position (current_name d') (century_names d) = Some j /\
                        (i <= j)%nat
  | None => data_curr_century d' = data_curr_century d
  end.
Proof.
  intros Hd H. destruct (addToIndex_century today self d d' H) as (_ & _ & Hc).
  destruct Hc as [Hc | (c' & Hc & _ & _ & i & q & epnum & first & Hi & Hq & -> & _)].
  - unfold current_name. rewrite Hc.
    destruct (position (str_of (data_curr_century d)) (century_names d)) as [i|];
      [exists i; split; [reflexivity | lia] | reflexivity].
  - rewrite Hi. exists (S i). split; [|lia].
    unfold current_name. rewrite Hc. cbn [str_of].
    apply position_nth; [exact Hd|].
    unfold century_names. now rewrite nth_error_map, Hq.
Qed.

Lemma merge_all_forward today pubs d d' :
  distinct (century_names d) = true ->
  merge_all today pubs d = Ok d' ->
  century_names d' = century_names d /\
  century_thresholds d' = century_thresholds d /\
  match position (current_name d) (century_names d) with
  | Some i => exists j, position (current_name d') (century_names d) = Some j /\
                        (i <= j)%nat
  | None => data_curr_century d' = data_curr_century d
  end.
Proof.
  revert d; induction pubs as [|self pubs IH]; intros d Hd H.
  - cbn [merge_all] in H. injection H as <-. repeat split.
    destruct (position (current_name d) (century_names d)) as [i|];
      [exists i; split; [reflexivity | lia] | reflexivity].
  - cbn [merge_all] in H. apply bind_Ok in H. destruct H as (d1 & H1 & H).
    destruct (addToIndex_century today self d d1 H1) as (Hn & Ht & _).
    pose proof (addToIndex_forward today self d d1 Hd H1) as Hstep.
    assert (Hd1 : distinct (century_names d1) = true) by now rewrite Hn.
    destruct (IH d1 Hd1 H) as (Hn' & Ht' & Hrest).
    rewrite Hn in Hrest.
    split; [congruence|]. split; [congruence|].
    destruct (position (current_name d) (century_names d)) as [i|] eqn:E.
    + destruct Hstep as (j & Hj & Hij). rewrite Hj in Hrest.
      destruct Hrest as (k & Hk & Hjk). exists k. split; [exact Hk | lia].
    + assert (Hname : current_name d1 = current_name d)
        by (unfold current_name; now rewrite Hstep).
      rewrite Hname, E in Hrest. congruence.
Qed.

(** C4: over a run of merges on an index whose century panels have distinct
    names, the place of the current century among the panels never
    decreases, so with panels in the order of their thresholds the threshold
    of the current century never decreases; and a merge changes the current
    century only for an episode whose code is a number at or past the
    threshold of the next panel, to which it moves. *)
Theorem century_only_advances today pubs d d' :
  distinct (century_names d) = true ->
  merge_all today pubs d = Ok d' ->
  century_names d' = century_names d /\
  (forall i, position (current_name d) (century_names d) = Some i ->
     exists j, position (current_name d') (century_names d) = Some j /\ (i <= j)%nat /\
               (sorted_thresholds d -> forall ti tj,
                  threshold_at d i = Some ti -> threshold_at d j = Some tj ->
                  (ti <= tj)%Z)) /\
  (position (current_name d) (century_names d) = None ->
     data_curr_century d' = data_curr_century d) /\
  (forall before self after d0 d1,
     pubs = (before ++ self :: after)%list ->
     merge_all today before d = Ok d0 ->
     addToIndex today self d0 = Ok d1 ->
     data_curr_century d1 = data_curr_century d0 \/
     exists c', data_curr_century d1 = Some c' /\ advances self d0 c').
Proof.
  intros Hd H. destruct (merge_all_forward today pubs d d' Hd H) as (Hn & _ & Hpos).
  split; [exact Hn|]. split; [|split].
  - intros i Hi. rewrite Hi in Hpos. destruct Hpos as (j & Hj & Hij).
    exists j. split; [exact Hj|]. split; [exact Hij|].
    intros Hsorted ti tj Hti Htj. exact (Hsorted i j ti tj Hij Hti Htj).
  - intros Hnone. now rewrite Hnone in Hpos.
  - intros before self after d0 d1 _ _ H1.
    now destruct (addToIndex_century today self d0 d1 H1) as (_ & _ & Hc).
Qed.

Lemma century_only_advances_witness :
  exists d',
    merge_all "2026-11-04" [sample_record; sample_record_31] sample_index = Ok d' /\
    position (current_name sample_index) (century_names sample_index) = Some 0%nat /\
    position (current_name d') (century_names sample_index) = Some 1%nat.
Proof.
  destruct (merge_all "2026-11-04" [sample_record; sample_record_31] sample_index)
    as [d'|e] eqn:E; [|discriminate E].
  destruct (century_only_advances "2026-11-04" [sample_record; sample_record_31]
              sample_index d' eq_refl E) as (_ & Hpos & _).
  destruct (Hpos 0%nat eq_refl) as (j & Hj & _).
  exists d'. split; [reflexivity|]. split; [reflexivity|].
  injection E as <-. reflexivity.
Defined.

End MergeFacts.

(** ** The main loop *)

Section LoopFacts.

Variable web : Web.
Variable today : string.
Variable maxPubs : option Z.

(** The loop goes along the chain as long as the count stays within the
    bound. *)
Lemma main_loop_walk n : forall fuel u k d u' d',
  walk web today n u d = Some (u', d') ->
  (forall i, (0 < i < n)%nat -> within maxPubs (k + Z.of_nat i) = true) ->
  main_loop web today maxPubs (n + fuel) u k d
  = match n with
    | O => main_loop web today maxPubs fuel u k d
    | S _ =>
        main_loop web today maxPubs fuel
          (if within maxPubs (k + Z.of_nat n) then u' else None)
          (k + Z.of_nat n) d'
    end.
Proof.
  induction n as [|n IH]; intros fuel u k d u' d' Hwalk Hin; [reflexivity|].
  cbn [walk] in Hwalk. cbn [Nat.add main_loop].
  destruct (truthy u); [|discriminate].
  destruct (Publication_init web (str_of u)) as [pub|]; [|discriminate].
  destruct (addToIndex today pub d) as [d1|]; [|discriminate].
  destruct n as [|n'].
  - cbn [walk] in Hwalk. injection Hwalk as <- <-. reflexivity.
  - pose proof (Hin 1%nat ltac:(lia)) as H1.
    change (Z.of_nat 1) with 1%Z in H1. rewrite H1.
    rewrite (IH fuel (next pub) (k + 1)%Z d1 u' d' Hwalk).
    + replace (k + 1 + Z.of_nat (S n'))%Z with (k + Z.of_nat (S (S n')))%Z by lia.
      reflexivity.
    + intros i Hi. replace (k + 1 + Z.of_nat i)%Z with (k + Z.of_nat (S i))%Z by lia.
      apply Hin. lia.
Qed.

End LoopFacts.

(** C6 fails as it is stated: with a negative bound the loop merges one
    publication of a chain of two, not the bound plus one. *)
Lemma main_loop_negative_bound :
  walk sample_web "2026-11-04" 2 (Some "https://example.org/30") sample_index <> None /\
  exists d',
    main_loop sample_web "2026-11-04" (Some (-1)%Z) 2
      (Some "https://example.org/30") 0 sample_index = Some (Ok (d', 1%Z)) /\
    (1 <> -1 + 1)%Z.
Proof.
  split; [vm_compute; discriminate|].
  eexists. split; [vm_compute; reflexivity | discriminate].
Qed.

(** C6, amended: when the chain holds [n] publications that are read and
    merged without an exception, and either the bound is given, is not
    negative and [n] is the bound plus one, or no bound is given and the
    last record has no next pointer, then the loop, with fuel for [n]
    iterations, ends after merging exactly these [n] publications. *)
Theorem main_loop_count web today maxPubs n u d u' d' :
  walk web today n u d = Some (u', d') ->
  stops_after maxPubs n u' ->
  forall fuel, (n <= fuel)%nat ->
    main_loop web today maxPubs fuel u 0 d = Some (Ok (d', Z.of_nat n)).
Proof.
  intros Hwalk Hstop fuel Hfuel.
  replace fuel with (n + (fuel - n))%nat by lia.
  rewrite (main_loop_walk web today maxPubs n (fuel - n) u 0 d u' d' Hwalk).
  - destruct n as [|n'].
    + cbn [walk] in Hwalk. injection Hwalk as <- <-.
      destruct maxPubs as [m|]; cbn [stops_after] in Hstop.
      * lia.
      * destruct (fuel - 0)%nat; cbn [main_loop]; now rewrite Hstop.
    + destruct maxPubs as [m|]; cbn [stops_after within] in *.
      * destruct Hstop as [Hm Hn].
        replace (0 + Z.of_nat (S n') <=? m)%Z with false
          by (symmetry; apply Z.leb_gt; lia).
        destruct (fuel - S n')%nat; reflexivity.
      * destruct (fuel - S n')%nat; cbn [main_loop]; now rewrite Hstop.
  - intros i Hi. destruct maxPubs as [m|]; cbn [stops_after within] in *;
      [apply Z.leb_le; lia | reflexivity].
Qed.

Lemma main_loop_count_witness :
  exists d',
    main_loop sample_web "2026-11-04" (Some 0%Z) 1
      (Some "https://example.org/30") 0 sample_index = Some (Ok (d', 1%Z)).
Proof.
  destruct (walk sample_web "2026-11-04" 1 (Some "https://example.org/30") sample_index)
    as [[u' d']|] eqn:E; [|discriminate E].
  exists d'.
  apply (main_loop_count sample_web "2026-11-04" (Some 0%Z) 1
           (Some "https://example.org/30") sample_index u' d' E).
  - split; [lia | reflexivity].
  - lia.
Defined.

Section ShapeFacts.
Import Str Re.

(** Where the token pattern matches, it has taken a token. *)
Lemma exec_code_inv s pos cs k m :
  exec Pat.code pos s cs k = Some m ->
  exists N rest, s = N ++ rest /\ is_code N = true /\
                 k (pos + String.length N)%nat rest cs = Some m.
Proof.
  unfold Pat.code, Plus. cbn [exec].
  destruct s as [|d s2]; [discriminate|].
  destruct (is_digit d) eqn:Hd; [|discriminate].
  intros H. apply star_inv in H. destruct H as (ds & r & -> & Hall & H).
  assert (Hr : exists l rest, r = l ++ rest /\
                 (l = "" \/ exists c, l = String c "" /\ is_lower c = true) /\
                 k (S pos + String.length ds + String.length l)%nat rest cs = Some m).
  { destruct r as [|c r'].
    - exists "", "". cbn [String.length append]. rewrite Nat.add_0_r. auto.
    - destruct (is_lower c) eqn:Hc.
      + destruct (k (S (S pos + String.length ds)) r' cs) eqn:E.
        * injection H as ->. exists (String c ""), r'. cbn [String.length append].
          replace (S pos + String.length ds + 1)%nat
            with (S (S pos + String.length ds)) by lia. eauto 6.
        * exists "", (String c r'). cbn [String.length append].
          rewrite Nat.add_0_r. auto.
      + exists "", (String c r'). cbn [String.length append].
        rewrite Nat.add_0_r. auto. }
  destruct Hr as (l & rest & -> & Hl & Hk).
  exists (String d (ds ++ l)), rest. split; [|split].
  - cbn [append]. now rewrite append_assoc.
  - cbn [is_code]. rewrite Hd. now apply code_tail_append.
  - cbn [String.length]. rewrite length_append.
    replace (pos + S (String.length ds + String.length l))%nat
      with (S pos + String.length ds + String.length l)%nat by lia.
    exact Hk.
Qed.

Lemma eol_inv pos s cs k m :
  exec Eol pos s cs k = Some m -> final_LF s /\ k pos s cs = Some m.
Proof.
  cbn [exec]. destruct s as [|c [|c' s]]; [now (split; [left|]) | | discriminate].
  destruct (Ascii.eqb_spec c LF) as [->|]; [|discriminate].
  intros H. split; [now right | exact H].
Qed.

(** What a match of the anchored episode pattern says about the title. *)
Lemma search_podcast_inv t m :
  search Pat.podcast t = Some m ->
  exists N rest r,
    t = "Episode " ++ N ++ Pat.sep ++ rest ++ r /\
    is_code N = true /\ one_line rest = true /\ final_LF r /\
    group 1 m = N /\ group 2 m = rest.
Proof.
  unfold Pat.podcast. intros H. apply search_anchored in H.
  cbn [exec] in H.
  destruct (strip_prefix "Episode " t) as [s1|] eqn:H1; [|discriminate].
  apply strip_prefix_inv in H1. subst t.
  apply exec_code_inv in H. destruct H as (N & r1 & -> & HN & H).
  destruct (strip_prefix Pat.sep r1) as [r2|] eqn:H2; [|discriminate].
  apply strip_prefix_inv in H2. subst r1.
  apply star_inv in H. destruct H as (rest & r & -> & Hrest & H).
  apply eol_inv in H. destruct H as [Hr H].
  exists N, rest, r. repeat split; auto.
  - unfold accept in H. injection H as <-. lazy [group lookup m_caps Nat.eqb].
    apply take_prefix. lia.
  - unfold accept in H. injection H as <-. lazy [group lookup m_caps Nat.eqb].
    apply take_prefix. lia.
Qed.

(** The part of the pattern for special episodes after the series name. *)
Lemma exec_special_tail_inv pos s cs start m :
  exec (Seq (Lit " Episode ")
          (Seq (Group 2 Pat.code)
             (Seq (Lit Pat.sep) (Seq (Group 3 (Star not_LF)) Eol))))
    pos s cs (accept start) = Some m ->
  exists N rest r,
    s = " Episode " ++ N ++ Pat.sep ++ rest ++ r /\
    is_code N = true /\ one_line rest = true /\ final_LF r /\
    m_caps m = (3, rest) :: (2, N) :: cs.
Proof.
  cbn [exec]. intros H.
  destruct (strip_prefix " Episode " s) as [s1|] eqn:H1; [|discriminate].
  apply strip_prefix_inv in H1. subst s.
  apply exec_code_inv in H. destruct H as (N & r1 & -> & HN & H).
  destruct (strip_prefix Pat.sep r1) as [r2|] eqn:H2; [|discriminate].
  apply strip_prefix_inv in H2. subst r1.
  apply star_inv in H. destruct H as (rest & r & -> & Hrest & H).
  apply eol_inv in H. destruct H as [Hr H].
  exists N, rest, r. repeat split; auto.
  unfold accept in H. injection H as <-. cbn [m_caps].
  f_equal; [|f_equal]; f_equal; apply take_prefix; lia.
Qed.

(** What a match of the anchored pattern for special episodes says. *)
Lemma search_special_inv t m :
  search Pat.special t = Some m ->
  exists name dot N rest r,
    t = name ++ dot ++ " Episode " ++ N ++ Pat.sep ++ rest ++ r /\
    nonempty name = true /\ all Pat.letter_or_space name = true /\
    (dot = "" \/ dot = ".") /\
    is_code N = true /\ one_line rest = true /\ final_LF r /\
    group 1 m = name /\ group 2 m = N /\ group 3 m = rest.
Proof.
  unfold Pat.special, Plus. intros H. apply search_anchored in H.
  match type of H with
  | context [Seq (Lit " Episode ") ?r] => set (T := Seq (Lit " Episode ") r) in H
  end.
  cbn [exec] in H.
  destruct t as [|c0 t0]; [discriminate|].
  destruct (Pat.letter_or_space c0) eqn:Hc0; [|discriminate].
  apply star_inv in H. destruct H as (nm & r0 & -> & Hnm & H).
  assert (Hdot : exists dot r1,
             r0 = dot ++ r1 /\ (dot = "" \/ dot = ".") /\
             exec T (1 + String.length nm + String.length dot) r1
               [(1, take (1 + String.length nm - 0) (String c0 (nm ++ r0)))]
               (accept 0) = Some m).
  { destruct r0 as [|c r'].
    - exists "", "". cbn [append String.length]. rewrite Nat.add_0_r. auto.
    - destruct (Pat.is_dot c) eqn:Hc.
      + match type of H with
        | match ?e with Some _ => _ | None => _ end = _ => destruct e eqn:E
        end.
        * injection H as ->. exists ".", r'.
          unfold Pat.is_dot in Hc. apply Ascii.eqb_eq in Hc. subst c.
          cbn [append String.length].
          replace (1 + String.length nm + 1)%nat with (S (1 + String.length nm)) by lia.
          auto.
        * exists "", (String c r'). cbn [append String.length].
          rewrite Nat.add_0_r. auto.
      + exists "", (String c r'). cbn [append String.length].
        rewrite Nat.add_0_r. auto. }
  destruct Hdot as (dot & r1 & -> & Hd & H').
  unfold T in H'. apply exec_special_tail_inv in H'.
  destruct H' as (N & rest & r & -> & HN & Hrest & Hr & Hcaps).
  exists (String c0 nm), dot, N, rest, r. repeat split; auto.
  - cbn [all]. now rewrite Hc0, Hnm.
  - unfold group. rewrite Hcaps. cbn [lookup Nat.eqb].
    change (String c0 (nm ++ dot ++ " Episode " ++ N ++ Pat.sep ++ rest ++ r))
      with (String c0 nm ++ dot ++ " Episode " ++ N ++ Pat.sep ++ rest ++ r).
    apply take_prefix. cbn [String.length]. lia.
  - unfold group. rewrite Hcaps. reflexivity.
  - unfold group. rewrite Hcaps. reflexivity.
Qed.

End ShapeFacts.

Section ClassifyFacts.
Import Str Re.

Lemma startswith_inv s t : startswith s t = true -> exists post, s = t ++ post.
Proof.
  unfold startswith. destruct (strip_prefix t s) as [post|] eqn:E; [|discriminate].
  intros _. exists post. now apply strip_prefix_inv.
Qed.

Lemma shorten_prefix heads t : exists post, t = shorten heads t ++ post.
Proof.
  induction heads as [|h heads IH]; cbn [shorten].
  - exists "". now rewrite append_nil_r.
  - destruct (startswith t h) eqn:E; [now apply startswith_inv | exact IH].
Qed.

Lemma is_code_nonempty N : is_code N = true -> N <> "".
Proof. destruct N; [discriminate | discriminate]. Qed.

(** X1: what a classification that returns looks like.  A regular episode
    has a token as its code and no series; a special episode is of the series
    stories, with a token or a token, a dot and a part number as its code, or
    of the series rewards, with a token as its code; an announcement has an
    empty code and no series. *)
Theorem classify_shape t f :
  classify t = Ok f ->
  match f_type f with
  | podcast => is_code (f_episode f) = true /\ f_series f = None
  | special =>
      (f_series f = Some "stories" /\ is_story_code (f_episode f)) \/
      (f_series f = Some "rewards" /\ is_code (f_episode f) = true)
  | news => f_episode f = "" /\ f_series f = None
  end.
Proof.
  unfold classify. intros H.
  destruct (search Pat.episode t) as [em|]; [|injection H as <-; now split].
  destruct (m_start em =? 0)%nat.
  - destruct (search Pat.podcast t) as [pm|] eqn:Hp; [|discriminate].
    injection H as <-. cbn [f_type f_episode f_series].
    destruct (search_podcast_inv t pm Hp) as (N & rest & r & _ & HN & _ & _ & -> & _).
    now split.
  - destruct (search Pat.special t) as [sm|] eqn:Hs; [|discriminate].
    destruct (search_special_inv t sm Hs)
      as (name & dot & N & rest & r & _ & _ & _ & _ & HN & _ & _ & _ & HgN & _).
    destruct (String.eqb (group 1 sm) "Byzantine Stories").
    + injection H as <-. cbn [f_type f_episode f_series]. left. split; [reflexivity|].
      exists N. split; [exact HN|]. rewrite HgN.
      destruct (search Pat.part (group 3 sm)) as [ptm|] eqn:Hpt; [|now left].
      right. unfold search in Hpt. apply search_from_inv in Hpt.
      destruct Hpt as (pre & suf & _ & Hex & _).
      apply exec_part_sound in Hex. destruct Hex as (P & post & _ & HP & ->).
      exists P. split; [exact HP | reflexivity].
    + destruct (String.eqb (group 1 sm) "Backer Rewards");
        injection H as <-; cbn [f_type f_episode f_series].
      * right. split; [reflexivity|]. now rewrite HgN.
      * now split.
Qed.

Lemma classify_shape_witness :
  is_code "12a" = true /\
  (Some "stories" = Some "stories" /\ is_story_code "3.2" \/
   Some "stories" = Some "rewards" /\ is_code "3.2" = true).
Proof.
  split.
  - apply (classify_shape ("Episode 12a " ++ ndash ++ " The Fall")
             {| f_type := podcast; f_episode := "12a"; f_series := None;
                f_title := "The Fall" |} eq_refl).
  - apply (classify_shape (stories_title "3" ("John. Part 2" ++ Pat.sep ++ "Foo"))
             {| f_type := special; f_episode := "3.2"; f_series := Some "stories";
                f_title := "John. Part 2" ++ Pat.sep ++ "Foo" |} eq_refl).
Defined.

(** X2: the title a classification returns is a piece of the page title:
    its start for an announcement, its end (up to a final line feed) for an
    episode, and then it holds no line feed. *)
Theorem classify_title_part t f :
  classify t = Ok f ->
  match f_type f with
  | news => exists post, t = f_title f ++ post
  | _ => one_line (f_title f) = true /\
         exists pre r, t = pre ++ f_title f ++ r /\ final_LF r
  end.
Proof.
  unfold classify. intros H.
  destruct (search Pat.episode t) as [em|];
    [|injection H as <-; exact (shorten_prefix short_headlines t)].
  destruct (m_start em =? 0)%nat.
  - destruct (search Pat.podcast t) as [pm|] eqn:Hp; [|discriminate].
    injection H as <-. cbn [f_type f_title].
    destruct (search_podcast_inv t pm Hp) as (N & rest & r & -> & _ & Hl & Hr & _ & ->).
    split; [exact Hl|]. exists ("Episode " ++ N ++ Pat.sep), r. split; [|exact Hr].
    now rewrite !append_assoc.
  - destruct (search Pat.special t) as [sm|] eqn:Hs; [|discriminate].
    destruct (search_special_inv t sm Hs)
      as (name & dot & N & rest & r & Ht & _ & _ & _ & _ & Hl & Hr & _ & _ & Hg).
    assert (Hpart : one_line (group 3 sm) = true /\
                    exists pre r, t = pre ++ group 3 sm ++ r /\ final_LF r).
    { rewrite Hg. split; [exact Hl|].
      exists (name ++ dot ++ " Episode " ++ N ++ Pat.sep), r. split; [|exact Hr].
      rewrite Ht. now rewrite !append_assoc. }
    destruct (String.eqb (group 1 sm) "Byzantine Stories");
      [injection H as <-; exact Hpart|].
    destruct (String.eqb (group 1 sm) "Backer Rewards");
      injection H as <-; cbn [f_type f_title]; [exact Hpart|].
    exists "". now rewrite append_nil_r.
Qed.

Lemma classify_title_part_witness :
  one_line "The Fall" = true /\
  exists pre r, "Episode 12a " ++ ndash ++ " The Fall" = pre ++ "The Fall" ++ r /\ final_LF r.
Proof.
  apply (classify_title_part ("Episode 12a " ++ ndash ++ " The Fall")
           {| f_type := podcast; f_episode := "12a"; f_series := None;
              f_title := "The Fall" |} eq_refl).
Defined.

End ClassifyFacts.

Section SpecialFacts.
Import Str Re.

Lemma search_from_some r pre suf pos m :
  exec r (pos + String.length pre) suf [] (accept (pos + String.length pre)) = Some m ->
  exists m', search_from r pos (pre ++ suf) = Some m'.
Proof.
  revert pos; induction pre as [|c pre IH]; intros pos H.
  - cbn [append String.length] in *. rewrite Nat.add_0_r in H.
    destruct suf; cbn [search_from]; rewrite H; eauto.
  - cbn [append search_from].
    destruct (exec r pos (String c (pre ++ suf)) [] (accept pos)); [eauto|].
    apply IH. cbn [String.length] in H. now rewrite <- Nat.add_succ_comm in H.
Qed.

Lemma letter_or_space_not_digit c :
  Pat.letter_or_space c = true -> is_digit c = false.
Proof.
  unfold Pat.letter_or_space, is_upper, is_lower, is_space, is_digit, in_range.
  intros H. apply orb_true_iff in H. destruct H as [H|H].
  - apply orb_true_iff in H.
    destruct H as [H|H]; apply andb_true_iff in H; destruct H as [H _];
      apply Nat.leb_le in H; apply andb_false_iff; right; apply Nat.leb_gt; lia.
  - apply Ascii.eqb_eq in H. now subst c.
Qed.

Lemma digit_not_letter_or_space c :
  is_digit c = true -> Pat.letter_or_space c = false.
Proof.
  intros H. destruct (Pat.letter_or_space c) eqn:E; [|reflexivity].
  apply letter_or_space_not_digit in E. congruence.
Qed.

Lemma digit_neq c x : is_digit c = true -> is_digit x = false -> Ascii.eqb x c = false.
Proof.
  intros Hc Hx. destruct (Ascii.eqb_spec x c) as [->|]; [congruence | reflexivity].
Qed.

Lemma name_no_digit name : all Pat.letter_or_space name = true -> no_digit name = true.
Proof.
  unfold no_digit. induction name as [|c s IH]; cbn [all]; [reflexivity|].
  intros H. apply andb_true_iff in H. destruct H as [Hc Hs].
  now rewrite (letter_or_space_not_digit c Hc), IH.
Qed.

(** A text with no digit in its first nine characters does not start with
    the episode pattern. *)
Lemma exec_episode_needs_digit a b pos start :
  no_digit a = true -> (9 <= String.length a)%nat ->
  exec Pat.episode pos (a ++ b) [] (accept start) = None.
Proof.
  intros Ha Hlen.
  destruct (exec Pat.episode pos (a ++ b) [] (accept start)) as [m|] eqn:E;
    [exfalso | reflexivity].
  apply exec_episode_inv in E. destruct E as (N & rest & Heq & HN).
  destruct N as [|d N']; [discriminate|].
  cbn [is_code] in HN. apply andb_true_iff in HN. destruct HN as [Hd _].
  change ("Episode " ++ String d N' ++ Pat.sep ++ rest)
    with (("Episode " ++ String d "") ++ N' ++ Pat.sep ++ rest) in Heq.
  destruct (prefix_split _ _ _ _ Heq) as [c Hc]; [cbn [String.length append]; lia|].
  rewrite Hc in Ha. unfold no_digit in Ha. cbn [append all] in Ha.
  rewrite Hd in Ha. cbn in Ha. discriminate Ha.
Qed.

Lemma take_all_len n s : n = String.length s -> take n s = s.
Proof. intros ->. apply take_all. Qed.

(** The star gives back what it took when the continuation refuses every
    longer attempt. *)
Lemma star_fallback p ext rest pos cs k :
  all p ext = true ->
  (rest = "" \/ exists c r, rest = String c r /\ p c = false) ->
  (forall a b, ext = a ++ b -> a <> "" ->
     k (pos + String.length a)%nat (b ++ rest) cs = None) ->
  star p pos (ext ++ rest) cs k = k pos (ext ++ rest) cs.
Proof.
  revert pos; induction ext as [|c e IH]; intros pos Hall Hrest Hk.
  - cbn [append]. destruct Hrest as [-> | (c & r & -> & Hc)]; cbn [star];
      [reflexivity | now rewrite Hc].
  - cbn [all] in Hall. apply andb_true_iff in Hall. destruct Hall as [Hc He].
    cbn [append star]. rewrite Hc. rewrite (IH (S pos) He Hrest).
    + pose proof (Hk (String c "") e eq_refl) as H1. cbn [String.length] in H1.
      replace (pos + 1)%nat with (S pos) in H1 by lia.
      now rewrite H1 by discriminate.
    + intros a b -> Ha. specialize (Hk (String c a) b eq_refl).
      cbn [String.length] in Hk. rewrite <- Nat.add_succ_comm in Hk.
      apply Hk. discriminate.
Qed.

(** The pattern for special episodes after the series name: a period or
    none, the word, the token, the separator and the rest. *)
Lemma exec_special_tail N rest pos cs start :
  is_code N = true -> one_line rest = true ->
  exists m,
    exec (Seq (Lit " Episode ")
            (Seq (Group 2 Pat.code)
               (Seq (Lit Pat.sep) (Seq (Group 3 (Star not_LF)) Eol))))
      pos (" Episode " ++ N ++ Pat.sep ++ rest) cs (accept start) = Some m /\
    m_caps m = (3, rest) :: (2, N) :: cs.
Proof.
  intros HN Hrest. cbn [exec]. rewrite strip_prefix_append.
  rewrite sep_cons. cbn [append]. eexists. split.
  - apply exec_code; [exact HN|].
    rewrite <- sep_cons.
    change (String " " ((ndash ++ " ") ++ rest)) with (Pat.sep ++ rest).
    rewrite strip_prefix_append.
    apply star_all; [exact Hrest|]. cbn [accept]. reflexivity.
  - cbn [m_caps]. f_equal; [|f_equal]; f_equal.
    + apply take_all_len. lia.
    + apply take_prefix. lia.
Qed.

Lemma exec_after_name dot N rest pos cs start :
  dot = "" \/ dot = "." -> is_code N = true -> one_line rest = true ->
  exists m,
    exec after_name pos (dot ++ " Episode " ++ N ++ Pat.sep ++ rest) cs (accept start)
    = Some m /\
    m_caps m = (3, rest) :: (2, N) :: cs.
Proof.
  intros Hdot HN Hrest. unfold after_name.
  match goal with
  | |- context [Seq (Lit " Episode ") ?r] => set (T := Seq (Lit " Episode ") r)
  end.
  destruct Hdot as [-> | ->]; cbn [exec].
  - change ("" ++ " Episode " ++ N ++ Pat.sep ++ rest)
      with (String " " ("Episode " ++ N ++ Pat.sep ++ rest)).
    cbv iota. change (Pat.is_dot " ") with false. cbv iota.
    change (String " " ("Episode " ++ N ++ Pat.sep ++ rest))
      with (" Episode " ++ N ++ Pat.sep ++ rest).
    apply exec_special_tail; assumption.
  - change ("." ++ " Episode " ++ N ++ Pat.sep ++ rest)
      with (String "." (" Episode " ++ N ++ Pat.sep ++ rest)).
    cbv iota. change (Pat.is_dot ".") with true. cbv iota.
    destruct (exec_special_tail N rest (S pos) cs start HN Hrest) as (m & Hm & Hc).
    fold T in Hm. exists m. now rewrite Hm.
Qed.

Lemma strip_prefix_digit l b d x :
  no_digit l = true -> (String.length b < String.length l)%nat ->
  is_digit d = true ->
  strip_prefix l (b ++ String d x) = None.
Proof.
  intros Hl Hlen Hd.
  destruct (strip_prefix l (b ++ String d x)) as [t|] eqn:E; [exfalso | reflexivity].
  apply strip_prefix_inv in E.
  change (b ++ String d x) with (b ++ String d "" ++ x) in E.
  rewrite <- append_assoc in E. symmetry in E.
  destruct (prefix_split _ _ _ _ E) as [c Hc].
  - rewrite length_append. cbn [String.length]. lia.
  - rewrite Hc in Hl. unfold no_digit in Hl. rewrite !all_append in Hl.
    cbn [all] in Hl. rewrite Hd in Hl.
    rewrite andb_false_r in Hl. discriminate Hl.
Qed.

(** After a piece of the word that is too short, the pattern fails. *)
Lemma exec_after_name_short b d x pos cs k :
  all (fun c => negb (Pat.is_dot c)) b = true ->
  (String.length b < 9)%nat -> is_digit d = true ->
  exec after_name pos (b ++ String d x) cs k = None.
Proof.
  intros Hb Hlen Hd. unfold after_name. cbn [exec].
  rewrite (strip_prefix_digit " Episode " b d x) by (auto; reflexivity).
  destruct b as [|c b'].
  - cbn [append]. unfold Pat.is_dot at 1.
    rewrite Ascii.eqb_sym, (digit_neq d "." Hd eq_refl). reflexivity.
  - cbn [append all] in *. apply andb_true_iff in Hb. destruct Hb as [Hc Hb'].
    apply negb_true_iff in Hc. now rewrite Hc.
Qed.

Lemma special_pattern : Pat.special = Seq Bol (Seq (Group 1 (Plus Pat.letter_or_space)) after_name).
Proof. reflexivity. Qed.

(** The anchored pattern reads the title of a special episode as it was
    put together. *)
Lemma search_special_form name dot N rest :
  is_series_name name = true -> dot = "" \/ dot = "." ->
  is_code N = true -> one_line rest = true ->
  exists m, search Pat.special (special_title name dot N rest) = Some m /\
            group 1 m = name /\ group 2 m = N /\ group 3 m = rest.
Proof.
  intros Hname Hdot HN Hrest.
  unfold is_series_name in Hname. apply andb_true_iff in Hname.
  destruct Hname as [Hne Hall]. destruct name as [|c0 nm]; [discriminate|].
  cbn [all] in Hall. apply andb_true_iff in Hall. destruct Hall as [Hc0 Hnm].
  assert (Hex : exists m,
             exec Pat.special 0 (special_title (String c0 nm) dot N rest) []
               (accept 0) = Some m /\
             group 1 m = String c0 nm /\ group 2 m = N /\ group 3 m = rest).
  { rewrite special_pattern. unfold Plus, special_title. cbn [exec Nat.eqb].
    change (String c0 nm ++ dot ++ " Episode " ++ N ++ Pat.sep ++ rest)
      with (String c0 (nm ++ dot ++ " Episode " ++ N ++ Pat.sep ++ rest)).
    cbv iota. rewrite Hc0.
    set (t := String c0 (nm ++ dot ++ " Episode " ++ N ++ Pat.sep ++ rest)).
    destruct (exec_after_name dot N rest (1 + String.length nm)
                [(1, take (1 + String.length nm - 0) t)] 0 Hdot HN Hrest)
      as (m & Hm & Hcaps).
    exists m. split.
    - apply star_append; [exact Hnm|].
      destruct N as [|d N']; [discriminate|].
      pose proof HN as HN'. cbn [is_code] in HN'. apply andb_true_iff in HN'.
      destruct HN' as [Hd _].
      destruct Hdot as [-> | ->].
      + change ("" ++ " Episode " ++ String d N' ++ Pat.sep ++ rest)
          with (" Episode " ++ String d (N' ++ Pat.sep ++ rest)).
        rewrite star_fallback.
        * exact Hm.
        * reflexivity.
        * right. exists d, (N' ++ Pat.sep ++ rest). split; [reflexivity|].
          now apply digit_not_letter_or_space.
        * intros a b Hab Ha.
          apply exec_after_name_short; [ | | exact Hd].
          -- assert (H9 : all (fun c => negb (Pat.is_dot c)) (a ++ b) = true)
               by (rewrite <- Hab; reflexivity).
             rewrite all_append in H9. apply andb_true_iff in H9. tauto.
          -- assert (H9 : String.length (a ++ b) = 9%nat) by (rewrite <- Hab; reflexivity).
             rewrite length_append in H9. destruct a; [contradiction|].
             cbn [String.length] in H9. lia.
      + change ("." ++ " Episode " ++ String d N' ++ Pat.sep ++ rest)
          with (String "." (" Episode " ++ String d N' ++ Pat.sep ++ rest)) in *.
        cbn [star]. change (Pat.letter_or_space ".") with false. cbv iota.
        exact Hm.
    - unfold group. rewrite Hcaps. cbn [lookup Nat.eqb]. repeat split.
      unfold t.
      change (String c0 (nm ++ dot ++ " Episode " ++ N ++ Pat.sep ++ rest))
        with (String c0 nm ++ dot ++ " Episode " ++ N ++ Pat.sep ++ rest).
      apply take_prefix. cbn [String.length]. lia. }
  destruct Hex as (m & Hm & Hg). exists m. split; [|exact Hg].
  unfold search. unfold special_title in *. cbn [append search_from] in *.
  now rewrite Hm.
Qed.

(** The first search finds the episode pattern in the title of a special
    episode, and not at its start. *)
Lemma search_episode_special name dot N rest :
  is_series_name name = true -> dot = "" \/ dot = "." ->
  is_code N = true ->
  exists m, search Pat.episode (special_title name dot N rest) = Some m /\
            m_start m <> 0%nat.
Proof.
  intros Hname Hdot HN.
  unfold is_series_name in Hname. apply andb_true_iff in Hname.
  destruct Hname as [Hne Hall].
  assert (Hsome : exists m, search Pat.episode (special_title name dot N rest) = Some m).
  { unfold search, special_title.
    replace (name ++ dot ++ " Episode " ++ N ++ Pat.sep ++ rest)
      with ((name ++ dot ++ " ") ++ "Episode " ++ N ++ Pat.sep ++ rest)
      by (now rewrite !append_assoc).
    destruct (search_from_episode N rest (0 + String.length (name ++ dot ++ " ")) HN)
      as (m & Hm & Hstart).
    apply search_from_here in Hm; [|exact Hstart].
    eapply search_from_some, Hm. }
  destruct Hsome as (m & Hm). exists m. split; [exact Hm|].
  intros Hstart. unfold search in Hm. apply search_from_here in Hm; [|exact Hstart].
  unfold special_title in Hm.
  replace (name ++ dot ++ " Episode " ++ N ++ Pat.sep ++ rest)
    with ((name ++ dot ++ " Episode ") ++ N ++ Pat.sep ++ rest) in Hm
    by (now rewrite !append_assoc).
  rewrite exec_episode_needs_digit in Hm; [discriminate| |].
  - unfold no_digit. rewrite !all_append. fold (no_digit name).
    rewrite (name_no_digit name Hall).
    destruct Hdot as [-> | ->]; reflexivity.
  - rewrite !length_append. destruct name; [discriminate|].
    cbn [String.length]. lia.
Qed.

End SpecialFacts.

Section SeriesFacts.
Import Str Re.

(** X3: a title of the series Backer Rewards, with or without a period
    after the name and with no line feed in the rest, is a special episode of
    the series rewards, with the token as its code and the rest as its
    title. *)
Theorem classify_rewards_form dot N rest :
  dot = "" \/ dot = "." -> is_code N = true -> one_line rest = true ->
  classify (special_title "Backer Rewards" dot N rest)
  = Ok {| f_type := special; f_episode := N; f_series := Some "rewards";
          f_title := rest |}.
Proof.
  intros Hdot HN Hrest. unfold classify.
  destruct (search_episode_special "Backer Rewards" dot N rest eq_refl Hdot HN)
    as (em & -> & Hstart).
  apply Nat.eqb_neq in Hstart. rewrite Hstart.
  destruct (search_special_form "Backer Rewards" dot N rest eq_refl Hdot HN Hrest)
    as (sm & -> & -> & -> & ->).
  reflexivity.
Qed.

Lemma classify_rewards_form_witness :
  classify ("Backer Rewards Episode 7 " ++ ndash ++ " Foo")
  = Ok {| f_type := special; f_episode := "7"; f_series := Some "rewards";
          f_title := "Foo" |}.
Proof.
  apply (classify_rewards_form "" "7" "Foo"); [now left | reflexivity | reflexivity].
Defined.

(** X4: a title that names any other series (letters and spaces, then a
    period or none, before the episode pattern) is not an error: it is
    classified as an announcement with no code, no series and the whole page
    title as its title. *)
Theorem classify_unknown_series_form name dot N rest :
  is_series_name name = true -> dot = "" \/ dot = "." ->
  is_code N = true -> one_line rest = true ->
  name <> "Byzantine Stories" -> name <> "Backer Rewards" ->
  classify (special_title name dot N rest)
  = Ok {| f_type := news; f_episode := ""; f_series := None;
          f_title := special_title name dot N rest |}.
Proof.
  intros Hname Hdot HN Hrest Hs Hr. unfold classify.
  destruct (search_episode_special name dot N rest Hname Hdot HN)
    as (em & -> & Hstart).
  apply Nat.eqb_neq in Hstart. rewrite Hstart.
  destruct (search_special_form name dot N rest Hname Hdot HN Hrest)
    as (sm & -> & -> & _ & _).
  apply String.eqb_neq in Hs. apply String.eqb_neq in Hr. now rewrite Hs, Hr.
Qed.

Lemma classify_unknown_series_form_witness :
  classify ("Other Series. Episode 7 " ++ ndash ++ " Foo")
  = Ok {| f_type := news; f_episode := ""; f_series := None;
          f_title := "Other Series. Episode 7 " ++ ndash ++ " Foo" |}.
Proof.
  apply (classify_unknown_series_form "Other Series" "." "7" "Foo");
    [reflexivity | now right | reflexivity | reflexivity | discriminate | discriminate].
Defined.

(** The episode pattern needs a digit. *)
Lemma search_episode_no_digit t :
  no_digit t = true -> search Pat.episode t = None.
Proof.
  intros Ht. unfold search. apply search_from_none. intros a b ->.
  match goal with |- ?e = None => destruct e as [m|] eqn:E; [exfalso | reflexivity] end.
  apply exec_episode_inv in E. destruct E as (N & rest & -> & HN).
  destruct N as [|d N']; [discriminate|].
  cbn [is_code] in HN. apply andb_true_iff in HN. destruct HN as [Hd _].
  unfold no_digit in Ht. rewrite !all_append in Ht. cbn [all] in Ht.
  rewrite Hd in Ht. cbn in Ht. rewrite !andb_false_r in Ht. discriminate Ht.
Qed.

(** X5: a title with no digit is always an announcement: the classification
    does not raise, the code is empty, and the title is the page title or the
    short headline it starts with. *)
Theorem classify_no_digit t :
  no_digit t = true ->
  classify t
  = Ok {| f_type := news; f_episode := ""; f_series := None;
          f_title := shorten short_headlines t |}.
Proof.
  intros Ht. unfold classify. now rewrite (search_episode_no_digit t Ht).
Qed.

Lemma classify_no_digit_witness :
  classify "An interview with Barry Strauss, part two"
  = Ok {| f_type := news; f_episode := ""; f_series := None;
          f_title := "An interview with Barry Strauss" |}.
Proof. apply (classify_no_digit "An interview with Barry Strauss, part two" eq_refl). Defined.

End SeriesFacts.

Section PeriodLoopFacts.
Import Str Re.

Lemma search_period_inv s m :
  search Pat.period s = Some m -> startswith s "Period: " = true.
Proof.
  unfold Pat.period. intros H. apply search_anchored in H. cbn [exec] in H.
  unfold startswith. now destruct (strip_prefix "Period: " s).
Qed.

Lemma search_period_ok s :
  startswith s "Period: " = true -> one_line s = true ->
  exists m, search Pat.period s = Some m.
Proof.
  intros Hs Hl. apply startswith_inv in Hs. destruct Hs as [rest ->].
  unfold one_line in Hl. rewrite all_append in Hl.
  apply andb_true_iff in Hl. destruct Hl as [_ Hrest].
  unfold search, Pat.period.
  cbn [append search_from exec Nat.eqb strip_prefix Ascii.eqb Bool.eqb].
  erewrite star_all; [eauto | exact Hrest | cbn [exec accept]; reflexivity].
Qed.

Lemma period_of_elem_unlabelled p el :
  unlabelled el -> period_of_elem p el = Ok p.
Proof.
  intros (text & Ht & Hs). unfold period_of_elem. rewrite Ht.
  destruct (search Pat.period (replace nbsp " " text)) as [m|] eqn:E; [|reflexivity].
  apply search_period_inv in E. congruence.
Qed.

Lemma period_of_elem_labelled p q el :
  labelled el -> period_of_elem p el = period_of_elem q el.
Proof.
  intros (text & Ht & Hs & Hl). unfold period_of_elem. rewrite Ht.
  destruct (search_period_ok _ Hs Hl) as [m ->]. reflexivity.
Qed.

Lemma period_loop_app p els els' :
  period_loop p (els ++ els')%list
  = bind (period_loop p els) (fun q => period_loop q els').
Proof.
  revert p; induction els as [|e els IH]; intros p; cbn [period_loop app bind].
  - reflexivity.
  - destruct (period_of_elem p e) as [q|]; cbn [bind]; [apply IH | reflexivity].
Qed.

Lemma period_loop_unlabelled p els :
  Forall unlabelled els -> period_loop p els = Ok p.
Proof.
  induction 1 as [|e els He _ IH]; cbn [period_loop]; [reflexivity|].
  now rewrite (period_of_elem_unlabelled p e He).
Qed.

(** X6: the last paragraph whose text starts with the label decides the
    period: what the paragraphs before it gave is overwritten, and the
    paragraphs after it that do not start with the label change nothing. *)
Theorem getPeriod_last_label title D before el after p0 :
  title <> cyprus_title ->
  period_els D = (before ++ el :: after)%list ->
  period_loop "" before = Ok p0 ->
  labelled el ->
  Forall unlabelled after ->
  getPeriod title D = period_of_elem "" el.
Proof.
  intros Ht Hels Hbefore Hel Hafter. unfold getPeriod.
  destruct (String.eqb_spec title cyprus_title) as [E|_]; [contradiction|].
  rewrite Hels, period_loop_app, Hbefore. cbn [bind period_loop].
  rewrite (period_of_elem_labelled p0 "" el Hel).
  destruct (period_of_elem "" el) as [q|]; cbn [bind]; [|reflexivity].
  now apply period_loop_unlabelled.
Qed.

Lemma getPeriod_last_label_witness :
  getPeriod "Episode"
    {| nav_next := None; entry_title := "";
       period_els := [ Elem (Some "Period: 900-950") [];
                       Elem None [Elem (Some "Period: 1071-8") []];
                       Elem (Some "The Period: of anarchy") [] ];
       published_time := None |}
  = Ok "1071-1078".
Proof.
  rewrite (getPeriod_last_label "Episode" _
             [Elem (Some "Period: 900-950") []]
             (Elem None [Elem (Some "Period: 1071-8") []])
             [Elem (Some "The Period: of anarchy") []] "900-950").
  - reflexivity.
  - discriminate.
  - reflexivity.
  - reflexivity.
  - eexists. split; [reflexivity|]. split; reflexivity.
  - constructor; [|constructor]. eexists. split; reflexivity.
Defined.

End PeriodLoopFacts.

Section RowFacts.
Import Str Re.

Lemma starts_refl l : starts l l.
Proof. exists []. now rewrite app_nil_r. Qed.

Lemma starts_trans a b c : starts a b -> starts b c -> starts a c.
Proof. intros [x ->] [y ->]. exists (x ++ y)%list. now rewrite app_assoc. Qed.

Lemma starts_app l new : starts l (l ++ new).
Proof. now exists new. Qed.

Lemma grows_refl d : grows d d.
Proof.
  repeat split.
  - induction (century_panels d); constructor; auto using starts_refl.
  - induction (special_panels d); constructor; auto using starts_refl.
  - apply starts_refl.
  - apply incl_refl.
Qed.

Lemma Forall2_trans {A} (R : A -> A -> Prop) :
  (forall x y z, R x y -> R y z -> R x z) ->
  forall l1 l2 l3, Forall2 R l1 l2 -> Forall2 R l2 l3 -> Forall2 R l1 l3.
Proof.
  intros HR l1 l2 l3 H12. revert l3.
  induction H12 as [|x y l1 l2 Hxy _ IH]; intros l3 H23; inversion H23; subst;
    constructor; eauto.
Qed.

Lemma grows_trans a b c : grows a b -> grows b c -> grows a c.
Proof.
  intros (H1 & H2 & H3 & H4 & H5) (K1 & K2 & K3 & K4 & K5). repeat split.
  - congruence.
  - eapply Forall2_trans; [|exact H2|exact K2].
    intros x y z (E1 & E2 & E3) (F1 & F2 & F3).
    repeat split; try congruence. eapply starts_trans; eauto.
  - eapply Forall2_trans; [|exact H3|exact K3].
    intros x y z (E1 & E2) (F1 & F2).
    split; try congruence. eapply starts_trans; eauto.
  - eapply starts_trans; eauto.
  - eapply incl_tran; eauto.
Qed.

Lemma Forall2_map_r {A} (R : A -> A -> Prop) (f : A -> A) l :
  (forall x, R x (f x)) -> Forall2 R l (map f l).
Proof. intros H. induction l; cbn [map]; constructor; auto. Qed.

Lemma append_special_grows ser tr d : grows d (append_special ser tr d).
Proof.
  destruct (grows_refl d) as (H1 & H2 & _ & H4 & H5).
  repeat split; auto.
  cbn [append_special special_panels]. apply Forall2_map_r. intros p.
  destruct (String.eqb (data_series p) ser); cbn [data_series series_rows];
    auto using starts_refl, starts_app.
Qed.

Lemma append_century_grows c tr d : grows d (append_century c tr d).
Proof.
  destruct (grows_refl d) as (H1 & _ & H3 & H4 & H5).
  repeat split; auto.
  cbn [append_century century_panels]. apply Forall2_map_r. intros p.
  destruct (String.eqb (data_century p) c);
    cbn [data_century data_first_ep century_rows];
    auto using starts_refl, starts_app.
Qed.

Lemma append_all_grows tr d : grows d (append_all tr d).
Proof.
  destruct (grows_refl d) as (H1 & H2 & H3 & _ & H5).
  repeat split; auto. apply starts_app.
Qed.

Lemma add_rows_grows self d d1 : add_rows self d = Ok d1 -> grows d d1.
Proof.
  unfold add_rows. destruct (PubType_eqb (type self) special).
  - destruct (series self) as [ser|]; [|discriminate].
    destruct (String.eqb (title self) chrysostom_title);
      intros H; injection H as <-.
    + cbn [fold_left chrysostom_parts].
      eapply grows_trans; [|apply append_special_grows].
      eapply grows_trans; [|apply append_special_grows].
      apply append_special_grows.
    + apply append_special_grows.
  - intros H. apply bind_Ok in H. destruct H as ([c dc] & Hr & H).
    injection H as <-. cbn [fst snd].
    eapply grows_trans; [|apply append_all_grows].
    eapply grows_trans; [|apply append_century_grows].
    assert (Hdc : dc = d \/ exists v, dc = set_curr_century d v).
    { destruct (PubType_eqb (type self) podcast); [|injection Hr as _ <-; now left].
      destruct (search Pat.numeric (episode self)); [|injection Hr as _ <-; now left].
      apply bind_Ok in Hr. destruct Hr as (epnum & _ & Hr).
      destruct (next_siblings (str_of (data_curr_century d)) (century_panels d))
        as [|q tl]; [injection Hr as _ <-; now left|].
      apply bind_Ok in Hr. destruct Hr as (first & _ & Hr).
      destruct (epnum >=? first)%Z; injection Hr as _ <-; [right; eauto | now left]. }
    destruct Hdc as [-> | [v ->]]; exact (grows_refl d).
Qed.

Lemma addToIndex_grows today self d d' :
  addToIndex today self d = Ok d' -> grows d d'.
Proof.
  intros H.
  destruct (addToIndex_inv today self d d' H)
    as (d1 & date & [[_ ->] | [_ Hrows]] & _ & ->).
  - destruct (grows_refl d) as (H1 & H2 & H3 & H4 & _).
    repeat split; auto. cbn [set_curr_pub set_curr_index_date set_skip skip].
    intros u Hu. apply filter_In in Hu. tauto.
  - apply add_rows_grows in Hrows. exact Hrows.
Qed.

(** X7: a run of merges only adds: the index keeps its panels, in their
    order, with their names and thresholds; every table starts with the rows
    it had; the first publication is the same; and no address is added to the
    skip markers. *)
Theorem merge_all_grows today pubs d d' :
  merge_all today pubs d = Ok d' -> grows d d'.
Proof.
  revert d; induction pubs as [|self pubs IH]; intros d H; cbn [merge_all] in H.
  - injection H as <-. apply grows_refl.
  - apply bind_Ok in H. destruct H as (d1 & H1 & H).
    eapply grows_trans; [eapply addToIndex_grows, H1 | apply IH, H].
Qed.

Lemma merge_all_grows_witness :
  exists d', merge_all "2026-11-04" [sample_record; sample_record_31] sample_index = Ok d' /\
             grows sample_index d'.
Proof.
  destruct (merge_all "2026-11-04" [sample_record; sample_record_31] sample_index)
    as [d'|e] eqn:E; [|discriminate E].
  exists d'. split; [reflexivity|]. exact (merge_all_grows _ _ _ _ E).
Defined.

End RowFacts.

Section PlacementFacts.
Import Str Re.

Lemma row_of_tr self :
  trFormat
    (if nonempty (episode self)
     then aFormat (url self) (urltitle self) (episode self) else "")
    (if nonempty (episode self)
     then title self else aFormat (url self) (urltitle self) (title self))
    (period self)
  = row_of self.
Proof. unfold row_of. now destruct (nonempty (episode self)). Qed.

Lemma addToIndex_not_skipped today self d d' :
  ~ In (url self) (skip d) ->
  addToIndex today self d = Ok d' ->
  exists d1 date,
    add_rows self d = Ok d1 /\
    d' = set_curr_pub (set_curr_index_date d1 (Some date)) (Some (url self)).
Proof.
  intros Hnot H.
  destruct (addToIndex_inv today self d d' H)
    as (d1 & date & [[Hin _] | [_ Hrows]] & _ & ->); [contradiction|].
  now exists d1, date.
Qed.

(** X8: a record that is not a special episode and is not skipped adds
    its row once to the table of all episodes and once to every century
    panel that bears the name of the current century, as the merge leaves
    it; the series panels and the skip markers stay as they were. *)
Theorem addToIndex_episode_rows today self d d' :
  ~ In (url self) (skip d) ->
  type self <> special ->
  addToIndex today self d = Ok d' ->
  all_rows d' = (all_rows d ++ [row_of self])%list /\
  century_panels d'
  = map (add_century_rows
           (fun p => String.eqb (data_century p) (current_name d')) [row_of self])
      (century_panels d) /\
  special_panels d' = special_panels d /\
  skip d' = skip d.
Proof.
  intros Hnot Hty H.
  destruct (addToIndex_not_skipped today self d d' Hnot H) as (d1 & date & Hrows & ->).
  unfold add_rows in Hrows.
  destruct (PubType_eqb (type self) special) eqn:Hsp;
    [apply PubType_eqb_eq in Hsp; contradiction|].
  rewrite row_of_tr in Hrows.
  apply bind_Ok in Hrows. destruct Hrows as ([c dc] & Hr & Hrows).
  injection Hrows as <-. cbn [fst snd].
  assert (Hdc : century_panels dc = century_panels d /\
                special_panels dc = special_panels d /\
                all_rows dc = all_rows d /\ skip dc = skip d /\
                data_curr_century dc = c).
  { destruct (PubType_eqb (type self) podcast);
      [|injection Hr as <- <-; repeat split].
    destruct (search Pat.numeric (episode self));
      [|injection Hr as <- <-; repeat split].
    apply bind_Ok in Hr. destruct Hr as (epnum & _ & Hr).
    destruct (next_siblings (str_of (data_curr_century d)) (century_panels d))
      as [|q tl]; [injection Hr as <- <-; repeat split|].
    apply bind_Ok in Hr. destruct Hr as (first & _ & Hr).
    destruct (epnum >=? first)%Z; injection Hr as <- <-; repeat split. }
  destruct Hdc as (Hc & Hs & Ha & Hk & Hcur).
  unfold current_name.
  cbn [set_curr_pub set_curr_index_date append_all append_century all_rows
       century_panels special_panels skip data_curr_century].
  rewrite Hc, Hs, Ha, Hk, Hcur. repeat split.
Qed.

Lemma addToIndex_episode_rows_witness :
  exists d',
    addToIndex "2026-11-04" sample_record_31 sample_index = Ok d' /\
    all_rows d' = [row_of sample_record_31] /\
    map century_rows (century_panels d') = [[]; [row_of sample_record_31]].
Proof.
  destruct (addToIndex "2026-11-04" sample_record_31 sample_index) as [d'|e] eqn:E;
    [|discriminate E].
  destruct (addToIndex_episode_rows "2026-11-04" sample_record_31 sample_index d')
    as (Hall & Hcent & _ & _); [ | discriminate | exact E | ].
  - cbn. intros [H|[]]. discriminate H.
  - exists d'. split; [reflexivity|]. split; [exact Hall|].
    rewrite Hcent. injection E as <-. reflexivity.
Defined.

Lemma fold_append_special ser rows : forall d,
  fold_left (fun d tr => append_special ser tr d) rows d
  = {| data_curr_pub := data_curr_pub d; data_first_pub := data_first_pub d;
       data_curr_century := data_curr_century d;
       data_curr_index_date := data_curr_index_date d;
       skip := skip d; century_panels := century_panels d;
       special_panels :=
         map (add_series_rows (fun p => String.eqb (data_series p) ser) rows)
           (special_panels d);
       all_rows := all_rows d;
       makeindex_data := makeindex_data d |}.
Proof.
  induction rows as [|tr rows IH]; intros d; cbn [fold_left].
  - destruct d as [cp fp cc cd sk ce sp ar]. cbn. f_equal.
    rewrite <- (map_id sp) at 1.
    apply map_ext. intros p. unfold add_series_rows.
    destruct (String.eqb (data_series p) ser); [|reflexivity].
    destruct p. cbn. now rewrite app_nil_r.
  - rewrite IH. cbn [append_special data_curr_pub data_first_pub data_curr_century
                     data_curr_index_date skip century_panels special_panels all_rows].
    f_equal. rewrite map_map. apply map_ext. intros p. unfold add_series_rows.
    destruct (String.eqb (data_series p) ser) eqn:E; cbn [data_series series_rows].
    + rewrite E. now rewrite <- app_assoc.
    + now rewrite E.
Qed.

(** X9: a special episode that is not skipped adds rows only to the
    panels of its series: its row, or the three fixed rows for the one page
    that holds three parts; the table of all episodes, the century panels,
    the current century and the skip markers stay as they were. *)
Theorem addToIndex_special_rows today self d d' ser :
  ~ In (url self) (skip d) ->
  type self = special -> series self = Some ser ->
  addToIndex today self d = Ok d' ->
  special_panels d'
  = map (add_series_rows (fun p => String.eqb (data_series p) ser) (special_rows self))
      (special_panels d) /\
  all_rows d' = all_rows d /\
  century_panels d' = century_panels d /\
  data_curr_century d' = data_curr_century d /\
  skip d' = skip d.
Proof.
  intros Hnot Hty Hser H.
  destruct (addToIndex_not_skipped today self d d' Hnot H) as (d1 & date & Hrows & ->).
  unfold add_rows in Hrows. rewrite Hty, Hser in Hrows. cbn [PubType_eqb] in Hrows.
  rewrite row_of_tr in Hrows. unfold special_rows.
  destruct (String.eqb (title self) chrysostom_title); injection Hrows as <-.
  - match goal with
    | |- context [append_special ser ?a
                    (append_special ser ?b (append_special ser ?c d))] =>
        change (append_special ser a (append_special ser b (append_special ser c d)))
          with (fold_left (fun d tr => append_special ser tr d)
                  (map (fun cells : string * string * string =>
                          let '(epcode, ti, pe) := cells in
                          trFormat (aFormat (url self) (urltitle self) epcode) ti pe)
                     chrysostom_parts) d)
    end.
    rewrite fold_append_special. repeat split.
  - change (append_special ser (row_of self) d)
      with (fold_left (fun d tr => append_special ser tr d) [row_of self] d).
    rewrite fold_append_special. repeat split.
Qed.

Lemma addToIndex_special_rows_witness :
  exists d',
    addToIndex "2026-11-04" sample_story sample_index = Ok d' /\
    init_from_page "https://example.org/s1" sample_story_page = Ok sample_story /\
    map (fun p => length (series_rows p)) (special_panels d') = [3%nat; 0%nat] /\
    all_rows d' = [].
Proof.
  destruct (addToIndex "2026-11-04" sample_story sample_index) as [d'|e] eqn:E;
    [|discriminate E].
  destruct (addToIndex_special_rows "2026-11-04" sample_story sample_index d' "stories")
    as (Hsp & Hall & _); [ | reflexivity | reflexivity | exact E | ].
  - cbn. intros [H|[]]. discriminate H.
  - exists d'. split; [reflexivity|]. split; [reflexivity|].
    split; [rewrite Hsp; reflexivity | exact Hall].
Defined.

(** The numeric pattern refuses a token that is not made of digits. *)
Lemma search_numeric_code e :
  is_code e = true -> all is_digit e = false -> search Pat.numeric e = None.
Proof.
  intros He Hd. destruct (search Pat.numeric e) as [m|] eqn:E; [exfalso | reflexivity].
  destruct (search_numeric_inv e m E) as (d & ds & r & -> & Hd0 & Hds & [-> | ->]).
  - rewrite append_nil_r in Hd. cbn [all] in Hd. now rewrite Hd0, Hds in Hd.
  - cbn [is_code] in He. rewrite Hd0 in He. cbn [andb] in He.
    clear - He Hds. induction ds as [|c ds IH].
    + discriminate He.
    + cbn [all] in Hds. apply andb_true_iff in Hds. destruct Hds as [Hc Hds].
      cbn [append code_tail] in He. rewrite Hc in He. auto.
Qed.

(** X10: only an episode whose code is all digits can move the current
    century: the merge of an announcement, of a special episode, or of an
    episode whose token ends in a letter leaves [data-curr-century] as it
    was, whatever the thresholds are. *)
Theorem addToIndex_keeps_century today self d d' :
  type self <> podcast \/
  (is_code (episode self) = true /\ all is_digit (episode self) = false) ->
  addToIndex today self d = Ok d' ->
  data_curr_century d' = data_curr_century d.
Proof.
  intros Hcase H.
  destruct (addToIndex_century today self d d' H) as (_ & _ & [Hc | (c' & _ & Hadv)]);
    [exact Hc | exfalso].
  destruct Hadv as (Hty & Hnum & _).
  destruct Hcase as [Hn | [He Hd]]; [contradiction|].
  now rewrite (search_numeric_code _ He Hd) in Hnum.
Qed.

End PlacementFacts.

Section StepFacts.
Import Str Re.

Lemma addToIndex_keeps_century_witness :
  exists d',
    addToIndex "2026-11-04" sample_record_30a sample_index = Ok d' /\
    data_curr_century d' = Some "4".
Proof.
  destruct (addToIndex "2026-11-04" sample_record_30a sample_index) as [d'|e] eqn:E;
    [|discriminate E].
  exists d'. split; [reflexivity|].
  apply (addToIndex_keeps_century "2026-11-04" sample_record_30a sample_index d');
    [right; split; reflexivity | exact E].
Defined.

Lemma addToIndex_one_step today self d d' i :
  distinct (century_names d) = true ->
  addToIndex today self d = Ok d' ->
  position (current_name d) (century_names d) = Some i ->
  exists j, position (current_name d') (century_names d) = Some j /\
            (i <= j <= S i)%nat.
Proof.
  intros Hd H Hi. destruct (addToIndex_century today self d d' H) as (_ & _ & Hc).
  destruct Hc as [Hc | (c' & Hc & _ & _ & i0 & q & epnum & first & Hi0 & Hq & -> & _)].
  - exists i. unfold current_name in *. rewrite Hc. split; [exact Hi | lia].
  - rewrite Hi in Hi0. injection Hi0 as <-. exists (S i). split; [|lia].
    unfold current_name. rewrite Hc. cbn [str_of].
    apply position_nth; [exact Hd|].
    unfold century_names. now rewrite nth_error_map, Hq.
Qed.

(** X11: a merge moves the current century by one panel at most, however
    far the number of the episode is past the later thresholds; over a run,
    the current century advances by no more panels than there are merges. *)
Theorem century_steps today pubs d d' i :
  distinct (century_names d) = true ->
  merge_all today pubs d = Ok d' ->
  position (current_name d) (century_names d) = Some i ->
  exists j, position (current_name d') (century_names d) = Some j /\
            (i <= j <= i + length pubs)%nat.
Proof.
  revert d i; induction pubs as [|self pubs IH]; intros d i Hd H Hi;
    cbn [merge_all] in H.
  - injection H as <-. exists i. split; [exact Hi | cbn [length]; lia].
  - apply bind_Ok in H. destruct H as (d1 & H1 & H).
    destruct (addToIndex_century today self d d1 H1) as (Hn & _ & _).
    destruct (addToIndex_one_step today self d d1 i Hd H1 Hi) as (k & Hk & Hik).
    rewrite <- Hn in Hk.
    assert (Hd1 : distinct (century_names d1) = true) by now rewrite Hn.
    destruct (IH d1 k Hd1 H Hk) as (j & Hj & Hkj).
    rewrite Hn in Hj. exists j. split; [exact Hj | cbn [length]; lia].
Qed.

Lemma century_steps_witness :
  exists d',
    merge_all "2026-11-04" [sample_record_100] three_centuries = Ok d' /\
    position (current_name three_centuries) (century_names three_centuries) = Some 0%nat /\
    data_curr_century d' = Some "5".
Proof.
  destruct (merge_all "2026-11-04" [sample_record_100] three_centuries)
    as [d'|e] eqn:E; [|discriminate E].
  destruct (century_steps "2026-11-04" [sample_record_100] three_centuries d' 0
              eq_refl E eq_refl) as (j & Hj & Hle).
  exists d'. split; [reflexivity|]. split; [reflexivity|].
  injection E as <-. reflexivity.
Defined.

End StepFacts.

Section WalkFacts.
Import Str Re.

Variable web : Web.

Lemma Publication_init_url u pub :
  Publication_init web u = Ok pub -> url pub = u.
Proof.
  unfold Publication_init, init_from_page. destruct (web u) as [page|]; [|discriminate].
  intros H. apply bind_Ok in H. destruct H as (f & _ & H).
  apply bind_Ok in H. destruct H as (p & _ & H). now injection H as <-.
Qed.

Lemma truthy_str_of u : truthy u = true -> Some (str_of u) = u.
Proof. destruct u as [s|]; [reflexivity | discriminate]. Qed.

(** With a newer publication to follow, the merge does not read the
    clock. *)
Lemma addToIndex_today today1 today2 self d :
  truthy (next self) = true ->
  addToIndex today1 self d = addToIndex today2 self d.
Proof. intros H. unfold addToIndex. now rewrite H. Qed.

Lemma walk_split today a : forall b u d u' d',
  walk web today (a + b) u d = Some (u', d') ->
  exists u1 d1, walk web today a u d = Some (u1, d1) /\
                walk web today b u1 d1 = Some (u', d').
Proof.
  induction a as [|a IH]; intros b u d u' d' H.
  - exists u, d. split; [reflexivity | exact H].
  - cbn [Nat.add walk] in *. destruct (truthy u); [|discriminate].
    destruct (Publication_init web (str_of u)) as [pub|]; [|discriminate].
    destruct (addToIndex today pub d) as [d0|]; [|discriminate].
    now apply IH.
Qed.

(** A walk that goes on does not depend on the clock. *)
Lemma walk_today today1 today2 n : forall u d u' d',
  walk web today2 n u d = Some (u', d') -> truthy u' = true ->
  walk web today1 n u d = Some (u', d').
Proof.
  induction n as [|n IH]; intros u d u' d' H Hu'; [exact H|].
  cbn [walk] in *. destruct (truthy u); [|discriminate].
  destruct (Publication_init web (str_of u)) as [pub|]; [|discriminate].
  destruct (addToIndex today2 pub d) as [d0|] eqn:E; [|discriminate].
  assert (Hnext : truthy (next pub) = true).
  { destruct n as [|n']; cbn [walk] in H.
    - injection H as <- _. exact Hu'.
    - destruct (truthy (next pub)); [reflexivity | discriminate]. }
  rewrite (addToIndex_today today1 today2 pub d Hnext), E. now apply IH.
Qed.

(** The index a walk leaves names its last publication. *)
Lemma walk_last today n : forall u d u' d',
  walk web today (S n) u d = Some (u', d') ->
  exists last pub,
    data_curr_pub d' = Some last /\ truthy (Some last) = true /\
    Publication_init web last = Ok pub /\ next pub = u'.
Proof.
  induction n as [|n IH]; intros u d u' d' H.
  - cbn [walk] in H. destruct (truthy u) eqn:Hu; [|discriminate].
    destruct (Publication_init web (str_of u)) as [pub|] eqn:Hp; [|discriminate].
    destruct (addToIndex today pub d) as [d0|] eqn:E; [|discriminate].
    injection H as <- <-. exists (str_of u), pub.
    destruct (addToIndex_state_updated today pub d d0 E) as [Hcur _].
    rewrite (Publication_init_url _ _ Hp) in Hcur.
    repeat split; auto. now rewrite (truthy_str_of u Hu).
  - change (walk web today (S (S n)) u d)
      with (if truthy u then
              match Publication_init web (str_of u) with
              | Ok pub =>
                  match addToIndex today pub d with
                  | Ok d1 => walk web today (S n) (next pub) d1
                  | Raise _ => None
                  end
              | Raise _ => None
              end
            else None) in H.
    destruct (truthy u); [|discriminate].
    destruct (Publication_init web (str_of u)) as [pub|]; [|discriminate].
    destruct (addToIndex today pub d) as [d0|]; [|discriminate].
    now apply IH in H.
Qed.

Lemma main_loop_done today maxPubs fuel u k d :
  truthy u = false -> main_loop web today maxPubs fuel u k d = Some (Ok (d, k)).
Proof. intros H. destruct fuel; cbn [main_loop]; now rewrite H. Qed.

(** The loop ends after the publications of a walk when the bound or the
    end of the chain stops it there. *)
Lemma main_loop_stops today maxPubs n u d u' d' fuel :
  walk web today n u d = Some (u', d') ->
  stops_after maxPubs n u' ->
  (n <= fuel)%nat ->
  main_loop web today maxPubs fuel u 0 d = Some (Ok (d', Z.of_nat n)).
Proof.
  intros Hwalk Hstop Hfuel.
  replace fuel with (n + (fuel - n))%nat by lia.
  rewrite (main_loop_walk web today maxPubs n (fuel - n) u 0 d u' d' Hwalk).
  - destruct n as [|n'].
    + cbn [walk] in Hwalk. injection Hwalk as <- <-.
      destruct maxPubs as [m|]; cbn [stops_after] in Hstop; [lia|].
      now apply main_loop_done.
    + destruct maxPubs as [m|]; cbn [stops_after within] in *.
      * destruct Hstop as [Hm Hn].
        replace (0 + Z.of_nat (S n') <=? m)%Z with false
          by (symmetry; apply Z.leb_gt; lia).
        now apply main_loop_done.
      * now apply main_loop_done.
  - intros i Hi. destruct maxPubs as [m|]; cbn [stops_after within] in *;
      [apply Z.leb_le; lia | reflexivity].
Qed.

(** X12: the script resumes where it stopped: on the index a walk has
    left, [main] reads the last merged publication again and goes on from
    its next pointer, with the index as it is; when that publication has no
    next pointer, [main] ends at once and leaves the index as it is. *)
Theorem main_resumes today today' maxPubs n u d u' d' fuel :
  walk web today (S n) u d = Some (u', d') ->
  main web today' maxPubs fuel d' = main_loop web today' maxPubs fuel u' 0 d' /\
  (truthy u' = false -> main web today' maxPubs fuel d' = Some (Ok (d', 0%Z))).
Proof.
  intros H. destruct (walk_last today n u d u' d' H) as (last & pub & Hcur & Ht & Hp & Hn).
  assert (Hmain : main web today' maxPubs fuel d'
                  = main_loop web today' maxPubs fuel u' 0 d').
  { unfold main. rewrite Hcur, Ht. cbn [str_of]. rewrite Hp. cbn [bind].
    now rewrite Hn. }
  split; [exact Hmain|]. intros Hu'. rewrite Hmain. now apply main_loop_done.
Qed.

(** X13: a run that a bound interrupts and a second run without a bound
    give the index of a single run without a bound: the first run, started
    on any day, merges [a] publications; the second, run on the index the
    first has left, merges the [b] that remain; the index at the end is the
    one a single run would have built. *)
Theorem resumed_run today1 today2 a b u d u' d' fuel :
  (1 <= a)%nat -> (1 <= b)%nat ->
  walk web today2 (a + b) u d = Some (u', d') ->
  truthy u' = false ->
  (a + b <= fuel)%nat ->
  exists d1,
    main_loop web today1 (Some (Z.of_nat a - 1)%Z) fuel u 0 d
    = Some (Ok (d1, Z.of_nat a)) /\
    main web today2 None fuel d1 = Some (Ok (d', Z.of_nat b)) /\
    main_loop web today2 None fuel u 0 d = Some (Ok (d', Z.of_nat (a + b))).
Proof.
  intros Ha Hb Hwalk Hend Hfuel.
  destruct (walk_split today2 a b u d u' d' Hwalk) as (u1 & d1 & Hw1 & Hw2).
  assert (Hu1 : truthy u1 = true).
  { destruct b as [|b']; [lia|]. cbn [walk] in Hw2.
    destruct (truthy u1); [reflexivity | discriminate]. }
  exists d1. split; [|split].
  - apply (main_loop_stops today1 _ a u d u1 d1);
      [now apply walk_today with (today2 := today2) | | lia].
    cbn [stops_after]. lia.
  - destruct a as [|a']; [lia|].
    destruct (main_resumes today2 today2 None a' u d u1 d1 fuel Hw1) as [-> _].
    apply (main_loop_stops today2 None b u1 d1 u' d'); [exact Hw2 | exact Hend | lia].
  - apply (main_loop_stops today2 None (a + b) u d u' d'); [exact Hwalk | exact Hend | lia].
Qed.

(** X14: the loop swallows no exception: when, after a walk that the
    bound allows, the next publication cannot be read or classified, or its
    merge raises, the run ends with that exception and no index. *)
Theorem main_loop_raises today maxPubs n u d u1 d1 e fuel :
  walk web today n u d = Some (u1, d1) ->
  (forall i, (0 < i <= n)%nat -> within maxPubs (Z.of_nat i) = true) ->
  truthy u1 = true ->
  Publication_init web (str_of u1) = Raise e \/
  (exists pub, Publication_init web (str_of u1) = Ok pub /\
               addToIndex today pub d1 = Raise e) ->
  (n < fuel)%nat ->
  main_loop web today maxPubs fuel u 0 d = Some (Raise e).
Proof.
  intros Hwalk Hin Hu1 Hfail Hfuel.
  replace fuel with (n + S (fuel - S n))%nat by lia.
  rewrite (main_loop_walk web today maxPubs n (S (fuel - S n)) u 0 d u1 d1 Hwalk)
    by (intros i Hi; apply Hin; lia).
  assert (Hstep : forall k,
             main_loop web today maxPubs (S (fuel - S n)) u1 k d1 = Some (Raise e)).
  { intros k. cbn [main_loop]. rewrite Hu1.
    destruct Hfail as [-> | (pub & -> & ->)]; reflexivity. }
  destruct n as [|n'].
  - cbn [walk] in Hwalk. injection Hwalk as <- <-. apply Hstep.
  - change (0 + Z.of_nat (S n'))%Z with (Z.of_nat (S n')).
    rewrite (Hin (S n')) by lia. apply Hstep.
Qed.

End WalkFacts.

Lemma main_resumes_witness :
  exists d',
    walk sample_web "2026-11-04" 2 (Some "https://example.org/30") sample_index
    = Some (None, d') /\
    main sample_web "2026-11-05" None 0 d' = Some (Ok (d', 0%Z)).
Proof.
  destruct (walk sample_web "2026-11-04" 2 (Some "https://example.org/30") sample_index)
    as [[u' d']|] eqn:E; [|discriminate E].
  assert (Hu : u' = None) by (injection E as <- _; reflexivity). subst u'.
  exists d'. split; [reflexivity|].
  exact (proj2 (main_resumes sample_web "2026-11-04" "2026-11-05" None 1
                  (Some "https://example.org/30") sample_index None d' 0 E) eq_refl).
Defined.

Lemma resumed_run_witness :
  exists d1 d',
    main_loop sample_web "2026-11-03" (Some 0%Z) 2
      (Some "https://example.org/30") 0 sample_index = Some (Ok (d1, 1%Z)) /\
    main sample_web "2026-11-04" None 2 d1 = Some (Ok (d', 1%Z)) /\
    main_loop sample_web "2026-11-04" None 2
      (Some "https://example.org/30") 0 sample_index = Some (Ok (d', 2%Z)).
Proof.
  destruct (walk sample_web "2026-11-04" (1 + 1) (Some "https://example.org/30")
              sample_index) as [[u' d']|] eqn:E; [|discriminate E].
  assert (Hu : truthy u' = false) by (injection E as <- _; reflexivity).
  destruct (resumed_run sample_web "2026-11-03" "2026-11-04" 1 1
              (Some "https://example.org/30") sample_index u' d' 2
              (le_n 1) (le_n 1) E Hu (le_n 2)) as (d1 & H1 & H2 & H3).
  exists d1, d'. auto.
Defined.

Lemma main_loop_raises_witness :
  main_loop (fun u => if String.eqb u "https://example.org/30" then Some sample_page
                      else None)
    "2026-11-04" None 5 (Some "https://example.org/30") 0 sample_index
  = Some (Raise FetchError).
Proof.
  destruct (walk (fun u => if String.eqb u "https://example.org/30" then Some sample_page
                           else None)
              "2026-11-04" 1 (Some "https://example.org/30") sample_index)
    as [[u1 d1]|] eqn:E; [|discriminate E].
  apply (main_loop_raises _ "2026-11-04" None 1 (Some "https://example.org/30")
           sample_index u1 d1 FetchError 5 E).
  - reflexivity.
  - injection E as <- _. reflexivity.
  - left. injection E as <- _. reflexivity.
  - lia.
Defined.

(** ** Year ranges *)

Section YearFacts.
Import Str Re.



Lemma digit19_digit c : is_digit19 c = true -> is_digit c = true.
Proof.
  unfold is_digit19, is_digit, in_range. intros H.
  apply andb_true_iff in H. destruct H as [H1 H2].
  apply Nat.leb_le in H1. apply Nat.leb_le in H2.
  apply andb_true_iff. split; apply Nat.leb_le; lia.
Qed.




Lemma digits_value s acc prev :
  all is_digit s = true -> prev = true \/ s <> "" ->
  PyInt.digits acc prev s = Some (value_acc acc s).
Proof.
  revert acc prev; induction s as [|c s IH]; intros acc prev Hall Hne;
    cbn [PyInt.digits value_acc].
  - destruct Hne as [-> | Hne]; [reflexivity | contradiction].
  - cbn [all] in Hall. apply andb_true_iff in Hall. destruct Hall as [Hc Hs].
    rewrite Hc. apply IH; auto.
Qed.

(** [int] reads a text of digits as the number it denotes. *)
Lemma py_int_digits s :
  all is_digit s = true -> s <> "" -> py_int s = Ok (value s).
Proof.
  intros Hall Hne. destruct s as [|d ds]; [contradiction|].
  pose proof Hall as Hall'. cbn [all] in Hall'.
  apply andb_true_iff in Hall'. destruct Hall' as [Hd Hds].
  unfold py_int, PyInt.parse. cbn [PyInt.lstrip]. rewrite (digit_not_ws d Hd).
  rewrite <- (append_nil_r (String d ds)) at 1.
  rewrite rstrip_digits; [|exact Hall | now left].
  destruct (digit_not_sign d Hd) as [-> ->].
  rewrite (digits_value (String d ds) 0 false Hall); [reflexivity|].
  right; discriminate.
Qed.






Lemma start_year_inv F :
  is_start_year F = true ->
  exists c r, F = String c r /\ is_digit19 c = true /\ all is_digit r = true /\
              (2 <= String.length F)%nat.
Proof.
  destruct F as [|c [|d r]]; try discriminate. cbn [is_start_year]. intros H.
  apply andb_true_iff in H. destruct H as [H Hr].
  apply andb_true_iff in H. destruct H as [Hc Hd].
  exists c, (String d r). repeat split; auto.
  - cbn [all]. now rewrite Hd, Hr.
  - cbn [String.length]. lia.
Qed.





Lemma split_digits F rest :
  all is_digit F = true ->
  split "-" (F ++ String "-" rest) = F :: split "-" rest.
Proof.
  induction F as [|c F IH]; intros Hall; cbn [append split].
  - reflexivity.
  - cbn [all] in Hall. apply andb_true_iff in Hall. destruct Hall as [Hc HF].
    rewrite (proj1 (digit_not_sign c Hc)), (IH HF). reflexivity.
Qed.

Lemma split_no_dash T : all is_digit T = true -> split "-" T = [T].
Proof.
  induction T as [|c T IH]; intros Hall; cbn [split]; [reflexivity|].
  cbn [all] in Hall. apply andb_true_iff in Hall. destruct Hall as [Hc HT].
  rewrite (proj1 (digit_not_sign c Hc)), (IH HT). reflexivity.
Qed.

(** A greedy repetition takes the whole run when what follows the run is not
    in the class and the rest of the pattern accepts there. *)
Lemma exec_plus_greedy p W tail pos cs (k : cont) m :
  W <> "" -> all p W = true ->
  (tail = "" \/ exists c r, tail = String c r /\ p c = false) ->
  k (pos + String.length W)%nat tail cs = Some m ->
  exec (Plus p) pos (W ++ tail) cs k = Some m.
Proof.
  intros Hne Hall Htail Hk. destruct W as [|w W]; [contradiction|].
  cbn [all] in Hall. apply andb_true_iff in Hall. destruct Hall as [Hw HW].
  unfold Plus. cbn [exec append]. rewrite Hw.
  apply star_append; [exact HW|].
  cbn [String.length] in Hk.
  replace (S pos + String.length W)%nat with (pos + S (String.length W))%nat by lia.
  destruct Htail as [-> | (c & r & -> & Hc)]; cbn [star]; [exact Hk|].
  now rewrite Hc.
Qed.

Lemma ends_years_inv tail :
  ends_years tail = true ->
  tail = "" \/ exists c r, tail = String c r /\ Pat.digit_or_dash c = false.
Proof.
  destruct tail as [|c r]; [now left|]. cbn [ends_years]. intros H.
  right. exists c, r. split; [reflexivity|]. now apply negb_true_iff.
Qed.

Lemma digits_or_dash s : all is_digit s = true -> all Pat.digit_or_dash s = true.
Proof.
  induction s as [|c s IH]; cbn [all]; [reflexivity|]. intros H.
  apply andb_true_iff in H. destruct H as [Hc Hs].
  unfold Pat.digit_or_dash at 1. now rewrite Hc, (IH Hs).
Qed.

(** The pattern for years captures the whole run of digits and hyphens
    after the label. *)
Lemma search_years_run c d W tail :
  is_digit19 c = true -> is_digit d = true ->
  W <> "" -> all Pat.digit_or_dash W = true -> ends_years tail = true ->
  exists m, search Pat.years ("Period: " ++ String c (String d (W ++ tail))) = Some m /\
            group 1 m = String c (String d W).
Proof.
  intros Hc Hd Hne HW Htail. unfold search, Pat.years.
  cbn [search_from exec append strip_prefix Ascii.eqb Bool.eqb String.length Nat.eqb].
  rewrite Hc, Hd.
  erewrite exec_plus_greedy;
    [ | exact Hne | exact HW | exact (ends_years_inv tail Htail)
      | cbn [accept]; reflexivity ].
  eexists; split; [reflexivity|].
  lazy [group lookup m_caps Nat.eqb].
  change (String c (String d (W ++ tail))) with (String c (String d W) ++ tail).
  apply take_prefix. cbn [String.length]. lia.
Qed.

Lemma search_years F T tail :
  is_start_year F = true -> all is_digit T = true -> ends_years tail = true ->
  exists m, search Pat.years ("Period: " ++ F ++ "-" ++ T ++ tail) = Some m /\
            group 1 m = F ++ "-" ++ T.
Proof.
  intros HF HT Htail. destruct F as [|c [|d r]]; try discriminate HF.
  cbn [is_start_year] in HF. apply andb_true_iff in HF. destruct HF as [HF Hr].
  apply andb_true_iff in HF. destruct HF as [Hc Hd].
  destruct (search_years_run c d (r ++ "-" ++ T) tail Hc Hd) as (m & Hm & Hg).
  - destruct r; discriminate.
  - rewrite all_append. rewrite (digits_or_dash r Hr). cbn [append all].
    now rewrite (digits_or_dash T HT).
  - exact Htail.
  - exists m. split; [|exact Hg].
    rewrite <- Hm. do 2 f_equal. cbn [append]. do 2 f_equal.
    rewrite append_assoc. reflexivity.
Qed.

Lemma label_one_line F T tail :
  is_start_year F = true -> all is_digit T = true -> one_line tail = true ->
  one_line ("Period: " ++ F ++ "-" ++ T ++ tail) = true.
Proof.
  intros HF HT Htail.
  destruct (start_year_inv F HF) as (c & r & -> & Hc & Hr & _).
  assert (Hd : forall s, all is_digit s = true -> all not_LF s = true).
  { induction s as [|x s IH]; cbn [all]; [reflexivity|]. intros H.
    apply andb_true_iff in H. destruct H as [Hx Hs]. rewrite (IH Hs).
    destruct (Ascii.eqb_spec x LF) as [->|Hn]; [discriminate Hx|].
    unfold not_LF. destruct (Ascii.eqb_spec x LF); [contradiction | reflexivity]. }
  unfold one_line in *. rewrite !all_append.
  rewrite (Hd (String c r)), (Hd T HT), Htail; [reflexivity|].
  cbn [all]. now rewrite (digit19_digit c Hc), Hr.
Qed.

Lemma period_of_years text F T tail :
  replace nbsp " " text = "Period: " ++ F ++ "-" ++ T ++ tail ->
  is_start_year F = true -> all is_digit T = true ->
  ends_years tail = true -> one_line tail = true ->
  period_of_elem "" (Elem (Some text) [])
  = (fr <- py_int F ;;
     to <- py_int T ;;
     let to :=
       if (to <? 10)%Z then (fr / 10 * 10 + to)%Z
       else if (to <? 100)%Z then (fr / 100 * 100 + to)%Z
       else to in
     Ok (PyInt.to_string fr ++ "-" ++ PyInt.to_string to)).
Proof.
  intros Hrep HF HT Htail Hline. unfold period_of_elem.
  cbn [innermost elem_text]. rewrite Hrep.
  destruct (search_period_ok ("Period: " ++ F ++ "-" ++ T ++ tail)) as [pm ->].
  { reflexivity. }
  { now apply label_one_line. }
  destruct (search_years F T tail HF HT Htail) as (m & -> & ->).
  destruct (start_year_inv F HF) as (c & r & EF & Hc & Hr & _).
  change ("-" ++ T) with (String "-" T).
  rewrite split_digits, (split_no_dash T HT); [reflexivity|].
  rewrite EF. cbn [all]. now rewrite (digit19_digit c Hc), Hr.
Qed.


(** X16: a label whose start year is followed by a bare hyphen, with no
    digit after it, always raises ValueError: the split leaves an empty end
    year and [int('')] fails. *)
Theorem getPeriod_open_range title D text F tail :
  title <> cyprus_title -> period_label D text ->
  replace nbsp " " text = "Period: " ++ F ++ "-" ++ tail ->
  is_start_year F = true -> ends_years tail = true -> one_line tail = true ->
  getPeriod title D = Raise ValueError.
Proof.
  intros Ht HD Hrep HF Htail Hline.
  rewrite (getPeriod_label title D text Ht HD).
  rewrite (period_of_years text F "" tail Hrep HF eq_refl Htail Hline).
  destruct (start_year_inv F HF) as (c & r & EF & Hc & Hr & _).
  assert (HFd : all is_digit F = true).
  { rewrite EF. cbn [all]. now rewrite (digit19_digit c Hc), Hr. }
  rewrite (py_int_digits F HFd) by (rewrite EF; discriminate).
  reflexivity.
Qed.

(** X17: a label with a single year of three digits or more, followed by
    nothing or by a text that starts with neither a digit nor a hyphen,
    gives the year as it is written; what follows the year is dropped and
    [int] is not called. *)
Theorem getPeriod_single_year title D text F tail :
  title <> cyprus_title -> period_label D text ->
  replace nbsp " " text = "Period: " ++ F ++ tail ->
  is_start_year F = true -> (3 <= String.length F)%nat ->
  ends_years tail = true -> one_line tail = true ->
  getPeriod title D = Ok F.
Proof.
  intros Ht HD Hrep HF Hlen Htail Hline.
  rewrite (getPeriod_label title D text Ht HD).
  unfold period_of_elem. cbn [innermost elem_text]. rewrite Hrep.
  destruct (start_year_inv F HF) as (c & r & EF & Hc & Hr & _).
  assert (HFd : all is_digit F = true).
  { rewrite EF. cbn [all]. now rewrite (digit19_digit c Hc), Hr. }
  destruct (search_period_ok ("Period: " ++ F ++ tail)) as [pm ->].
  { reflexivity. }
  { pose proof (label_one_line F "" tail HF eq_refl Hline) as H.
    unfold one_line in *. rewrite !all_append in *.
    apply andb_true_iff in H. destruct H as [_ H].
    apply andb_true_iff in H. destruct H as [H1 H]. cbn [append all] in H.
    now rewrite H1, Hline. }
  destruct F as [|c' [|d [|e W]]]; try discriminate HF;
    try (cbn [String.length] in Hlen; lia).
  cbn [is_start_year all] in HF.
  apply andb_true_iff in HF. destruct HF as [HF HW].
  apply andb_true_iff in HF. destruct HF as [Hc' Hd].
  destruct (search_years_run c' d (String e W) tail Hc' Hd) as (m & Hm & Hg).
  - discriminate.
  - apply digits_or_dash. exact HW.
  - exact Htail.
  - cbn [append] in Hm |- *. rewrite Hm, Hg.
    now rewrite (split_no_dash _ HFd).
Qed.

End YearFacts.


Lemma getPeriod_open_range_witness :
  getPeriod "Episode" (page_with_period "Period: 330- (founding)") = Raise ValueError.
Proof.
  apply (getPeriod_open_range "Episode" (page_with_period "Period: 330- (founding)")
           "Period: 330- (founding)" "330" " (founding)").
  - discriminate.
  - eexists; split; reflexivity.
  - reflexivity.
  - reflexivity.
  - reflexivity.
  - reflexivity.
Defined.

Lemma getPeriod_single_year_witness :
  getPeriod "Episode" (page_with_period "Period: 1204 AD") = Ok "1204".
Proof.
  apply (getPeriod_single_year "Episode" (page_with_period "Period: 1204 AD")
           "Period: 1204 AD" "1204" " AD").
  - discriminate.
  - eexists; split; reflexivity.
  - reflexivity.
  - reflexivity.
  - cbn [String.length]. lia.
  - reflexivity.
  - reflexivity.
Defined.
